(** * PeerPigeon-Go signaling server: a shallow embedding of
      [internal/server/server.go] and the hub-mesh client that follows it
      in the same package, with the properties of the specification that
      concern the connection lifecycle, discovery fan-out, signaling
      routing and hub relay.

    Conventions of the embedding.
    - A pointer to a [websocket.Conn] is a natural number (its identity); a nil
      pointer is [None].
    - Go maps are [gmap]s, the [map[string]struct{}] sets are [gset]s.
      Iteration over a Go map has no fixed order; the model iterates in
      the order of [map_to_list]/[elements], and no theorem depends on it.
    - A nil [map[string]interface{}] and an empty one are both [∅]: the
      code only ranges over such maps or overlays them.
    - The mutexes are not modelled: every handler runs as one atomic
      transition of the server state, and the writes it performs on
      sockets are recorded, in order, as a list of [event]s.
    - [nowMs()] is an input of each transition; every call of it inside
      one handler invocation reads that same instant.
    - A nil-pointer dereference is the outcome [Panic]. *)

From Stdlib Require Import ZArith Ascii String DecimalString.
From stdpp Require Import gmap strings list fin_maps sorting.

Set Warnings "-register-all".
Set Default Proof Using "Type".

(** ** Go library functions used by the server *)

Module Go.

(** [strings.asciiSpace]: tab, newline, vertical tab, form feed,
    carriage return and space. *)
Definition asciiSpace (c : ascii) : bool :=
  match Ascii.N_of_ascii c with
  | 9%N | 10%N | 11%N | 12%N | 13%N | 32%N => true
  | _ => false
  end.

(** [c >= utf8.RuneSelf] *)
Definition nonAscii (c : ascii) : bool := (128 <=? Ascii.N_of_ascii c)%N.

Fixpoint dropAsciiSpace (l : list ascii) : list ascii :=
  match l with
  | c :: l' => if asciiSpace c then dropAsciiSpace l' else l
  | [] => []
  end.

Section TrimSpace.
(** The Unicode-aware slow paths of [strings.TrimSpace], taken when a
    byte outside ASCII is met: [TrimFunc(s, unicode.IsSpace)] and
    [TrimRightFunc(s, unicode.IsSpace)]. *)
Variable TrimFunc_IsSpace : string → string.
Variable TrimRightFunc_IsSpace : string → string.

(** [strings.TrimSpace]: scan ASCII space from the left, then from the
    right; fall back to the Unicode path at the first non-ASCII byte. *)
Definition TrimSpace (s : string) : string :=
  match dropAsciiSpace (list_ascii_of_string s) with
  | [] => ""
  | c :: l =>
      if nonAscii c then TrimFunc_IsSpace (string_of_list_ascii (c :: l))
      else
        match dropAsciiSpace (rev (c :: l)) with
        | [] => ""
        | c' :: r =>
            if nonAscii c'
            then TrimRightFunc_IsSpace (string_of_list_ascii (rev (c' :: r)))
            else string_of_list_ascii (rev (c' :: r))
        end
  end.
End TrimSpace.

(** [strings.HasPrefix] and [strings.TrimPrefix] *)
Definition HasPrefix (s pre : string) : bool := String.prefix pre s.

Definition TrimPrefix (s pre : string) : string :=
  if HasPrefix s pre
  then String.substring (String.length pre) (String.length s - String.length pre) s
  else s.

(** [strconv.Itoa]; the package's [itoa] is taken to be it. *)
Definition Itoa (n : Z) : string := NilZero.string_of_int (Z.to_int n).

(** Two's-complement [int64] subtraction. *)
Definition wrap64 (z : Z) : Z := ((z + 2 ^ 63) mod 2 ^ 64 - 2 ^ 63)%Z.
Definition sub64 (a b : Z) : Z := wrap64 (a - b).

(** [sort.Strings]: ascending byte-wise lexicographic order. *)
Definition strLe (a b : string) : Prop := String.leb a b = true.

Global Instance strLe_dec a b : Decision (strLe a b).
Proof. unfold strLe. apply _. Defined.

Definition sortStrings (l : list string) : list string := merge_sort strLe l.

(** ** The part of [net/url] that the self-dial guard reads *)

(** [url.URL]: [Host] holds "host" or "host:port". *)
Record URL := mkURL { Scheme : string; Host : string }.

(** [validOptionalPort]: empty, or a colon followed by digits only. *)
Definition isDigit (c : ascii) : bool :=
  ((48 <=? Ascii.N_of_ascii c) && (Ascii.N_of_ascii c <=? 57))%N.

Definition validOptionalPort (p : list ascii) : bool :=
  match p with
  | [] => true
  | c :: ds => if Ascii.eqb c ":" then forallb isDigit ds else false
  end.

(** [strings.LastIndexByte(s, ':')] as the split of [s] around its last
    colon: [Some (before, from_colon_on)]. *)
Fixpoint splitLastColon (l : list ascii) : option (list ascii * list ascii) :=
  match l with
  | [] => None
  | c :: l' =>
      match splitLastColon l' with
      | Some (pre, suf) => Some (c :: pre, suf)
      | None => if Ascii.eqb c ":" then Some ([], c :: l') else None
      end
  end.

Definition stripBrackets (h : list ascii) : list ascii :=
  match h with
  | c :: t =>
      if Ascii.eqb c "["
      then match rev t with
           | d :: m => if Ascii.eqb d "]" then rev m else h
           | [] => h
           end
      else h
  | [] => h
  end.

(** [url.splitHostPort] *)
Definition splitHostPort (hostPort : string) : string * string :=
  let hp := list_ascii_of_string hostPort in
  let '(host, port) :=
    match splitLastColon hp with
    | Some (pre, suf) =>
        if validOptionalPort suf then (pre, tail suf) else (hp, [])
    | None => (hp, [])
    end in
  (string_of_list_ascii (stripBrackets host), string_of_list_ascii port).

(** The methods [Hostname] and [Port] of [URL] *)
Definition Hostname (u : URL) : string := fst (splitHostPort (Host u)).
Definition Port (u : URL) : string := snd (splitHostPort (Host u)).

End Go.

(** ** JSON values: Go's [interface{}] after [json.Unmarshal] *)

Inductive jvalue : Type :=
  | JNull
  | JBool (b : bool)
  | JNumber (n : Z)
  | JString (s : string)
  | JArray (l : list jvalue)
  | JObject (m : gmap string jvalue).

Abbreviation jmap := (gmap string jvalue).

(** [mergeMap]: copy [a], then overlay [b]. *)
Definition mergeMap (a b : jmap) : jmap :=
  let out : jmap := ∅ in
  let out := map_fold (λ k v (acc : jmap), <[k:=v]> acc) out a in
  map_fold (λ k v (acc : jmap), <[k:=v]> acc) out b.

(** ** Data model *)

(** Identity of a websocket connection. *)
Abbreviation conn := nat.

(** Close codes of the websocket library. *)
Definition ClosePolicyViolation : Z := 1008.
Definition CloseAbnormalClosure : Z := 1006.

(** The fields of [Options] that the server core reads. *)
Record Options := mkOptions {
  opt_Host : string;
  opt_Port : Z;
  opt_MaxConnections : Z;
  opt_IsHub : bool;
  opt_HubMeshNamespace : string;
  opt_BootstrapHubs : list string;
  opt_AuthToken : string;
  opt_MaxReconnectAttempts : Z
}.

(** The JSON envelope a client sends ([targetPeerId] is [TargetPeer]). *)
Record inboundMessage := mkInbound {
  in_Type : string;
  in_Data : jvalue;
  in_FromPeerId : string;
  in_TargetPeer : string;
  in_NetworkName : string
}.

(** The JSON envelope the server writes. *)
Record outboundMessage := mkOutbound {
  out_Type : string;
  out_Data : jvalue;
  out_FromPeerId : string;
  out_TargetPeer : string;
  out_NetworkName : string;
  out_Timestamp : Z
}.

Record peerInfo := mkPeerInfo {
  pi_PeerId : string;
  pi_ConnectedAt : Z;
  pi_LastActivity : Z;
  pi_RemoteAddress : string;
  pi_Connected : bool;
  pi_Announced : bool;
  pi_AnnouncedAt : Z;
  pi_NetworkName : string;
  pi_IsHub : bool;
  pi_Data : jmap
}.

Record hubInfo := mkHubInfo {
  hub_PeerId : string;
  hub_RegisteredAt : Z;
  hub_LastActivity : Z;
  hub_NetworkName : string;
  hub_Data : jmap
}.

(** [bootstrapConn] without its reconnect timer. *)
Record bootstrapConn := mkBootstrapConn {
  bc_uri : string;
  bc_ws : option conn;
  bc_connected : bool;
  bc_lastAttempt : Z;
  bc_attemptNum : Z
}.

(** The mutable state of [Server]. *)
Record Server := mkServer {
  opts : Options;
  port : Z;
  running : bool;
  wsConns : gmap string conn;
  peerData : gmap string peerInfo;
  networkPeers : gmap string (gset string);
  hubs : gmap string hubInfo;
  relayed : gmap string Z;
  hubPeerId : string;
  bootstrapConns : gmap string bootstrapConn;
  crossHubCache : gmap string (gmap string jmap)
}.

Definition set_wsConns (f : gmap string conn → gmap string conn) (s : Server) : Server :=
  mkServer (opts s) (port s) (running s) (f (wsConns s)) (peerData s) (networkPeers s)
           (hubs s) (relayed s) (hubPeerId s) (bootstrapConns s) (crossHubCache s).

Definition set_peerData (f : gmap string peerInfo → gmap string peerInfo) (s : Server) : Server :=
  mkServer (opts s) (port s) (running s) (wsConns s) (f (peerData s)) (networkPeers s)
           (hubs s) (relayed s) (hubPeerId s) (bootstrapConns s) (crossHubCache s).

Definition set_networkPeers (f : gmap string (gset string) → gmap string (gset string))
    (s : Server) : Server :=
  mkServer (opts s) (port s) (running s) (wsConns s) (peerData s) (f (networkPeers s))
           (hubs s) (relayed s) (hubPeerId s) (bootstrapConns s) (crossHubCache s).

Definition set_hubs (f : gmap string hubInfo → gmap string hubInfo) (s : Server) : Server :=
  mkServer (opts s) (port s) (running s) (wsConns s) (peerData s) (networkPeers s)
           (f (hubs s)) (relayed s) (hubPeerId s) (bootstrapConns s) (crossHubCache s).

Definition set_relayed (f : gmap string Z → gmap string Z) (s : Server) : Server :=
  mkServer (opts s) (port s) (running s) (wsConns s) (peerData s) (networkPeers s)
           (hubs s) (f (relayed s)) (hubPeerId s) (bootstrapConns s) (crossHubCache s).

Definition set_bootstrapConns
    (f : gmap string bootstrapConn → gmap string bootstrapConn) (s : Server) : Server :=
  mkServer (opts s) (port s) (running s) (wsConns s) (peerData s) (networkPeers s)
           (hubs s) (relayed s) (hubPeerId s) (f (bootstrapConns s)) (crossHubCache s).

Definition set_crossHubCache
    (f : gmap string (gmap string jmap) → gmap string (gmap string jmap)) (s : Server) : Server :=
  mkServer (opts s) (port s) (running s) (wsConns s) (peerData s) (networkPeers s)
           (hubs s) (relayed s) (hubPeerId s) (bootstrapConns s) (f (crossHubCache s)).

(** [NewServer], with the generated hub peer id as an input. *)
Definition NewServer (o : Options) (generated : string) : Server :=
  mkServer o (opt_Port o) false ∅ ∅ ∅ ∅ ∅ (if opt_IsHub o then generated else "") ∅ ∅.

(** ** Observable effects *)

Inductive event :=
  | EvWriteMessage (c : conn) (m : outboundMessage)
      (* conn.WriteMessage(TextMessage, json(m)) on a client socket *)
  | EvWriteControlClose (c : conn) (code : Z) (text : string)
      (* conn.WriteControl(CloseMessage, FormatCloseMessage(code, text)) *)
  | EvClose (c : conn)
  | EvHttpError (status : Z) (body : string)
  | EvGoReadLoop (peerId : string) (c : conn)
  | EvDial (url : string)
  | EvWriteJSONMsg (ws : conn) (m : outboundMessage)
      (* ws.WriteJSON(resp) on a bootstrap link *)
  | EvWriteJSONMap (ws : conn) (payload : jmap).
      (* ws.WriteJSON(map) on a bootstrap link *)

(** ** Handlers: state, event log, and the outcome of a nil dereference *)

Inductive result (A : Type) :=
  | Ok (a : A)
  | Panic.
Arguments Ok {A} a.
Arguments Panic {A}.

Definition Handler (A : Type) : Type := Server → result (A * Server * list event).

#[global] Instance Handler_ret : MRet Handler := λ A a s, Ok (a, s, []).

#[global] Instance Handler_bind : MBind Handler := λ A B f m s,
  match m s with
  | Panic => Panic
  | Ok (a, s1, e1) =>
      match f a s1 with
      | Panic => Panic
      | Ok (b, s2, e2) => Ok (b, s2, e1 ++ e2)
      end
  end.

Definition gets {A} (f : Server → A) : Handler A := λ s, Ok (f s, s, []).
Definition modify (f : Server → Server) : Handler unit := λ s, Ok (tt, f s, []).
Definition emit (e : event) : Handler unit := λ s, Ok (tt, s, [e]).
Definition panic {A} : Handler A := λ _, Panic.

(** [for _, x := range l { f x }] *)
Fixpoint forM_ {A} (l : list A) (f : A → Handler unit) : Handler unit :=
  match l with
  | [] => mret tt
  | x :: l' => f x;; forM_ l' f
  end.

(** ** The server core *)

(** What the core takes from outside the files at hand: the slow paths of
    [strings.TrimSpace] (see [Go.TrimSpace]), and two helpers of the
    package that are declared in a file not at hand, the fingerprint of a
    signaling payload and the syntactic check of a peer id. *)
Class Externals := {
  TrimFunc_IsSpace : string → string;
  TrimRightFunc_IsSpace : string → string;
  hashSignalData : jvalue → string;
  validatePeerId : string → bool
}.

Section ServerCore.

Context `{Externals}.

Definition firstNonEmpty (a b : string) : string :=
  if decide (Go.TrimSpace TrimFunc_IsSpace TrimRightFunc_IsSpace a ≠ "") then a else b.

Definition getConn (id : string) : Handler (option conn) :=
  gets (λ s, wsConns s !! id).

Definition getPeerInfo (id : string) : Handler (option peerInfo) :=
  gets (λ s, peerData s !! id).

Definition sendToConn (c : option conn) (msg : outboundMessage) : Handler bool :=
  match c with
  | None => mret false
  | Some c => emit (EvWriteMessage c msg);; mret true
  end.

(** [m := msg; m.TargetPeer = id] *)
Definition with_TargetPeer (msg : outboundMessage) (id : string) : outboundMessage :=
  mkOutbound (out_Type msg) (out_Data msg) (out_FromPeerId msg) id
             (out_NetworkName msg) (out_Timestamp msg).

Fixpoint broadcastLoop (ids : list string) (msg : outboundMessage) (count : Z) : Handler Z :=
  match ids with
  | [] => mret count
  | id :: ids' =>
      c ← getConn id;
      sent ← sendToConn c (with_TargetPeer msg id);
      broadcastLoop ids' msg (if sent : bool then count + 1 else count)%Z
  end.

Definition broadcastToOthers (sender : string) (msg : outboundMessage) : Handler Z :=
  ws ← gets wsConns;
  let ids := filter (λ id, id ≠ sender) (map_to_list ws).*1 in
  broadcastLoop ids msg 0%Z.

Definition forwardToLocalTarget (target : string) (msg : outboundMessage) : Handler bool :=
  c ← getConn target;
  sendToConn c msg.

Definition getActivePeers (exclude netName : string) : Handler (list string) :=
  nets ← gets networkPeers;
  match nets !! netName with
  | None => mret []
  | Some set =>
      ws ← gets wsConns;
      mret (Go.sortStrings
              (filter (λ id, id ≠ exclude ∧ is_Some (ws !! id)) (elements set)))
  end.

Definition registerHub (now : Z) (peerId netName : string) (data : jmap) : Handler unit :=
  modify (set_hubs <[peerId := mkHubInfo peerId now now netName data]>).

Definition broadcastPeerDiscovered (now : Z) (peerId netName : string) (isHub : bool)
    (data : jmap) : Handler unit :=
  peers ← getActivePeers "" netName;
  forM_ peers (λ other,
    if decide (other = peerId) then mret tt
    else
      forwardToLocalTarget other
        (mkOutbound "peer-discovered"
           (JObject (mergeMap data {[ "peerId" := JString peerId; "isHub" := JBool isHub ]}))
           "system" other netName now);;
      mret tt).

Definition sendExistingPeersToNew (now : Z) (peerId netName : string) : Handler unit :=
  peers ← getActivePeers peerId netName;
  c ← getConn peerId;
  forM_ peers (λ p,
    pi ← getPeerInfo p;
    match c, pi with
    | Some _, Some q =>
        sendToConn c
          (mkOutbound "peer-discovered"
             (JObject (mergeMap (pi_Data q)
                         {[ "peerId" := JString p; "isHub" := JBool (pi_IsHub q) ]}))
             "system" peerId netName now);;
        mret tt
    | _, _ => mret tt
    end).

Definition sendCachedCrossHubPeersToNew (now : Z) (peerId netName : string) : Handler unit :=
  cache ← gets (λ s, crossHubCache s !! netName);
  match cache with
  | None => mret tt
  | Some cache =>
      c ← getConn peerId;
      forM_ (map_to_list cache) (λ '(id, data),
        ws ← gets wsConns;
        if decide (is_Some (ws !! id)) then mret tt
        else
          match c with
          | Some _ =>
              sendToConn c
                (mkOutbound "peer-discovered"
                   (JObject (mergeMap data {[ "peerId" := JString id ]}))
                   "system" peerId netName now);;
              mret tt
          | None => mret tt
          end)
  end.

(** The sockets of the bootstrap links with [b.connected && b.ws != nil]. *)
Definition connectedBootstrapSockets (s : Server) : list conn :=
  omap (λ '(_, b), if bc_connected b then bc_ws b else None)
       (map_to_list (bootstrapConns s)).

Definition announceToBootstrap (now : Z) (peerId netName : string) (isHub : bool)
    (data : jmap) : Handler unit :=
  conns ← gets connectedBootstrapSockets;
  let m : jmap := {[ "peerId" := JString peerId; "isHub" := JBool isHub ]} in
  let m := map_fold (λ k v (acc : jmap), <[k:=v]> acc) m data in
  let payload : jmap :=
    {[ "type" := JString "peer-discovered";
       "data" := JObject m;
       "networkName" := JString netName;
       "fromPeerId" := JString "system";
       "timestamp" := JNumber now ]} in
  forM_ conns (λ ws, emit (EvWriteJSONMap ws payload)).

Definition forwardSignalToBootstrap (target : string) (resp : outboundMessage) : Handler unit :=
  bs ← gets bootstrapConns;
  forM_ (map_to_list bs) (λ '(_, b),
    if bc_connected b
    then match bc_ws b with
         | Some ws => emit (EvWriteJSONMsg ws resp)
         | None => mret tt
         end
    else mret tt).

(** The relay fingerprint [type:source:target:hash(data)]. *)
Definition relayId (peerId : string) (msg : inboundMessage) : string :=
  in_Type msg +:+ ":" +:+ peerId +:+ ":" +:+ in_TargetPeer msg +:+ ":"
    +:+ hashSignalData (in_Data msg).

(** The network the router attributes to a locally connected target. *)
Definition targetNetwork (tp : option peerInfo) : string :=
  match tp with
  | Some t => if decide (pi_NetworkName t ≠ "") then pi_NetworkName t else "global"
  | None => "global"
  end.

Definition handleSignaling (now : Z) (peerId : string) (msg : inboundMessage)
    (resp : outboundMessage) : Handler unit :=
  let target := in_TargetPeer msg in
  let netName := firstNonEmpty (in_NetworkName msg) "global" in
  if decide (target = "") then mret tt
  else
    c ← getConn target;
    match c with
    | Some _ =>
        tp ← getPeerInfo target;
        let tn := targetNetwork tp in
        if decide (netName ≠ tn) then mret tt
        else forwardToLocalTarget target resp;; mret tt
    | None =>
        let id := relayId peerId msg in
        r ← gets relayed;
        match r !! id with
        | Some _ => mret tt
        | None =>
            modify (set_relayed <[id := now]>);;
            forwardSignalToBootstrap target resp
        end
    end.

Definition handlePeerDiscovered (fromHub : string) (msg : inboundMessage) : Handler unit :=
  mret tt.

Definition handlePing (now : Z) (peerId : string) : Handler unit :=
  c ← getConn peerId;
  match c with
  | Some _ =>
      sendToConn c
        (mkOutbound "pong" (JObject {[ "timestamp" := JNumber now ]})
                    "system" peerId "global" now);;
      mret tt
  | None => mret tt
  end.

Definition cleanupPeer (peerId : string) : Handler unit :=
  modify (set_wsConns (delete peerId));;
  pi ← gets (λ s, peerData s !! peerId);
  modify (set_peerData (delete peerId));;
  match pi with
  | Some p => if pi_IsHub p then modify (set_hubs (delete peerId)) else mret tt
  | None => mret tt
  end;;
  match pi with
  | Some p =>
      if decide (pi_NetworkName p ≠ "") then
        modify (set_networkPeers (λ np,
          match np !! pi_NetworkName p with
          | Some set =>
              let set' := set ∖ {[ peerId ]} in
              if decide (size set' = 0) then delete (pi_NetworkName p) np
              else <[pi_NetworkName p := set']> np
          | None => np
          end));;
        modify (set_crossHubCache (λ ch,
          match ch !! pi_NetworkName p with
          | Some cache => <[pi_NetworkName p := delete peerId cache]> ch
          | None => ch
          end))
      else mret tt
  | None => mret tt
  end.

Definition handleDisconnect (now : Z) (peerId : string) (code : Z) (reason : string)
    : Handler unit :=
  pi ← getPeerInfo peerId;
  let netName :=
    match pi with Some p => firstNonEmpty (pi_NetworkName p) "global" | None => "global" end in
  let isHub := match pi with Some p => pi_IsHub p | None => false end in
  broadcastToOthers peerId
    (mkOutbound "peer-disconnected"
       (JObject {[ "peerId" := JString peerId; "isHub" := JBool isHub;
                   "reason" := JString reason; "timestamp" := JNumber now ]})
       "system" "" netName now);;
  cleanupPeer peerId.

(** [msg.Data.(map[string]interface{})] *)
Definition asMap (v : jvalue) : option jmap :=
  match v with JObject m => Some m | _ => None end.

(** [m["isHub"].(bool)], true only for the JSON boolean [true] *)
Definition announcedHubFlag (v : jvalue) : bool :=
  match asMap v with
  | Some m => match m !! "isHub" with Some (JBool true) => true | _ => false end
  | None => false
  end.

(** The in-place update of the peer record made by [handleAnnounce]. *)
Definition markAnnounced (now : Z) (netName : string) (isHub : bool) (ns : string)
    (data : jvalue) (p : peerInfo) : peerInfo :=
  mkPeerInfo (pi_PeerId p) (pi_ConnectedAt p) (pi_LastActivity p) (pi_RemoteAddress p)
    (pi_Connected p) true now netName
    (isHub || bool_decide (netName = ns))
    (match asMap data with Some m => m | None => pi_Data p end).

Definition handleAnnounce (now : Z) (peerId : string) (msg : inboundMessage)
    (resp : outboundMessage) : Handler unit :=
  let netName := firstNonEmpty (in_NetworkName msg) "global" in
  let isHub := announcedHubFlag (in_Data msg) in
  ns ← gets (λ s, opt_HubMeshNamespace (opts s));
  pi0 ← gets (λ s, peerData s !! peerId);
  let pi := markAnnounced now netName isHub ns (in_Data msg) <$> pi0 in
  match pi with
  | Some p => modify (set_peerData <[peerId := p]>)
  | None => mret tt
  end;;
  match pi with
  | Some p => if pi_IsHub p then registerHub now peerId netName (pi_Data p) else mret tt
  | None => mret tt
  end;;
  modify (set_networkPeers (λ np,
    <[netName := {[ peerId ]} ∪ default ∅ (np !! netName)]> np));;
  match pi with
  | None => panic (* pi.Data with pi == nil *)
  | Some p =>
      broadcastPeerDiscovered now peerId netName isHub (pi_Data p);;
      sendExistingPeersToNew now peerId netName;;
      sendCachedCrossHubPeersToNew now peerId netName;;
      announceToBootstrap now peerId netName isHub (pi_Data p)
  end.

(** [pi.LastActivity = nowMs()] when the record exists. *)
Definition touch (now : Z) (p : peerInfo) : peerInfo :=
  mkPeerInfo (pi_PeerId p) (pi_ConnectedAt p) now (pi_RemoteAddress p)
    (pi_Connected p) (pi_Announced p) (pi_AnnouncedAt p) (pi_NetworkName p)
    (pi_IsHub p) (pi_Data p).

(** The envelope [handleMessage] builds from an inbound message. *)
Definition response (now : Z) (peerId : string) (msg : inboundMessage) : outboundMessage :=
  mkOutbound (in_Type msg) (in_Data msg) (firstNonEmpty (in_FromPeerId msg) peerId)
             (in_TargetPeer msg) (firstNonEmpty (in_NetworkName msg) "global") now.

Definition isSignalingType (ty : string) : Prop :=
  ty = "offer" ∨ ty = "answer" ∨ ty = "ice-candidate".

(** [handleMessage]; [data] is the outcome of [json.Unmarshal] on the
    frame, [None] when it fails. *)
Definition handleMessage (now : Z) (peerId : string) (data : option inboundMessage)
    : Handler unit :=
  match data with
  | None => mret tt
  | Some msg =>
      modify (set_peerData (alter (touch now) peerId));;
      let resp := response now peerId msg in
      if decide (in_Type msg = "announce") then handleAnnounce now peerId msg resp
      else if decide (in_Type msg = "goodbye") then
        broadcastToOthers peerId resp;; cleanupPeer peerId
      else if decide (isSignalingType (in_Type msg)) then
        handleSignaling now peerId msg resp
      else if decide (in_Type msg = "peer-discovered") then
        handlePeerDiscovered peerId msg
      else if decide (in_Type msg = "ping") then handlePing now peerId
      else mret tt
  end.

(** [performCleanup]: the probing of the networks has no effect; entries
    of the dedup set with [now - ts > 5000] are deleted. *)
Definition performCleanup (now : Z) : Handler unit :=
  nets ← gets networkPeers;
  forM_ (map_to_list nets).*1 (λ netName, getActivePeers "" netName;; mret tt);;
  modify (set_relayed (filter (λ '(_, ts), ¬ (5000 < Go.sub64 now ts)%Z))).

(** What [handleWS] reads from the HTTP request. *)
Record request := mkRequest {
  req_peerId : string;
  req_Authorization : string;
  req_token : string;
  req_ClientIP : string
}.

(** The token check at the head of [handleWS]. *)
Definition unauthorized (authToken : string) (r : request) : bool :=
  if decide (authToken ≠ "") then
    if negb (Go.HasPrefix (req_Authorization r) "Bearer ")
       || negb (bool_decide (Go.TrimPrefix (req_Authorization r) "Bearer " = authToken))
    then negb (bool_decide (req_token r = authToken))
    else false
  else false.

(** [handleWS]; [upgraded] is the outcome of [upgrader.Upgrade], [None]
    when it fails. *)
Definition handleWS (now : Z) (r : request) (upgraded : option conn) : Handler unit :=
  let peerId := req_peerId r in
  o ← gets opts;
  if unauthorized (opt_AuthToken o) r then emit (EvHttpError 401 "unauthorized")
  else if negb (validatePeerId peerId) then emit (EvHttpError 403 "invalid peerId")
  else
    match upgraded with
    | None => mret tt
    | Some c =>
        old ← gets (λ s, wsConns s !! peerId);
        match old with
        | Some oldc => emit (EvClose oldc);; modify (set_wsConns (delete peerId))
        | None => mret tt
        end;;
        n ← gets (λ s, size (wsConns s));
        if decide (opt_MaxConnections o ≤ Z.of_nat n)%Z then
          emit (EvWriteControlClose c ClosePolicyViolation "max connections");;
          emit (EvClose c)
        else
          modify (set_wsConns <[peerId := c]>);;
          modify (set_peerData
            <[peerId := mkPeerInfo peerId now now (req_ClientIP r) true false 0 "" false ∅]>);;
          sendToConn (Some c)
            (mkOutbound "connected" (JObject {[ "peerId" := JString peerId ]})
                        "system" "" "global" now);;
          emit (EvGoReadLoop peerId c)
    end.

(** [cacheCrossHubPeer] *)
Definition cacheCrossHubPeer (netName id : string) (data : jmap) : Handler unit :=
  modify (set_crossHubCache (λ ch,
    <[netName := <[id := data]> (default ∅ (ch !! netName))]> ch)).

(** The guard at the head of [connectToHub]. *)
Definition selfDial (u : Go.URL) (s : Server) : Prop :=
  Go.Host u = opt_Host (opts s) ∧ Go.Port u = Go.Itoa (port s).

(** [connectToHub] up to the registration of the link; [parsed] is the
    outcome of [url.Parse uri] and [dialed] that of the dial, [None] when
    they fail. *)
Definition connectToHub (now : Z) (uri : string) (attempt : Z)
    (parsed : option Go.URL) (dialed : option conn) : Handler unit :=
  match parsed with
  | None => mret tt
  | Some u =>
      s ← gets id;
      if decide (selfDial u s) then mret tt
      else
        emit (EvDial (uri +:+ "?peerId=" +:+ hubPeerId s));;
        match dialed with
        | None => mret tt
        | Some ws =>
            modify (set_bootstrapConns <[uri := mkBootstrapConn uri (Some ws) true now attempt]>)
        end
  end.

(** ** The read loop and the interleaving of connections *)

Inductive readResult :=
  | ReadOk (data : option inboundMessage)
  | ReadErr (reason : string).

(** [readLoop] over the successive outcomes of [conn.ReadMessage], each
    with the instant at which it is handled. *)
Fixpoint readLoop (peerId : string) (reads : list (Z * readResult)) : Handler unit :=
  match reads with
  | [] => mret tt
  | (now, ReadErr reason) :: _ => handleDisconnect now peerId CloseAbnormalClosure reason
  | (now, ReadOk data) :: rest => handleMessage now peerId data;; readLoop peerId rest
  end.

(** What can happen to the server, one transition each. *)
Inductive input :=
  | Upgrade (r : request) (upgraded : option conn)
  | Frame (peerId : string) (data : option inboundMessage)
  | ReadError (peerId : string) (reason : string)
  | Tick.

Definition step (now : Z) (i : input) : Handler unit :=
  match i with
  | Upgrade r upgraded => handleWS now r upgraded
  | Frame peerId data => handleMessage now peerId data
  | ReadError peerId reason => handleDisconnect now peerId CloseAbnormalClosure reason
  | Tick => performCleanup now
  end.

Fixpoint run (trace : list (Z * input)) : Handler unit :=
  match trace with
  | [] => mret tt
  | (now, i) :: rest => step now i;; run rest
  end.

End ServerCore.

(** ** Statements of the specification, as predicates on states *)

Section Statements.

Context `{Externals}.

(** Every member of a membership set has a record that names the set's
    network. *)
Definition membershipConsistent (s : Server) : Prop :=
  ∀ N set Q, networkPeers s !! N = Some set → Q ∈ set →
    ∃ q, peerData s !! Q = Some q ∧ pi_NetworkName q = N.

(** The peer is in no membership set, not in the hub table and in no
    cross-hub cache. *)
Definition absentEverywhere (s : Server) (P : string) : Prop :=
  (∀ N set, networkPeers s !! N = Some set → P ∉ set)
  ∧ hubs s !! P = None
  ∧ (∀ N cache, crossHubCache s !! N = Some cache → cache !! P = None).

(** A goodbye of the announced peer [P] is answered by [peer-disconnected]
    messages to exactly the other connected peers of [P]'s network, and
    [P] is removed. *)
Definition goodbyeScopedToNetwork (s : Server) (now : Z) (P : string)
    (msg : inboundMessage) : Prop :=
  ∀ p, peerData s !! P = Some p → pi_Announced p = true →
    ∃ s' evs, handleMessage now P (Some msg) s = Ok (tt, s', evs)
      ∧ (∀ Q c q, Q ≠ P → wsConns s !! Q = Some c → peerData s !! Q = Some q →
           pi_NetworkName q = pi_NetworkName p →
           ∃ m, EvWriteMessage c m ∈ evs ∧ out_Type m = "peer-disconnected")
      ∧ (∀ c m, EvWriteMessage c m ∈ evs →
           out_Type m = "peer-disconnected"
           ∧ ∃ Q q, Q ≠ P ∧ wsConns s !! Q = Some c ∧ peerData s !! Q = Some q
                    ∧ pi_NetworkName q = pi_NetworkName p)
      ∧ wsConns s' !! P = None ∧ peerData s' !! P = None
      ∧ (∀ N set, networkPeers s' !! N = Some set → P ∉ set).

(** A signaling message for a connected target whose recorded network
    differs from the network of the message is dropped: nothing is
    written and the dedup set is unchanged. *)
Definition dropsOnRecordedNetworkMismatch (s : Server) (now : Z) (P : string)
    (msg : inboundMessage) : Prop :=
  ∀ c t, wsConns s !! in_TargetPeer msg = Some c →
    peerData s !! in_TargetPeer msg = Some t →
    pi_NetworkName t ≠ firstNonEmpty (in_NetworkName msg) "global" →
    ∃ s', handleMessage now P (Some msg) s = Ok (tt, s', [])
      ∧ relayed s' = relayed s.

(** The relayed envelopes written on the bootstrap socket [ws]. *)
Definition relaysOn (ws : conn) (e : event) : bool :=
  match e with
  | EvWriteJSONMsg c _ => bool_decide (c = ws)
  | _ => false
  end.

Definition transmissions (ws : conn) (evs : list event) : nat :=
  length (List.filter (relaysOn ws) evs).

(** A signaling message for a target that is not connected locally, sent
    at [now1] and again at [now2], at most five seconds later, is
    transmitted exactly once on every connected bootstrap link. *)
Definition relayedOncePerLink (s : Server) (now1 now2 : Z) (P : string)
    (msg : inboundMessage) : Prop :=
  isSignalingType (in_Type msg) →
  in_TargetPeer msg ≠ "" →
  wsConns s !! in_TargetPeer msg = None →
  (now1 ≤ now2 ≤ now1 + 5000)%Z →
  ∃ s1 e1 s2 e2,
    handleMessage now1 P (Some msg) s = Ok (tt, s1, e1)
    ∧ handleMessage now2 P (Some msg) s1 = Ok (tt, s2, e2)
    ∧ ∀ ws, ws ∈ connectedBootstrapSockets s → transmissions ws (e1 ++ e2) = 1.

End Statements.

(** ** Instances used to evaluate the model on examples *)

(** Modelled from the spec: [validatePeerId] is declared outside the files
    at hand; the specification asks for 40 lowercase hexadecimal
    characters. *)
Definition isLowerHex (c : ascii) : bool :=
  let n := Ascii.N_of_ascii c in
  (((48 <=? n) && (n <=? 57)) || ((97 <=? n) && (n <=? 102)))%N.

Definition validatePeerId40 (id : string) : bool :=
  bool_decide (String.length id = 40) && forallb isLowerHex (list_ascii_of_string id).

(** An arbitrary fingerprint function; the theorems hold for every one. *)
Definition sampleHash (v : jvalue) : string :=
  match v with
  | JString s => s
  | JObject m => Go.Itoa (Z.of_nat (size m))
  | _ => "0"
  end.

(** The slow paths of [TrimSpace] are never entered on ASCII text. *)
Definition asciiOnly : string → string := id.

Module Sample.

Definition A : string := "aaaaaaaaaaaaaaaaaaaaaaaaaaaaaaaaaaaaaaaa".
Definition B : string := "bbbbbbbbbbbbbbbbbbbbbbbbbbbbbbbbbbbbbbbb".

Definition options : Options :=
  mkOptions "localhost" 3000 1000 false "pigeonhub-mesh" [] "" 3.

Definition server0 : Server := NewServer options "".

Definition req (id : string) : request := mkRequest id "" "" "127.0.0.1".

Definition announce (net : string) : inboundMessage :=
  mkInbound "announce" JNull "" "" net.

Definition goodbye : inboundMessage := mkInbound "goodbye" JNull "" "" "".

Definition externals : Externals :=
  Build_Externals asciiOnly asciiOnly sampleHash validatePeerId40.

Definition exec (trace : list (Z * input)) (s : Server) :=
  run (H := externals) trace s.

(** The state a trace leads to. *)
Definition afterFrom (s0 : Server) (trace : list (Z * input)) : Server :=
  match exec trace s0 with
  | Ok (_, s, _) => s
  | Panic => s0
  end.

Definition after (trace : list (Z * input)) : Server := afterFrom server0 trace.

(** What a trace writes. *)
Definition writes (s0 : Server) (trace : list (Z * input)) : list event :=
  match exec trace s0 with
  | Ok (_, _, evs) => evs
  | Panic => []
  end.

Definition announceAs (net : string) (isHub : bool) : inboundMessage :=
  mkInbound "announce" (JObject {[ "isHub" := JBool isHub ]}) "" "" net.

(** A and B connected, on sockets 1 and 2. *)
Definition connected : list (Z * input) :=
  [(1%Z, Upgrade (req A) (Some 1)); (2%Z, Upgrade (req B) (Some 2))].

Definition offerTo (target : string) (from net : string) : inboundMessage :=
  mkInbound "offer" (JObject {[ "sdp" := JString "x" ]}) from target net.

(** A announces with data that tries to pass for B and for a hub. *)
Definition forgedAnnounce : inboundMessage :=
  mkInbound "announce"
    (JObject {[ "peerId" := JString B; "isHub" := JString "yes"; "name" := JString "a" ]})
    "" "" "global".

(** A hub bound to localhost:3000 whose bootstrap list names itself. *)
Definition hubOptions : Options :=
  mkOptions "localhost" 3000 1000 true "pigeonhub-mesh" ["ws://localhost:3000"] "" 3.

Definition hubServer : Server :=
  NewServer hubOptions "cccccccccccccccccccccccccccccccccccccccc".

(** A server with room for a single connection. *)
Definition tinyServer : Server :=
  NewServer (mkOptions "localhost" 3000 1 false "pigeonhub-mesh" [] "" 3) "".

(** A hub with one open bootstrap link. *)
Definition linkedServer : Server :=
  set_bootstrapConns
    <["ws://hub-b:3000" := mkBootstrapConn "ws://hub-b:3000" (Some 9) true 0 0]>
    hubServer.

End Sample.


(** * The hub mesh client and the rest of the server *)

Definition set_running (b : bool) (s : Server) : Server :=
  mkServer (opts s) (port s) b (wsConns s) (peerData s) (networkPeers s)
           (hubs s) (relayed s) (hubPeerId s) (bootstrapConns s) (crossHubCache s).

(** ** Start-up helpers *)

(** [tryPort]: [free p] tells whether [net.Listen] succeeds on port [p];
    the loop probes [port], [port+1], ..., [port+maxRetries] and returns
    the first port that can be bound, [None] standing for the error. *)
Fixpoint tryPortFrom (free : Z → bool) (port i : Z) (iterations : nat) : option Z :=
  match iterations with
  | O => None
  | S n => if free (port + i)%Z then Some (port + i)%Z else tryPortFrom free port (i + 1) n
  end.

Definition tryPort (free : Z → bool) (port maxRetries : Z) : option Z :=
  tryPortFrom free port 0 (Z.to_nat (maxRetries + 1)).

(** [generatePeerId]: forty characters, the i-th being
    [chars[clock i % 16]] for the i-th reading of [time.Now().UnixNano()];
    an index outside [chars] is a panic, here [None]. *)
Definition chars : string := "0123456789abcdef".

Definition generatePeerId (clock : nat → Z) : option string :=
  string_of_list_ascii <$>
    mapM (λ i, if decide (0 ≤ Z.rem (clock i) 16)%Z
               then list_ascii_of_string chars !! Z.to_nat (Z.rem (clock i) 16)
               else None)
         (seq 0 40).

Section HubMesh.

Context `{Externals}.

Definition connectionsSize : Handler Z :=
  gets (λ s, Z.of_nat (size (wsConns s))).

Definition forwardToLocalPeers (netName : string) (msg : outboundMessage) : Handler unit :=
  peers ← getActivePeers "" netName;
  forM_ peers (λ id, c ← getConn id; sendToConn c msg;; mret tt).

(** The [peer-discovered] payload that [announceToBootstrap] and
    [announceToBootstrapExcept] build: the server's two keys first, then
    every key of [data] written over them. *)
Definition discoveryPayload (now : Z) (peerId netName : string) (isHub : bool)
    (data : jmap) : jmap :=
  let m : jmap := {[ "peerId" := JString peerId; "isHub" := JBool isHub ]} in
  let m := map_fold (λ k v (acc : jmap), <[k:=v]> acc) m data in
  {[ "type" := JString "peer-discovered";
     "data" := JObject m;
     "networkName" := JString netName;
     "fromPeerId" := JString "system";
     "timestamp" := JNumber now ]}.

Definition announceToBootstrapExcept (now : Z) (peerId netName : string) (isHub : bool)
    (data : jmap) (excludeUri : string) : Handler unit :=
  bs ← gets bootstrapConns;
  let conns :=
    omap (λ '(uri, b),
            if decide (uri ≠ excludeUri)
            then (if bc_connected b then bc_ws b else None)
            else None)
         (map_to_list bs) in
  forM_ conns (λ ws, emit (EvWriteJSONMap ws (discoveryPayload now peerId netName isHub data))).

(** The loop that echoes a discovery to the link it came from: the first
    entry with the key [uri] that is connected is written to, and the loop
    breaks. *)
Fixpoint echoLoop (l : list (string * bootstrapConn)) (uri : string) (payload : jmap)
    : Handler unit :=
  match l with
  | [] => mret tt
  | (origUri, b) :: l' =>
      if decide (origUri = uri) then
        if bc_connected b then
          match bc_ws b with
          | Some ws => emit (EvWriteJSONMap ws payload)
          | None => echoLoop l' uri payload
          end
        else echoLoop l' uri payload
      else echoLoop l' uri payload
  end.

(** [m["peerId"].(string)] and [m["isHub"].(bool)], with the zero value
    when the key is missing or of another type. *)
Definition stringField (m : jmap) (k : string) : string :=
  match m !! k with Some (JString v) => v | _ => "" end.

Definition boolField (m : jmap) (k : string) : bool :=
  match m !! k with Some (JBool v) => v | _ => false end.

(** [handleBootstrapMessage]; [data] is the outcome of decoding the
    frame, [None] when that fails.  The log line of a hub discovery is
    not modelled. *)
Definition handleBootstrapMessage (now : Z) (uri : string) (data : option inboundMessage)
    : Handler unit :=
  match data with
  | None => mret tt
  | Some msg =>
      if decide (in_Type msg = "connected") then mret tt
      else if decide (in_Type msg = "peer-discovered") then
        match asMap (in_Data msg) with
        | Some m =>
            let id := stringField m "peerId" in
            let isHub := boolField m "isHub" in
            let netName :=
              if decide (in_NetworkName msg = "") then "global" else in_NetworkName msg in
            if isHub then mret tt
            else
              cacheCrossHubPeer netName id m;;
              forwardToLocalPeers netName
                (mkOutbound "peer-discovered" (JObject m) "system" "" netName now);;
              announceToBootstrapExcept now id netName false m uri;;
              bs ← gets bootstrapConns;
              echoLoop (map_to_list bs) uri
                {[ "type" := JString "peer-discovered";
                   "data" := JObject (mergeMap m
                               {[ "peerId" := JString id; "isHub" := JBool false ]});
                   "networkName" := JString netName;
                   "fromPeerId" := JString "system";
                   "timestamp" := JNumber now ]}
        | None => mret tt
        end
      else if decide (isSignalingType (in_Type msg)) then
        if decide (in_TargetPeer msg ≠ "") then
          forwardToLocalTarget (in_TargetPeer msg)
            (mkOutbound (in_Type msg) (in_Data msg) (in_FromPeerId msg)
                        (in_TargetPeer msg) (in_NetworkName msg) now);;
          mret tt
        else mret tt
      else mret tt
  end.

(** [announceLocalPeersToBootstrap]: every member of every membership
    set whose record exists and is announced is replayed on the link. *)
Definition announceLocalPeersToBootstrap (now : Z) (ws : conn) : Handler unit :=
  s ← gets id;
  forM_ (map_to_list (networkPeers s)) (λ '(netName, set),
    forM_ (elements set) (λ peerId,
      match peerData s !! peerId with
      | Some pi =>
          if pi_Announced pi then
            emit (EvWriteJSONMap ws
              {[ "type" := JString "peer-discovered";
                 "data" := JObject
                   {[ "peerId" := JString peerId;
                      "isHub" := JBool (bool_decide
                                   (netName = opt_HubMeshNamespace (opts s))) ]};
                 "networkName" := JString netName;
                 "fromPeerId" := JString "system";
                 "timestamp" := JNumber now ]})
          else mret tt
      | None => mret tt
      end)).

Definition sendAnnouncementToBootstrap (now : Z) (ws : conn) : Handler unit :=
  s ← gets id;
  emit (EvWriteJSONMap ws
    {[ "type" := JString "announce";
       "networkName" := JString (opt_HubMeshNamespace (opts s));
       "data" := JObject
         {[ "isHub" := JBool true;
            "port" := JNumber (port s);
            "host" := JString (opt_Host (opts s));
            "capabilities" := JArray [JString "signaling"; JString "relay"];
            "timestamp" := JNumber now ]} ]});;
  announceLocalPeersToBootstrap now ws.

(** [handleBootstrapOpen]: the announcement, then the goroutine that
    reads the link (recorded with the URI in place of a peer id).  A link
    without socket makes the first write dereference nil. *)
Definition handleBootstrapOpen (now : Z) (b : bootstrapConn) : Handler unit :=
  match bc_ws b with
  | Some ws => sendAnnouncementToBootstrap now ws;; emit (EvGoReadLoop (bc_uri b) ws)
  | None => panic
  end.

(** [connectToHub] in full: the registration of the link is followed by
    [handleBootstrapOpen]. *)
Definition connectToHub_full (now : Z) (uri : string) (attempt : Z)
    (parsed : option Go.URL) (dialed : option conn) : Handler unit :=
  match parsed with
  | None => mret tt
  | Some u =>
      s ← gets id;
      if decide (selfDial u s) then mret tt
      else
        emit (EvDial (uri +:+ "?peerId=" +:+ hubPeerId s));;
        match dialed with
        | None => mret tt
        | Some ws =>
            let info := mkBootstrapConn uri (Some ws) true now attempt in
            modify (set_bootstrapConns <[uri := info]>);;
            handleBootstrapOpen now info
        end
  end.

(** [b.connected = false] on the link object [b]: the table shows the
    change when the entry under [b]'s URI is [b] itself, which is told by
    its socket. *)
Definition markDisconnected (b : bootstrapConn) (bs : gmap string bootstrapConn)
    : gmap string bootstrapConn :=
  match bs !! bc_uri b with
  | Some b' =>
      if decide (bc_ws b' = bc_ws b)
      then <[bc_uri b := mkBootstrapConn (bc_uri b') (bc_ws b') false
                           (bc_lastAttempt b') (bc_attemptNum b')]> bs
      else bs
  | None => bs
  end.

(** [handleBootstrapClose]; the result is the reconnection the timer is
    set for, as the arguments of the later [connectToHub]. *)
Definition handleBootstrapClose (b : bootstrapConn) : Handler (option (string * Z)) :=
  modify (set_bootstrapConns (markDisconnected b));;
  s ← gets id;
  if running s && bool_decide (bc_attemptNum b < opt_MaxReconnectAttempts (opts s))%Z
  then mret (Some (bc_uri b, (bc_attemptNum b + 1)%Z))
  else modify (set_bootstrapConns (delete (bc_uri b)));; mret None.

(** [disconnectBootstrap]: every socket is closed and the table emptied
    (the timers are not modelled). *)
Definition disconnectBootstrap : Handler unit :=
  bs ← gets bootstrapConns;
  forM_ (map_to_list bs) (λ '(_, b),
    match bc_ws b with
    | Some ws => emit (EvClose ws)
    | None => mret tt
    end);;
  modify (set_bootstrapConns (λ _, ∅)).

(** [Stop] *)
Definition Stop : Handler unit :=
  modify (set_running false);;
  disconnectBootstrap.

(** ** All the transitions of a hub *)

Inductive meshInput :=
  | Client (i : input)
  | BootstrapFrame (uri : string) (data : option inboundMessage)
  | BootstrapClosed (b : bootstrapConn)
  | ConnectHub (uri : string) (attempt : Z) (parsed : option Go.URL) (dialed : option conn)
  | StopServer.

Definition meshStep (now : Z) (i : meshInput) : Handler unit :=
  match i with
  | Client i => step now i
  | BootstrapFrame uri data => handleBootstrapMessage now uri data
  | BootstrapClosed b => handleBootstrapClose b;; mret tt
  | ConnectHub uri attempt parsed dialed => connectToHub_full now uri attempt parsed dialed
  | StopServer => Stop
  end.

Fixpoint meshRun (trace : list (Z * meshInput)) : Handler unit :=
  match trace with
  | [] => mret tt
  | (now, i) :: rest => meshStep now i;; meshRun rest
  end.

End HubMesh.

(** ** Invariants of the registry *)

(** Two states agree on the options, the connections, the records, the
    membership sets and the hub table. *)
Definition sameRegistry (s s' : Server) : Prop :=
  opts s' = opts s ∧ wsConns s' = wsConns s ∧ peerData s' = peerData s
  ∧ networkPeers s' = networkPeers s ∧ hubs s' = hubs s.

(** What every state reached from a fresh server satisfies. *)
Record registryInvariant (s : Server) : Prop := mkRegistryInvariant {
  inv_same_keys : ∀ P, is_Some (wsConns s !! P) ↔ is_Some (peerData s !! P);
  inv_cap : (Z.of_nat (size (wsConns s)) ≤ Z.max 0 (opt_MaxConnections (opts s)))%Z;
  inv_announced : ∀ P p, peerData s !! P = Some p → pi_Announced p = true →
      pi_NetworkName p ≠ ""
      ∧ ∃ set, networkPeers s !! pi_NetworkName p = Some set ∧ P ∈ set;
  inv_hub : ∀ P p, peerData s !! P = Some p → pi_IsHub p = true → is_Some (hubs s !! P);
  inv_nonempty : ∀ N set, networkPeers s !! N = Some set → set ≠ ∅
}.

(** ** Further sample states *)

Module MeshSample.

Import Sample.

Definition C : string := "cccccccccccccccccccccccccccccccccccccccc".

Definition hubB : string := "ws://hub-b:3000".
Definition hubC : string := "ws://hub-c:3000".

(** A running hub with open links to hub-b (socket 8) and hub-c (socket 9). *)
Definition meshServer : Server :=
  set_running true
    (set_bootstrapConns
       (λ _, {[ hubB := mkBootstrapConn hubB (Some 8) true 0 0;
                hubC := mkBootstrapConn hubC (Some 9) true 0 0 ]})
       hubServer).

Definition mexec (trace : list (Z * meshInput)) (s : Server) :=
  meshRun (H := externals) trace s.

Definition mafter (s0 : Server) (trace : list (Z * meshInput)) : Server :=
  match mexec trace s0 with
  | Ok (_, s, _) => s
  | Panic => s0
  end.

Definition mwrites (s0 : Server) (trace : list (Z * meshInput)) : list event :=
  match mexec trace s0 with
  | Ok (_, _, evs) => evs
  | Panic => []
  end.

(** What a hub tells about the remote peer [id] of network [net]. *)
Definition remoteDiscovery (id net : string) : inboundMessage :=
  mkInbound "peer-discovered"
    (JObject {[ "peerId" := JString id; "isHub" := JBool false ]}) "system" "" net.

(** The running hub with B connected on socket 2 and announced in net1. *)
Definition meshWithB : Server :=
  mafter meshServer [(1%Z, Client (Upgrade (req B) (Some 2)));
                     (2%Z, Client (Frame B (Some (announce "net1"))))].

(** A hub's day: A and B connect, A announces as a hub and B into net1,
    a link to hub-b opens and tells of C, B leaves, the link breaks, and
    the cleanup fires. *)
Definition meshTrace : list (Z * meshInput) :=
  [(1%Z, Client (Upgrade (req A) (Some 1)));
   (2%Z, Client (Upgrade (req B) (Some 2)));
   (3%Z, Client (Frame A (Some (announceAs "global" true))));
   (4%Z, Client (Frame B (Some (announce "net1"))));
   (5%Z, ConnectHub hubB 0 (Some (Go.mkURL "ws" "hub-b:3000")) (Some 8));
   (6%Z, BootstrapFrame hubB (Some (remoteDiscovery C "net1")));
   (7%Z, Client (Frame B (Some goodbye)));
   (8%Z, BootstrapClosed (mkBootstrapConn hubB (Some 8) true 5 0));
   (9%Z, Client Tick)].

End MeshSample.

(** * Properties *)

Section Properties.

Context `{Externals}.

(** ** Running handlers *)

Lemma bind_run {A B} (m : Handler A) (f : A → Handler B) s a s1 e1 :
  m s = Ok (a, s1, e1) →
  (m ≫= f) s =
    match f a s1 with
    | Panic => Panic
    | Ok (b, s2, e2) => Ok (b, s2, e1 ++ e2)
    end.
Proof. intros Hm. unfold mbind, Handler_bind. by rewrite Hm. Qed.

Lemma result_eta {A} (r : result (A * Server * list event)) :
  match r with
  | Ok (b, s2, e2) => Ok (b, s2, e2)
  | Panic => Panic
  end = r.
Proof. by destruct r as [[[b s2] e2]|]. Qed.

(** A loop whose body only writes leaves the state alone and writes the
    concatenation of what each iteration writes. *)
Lemma forM__run {A} (l : list A) (f : A → Handler unit) (g : A → list event) s :
  (∀ x, x ∈ l → f x s = Ok (tt, s, g x)) →
  forM_ l f s = Ok (tt, s, l ≫= g).
Proof.
  induction l as [|x l IH]; intros Hf; [done|].
  simpl. rewrite (bind_run _ _ _ _ _ _ (Hf x (list_elem_of_here _ _))).
  rewrite IH; [done|]. intros y Hy. apply Hf. by apply list_elem_of_further.
Qed.

Ltac run_handler :=
  unfold mbind, Handler_bind, mret, Handler_ret, gets, modify, emit, panic; simpl.

(** ** [mergeMap] and [firstNonEmpty] *)

Lemma map_fold_insert_union (a m0 : jmap) :
  map_fold (λ k v (acc : jmap), <[k:=v]> acc) m0 a = a ∪ m0.
Proof.
  apply (map_fold_weak_ind (λ r m, r = m ∪ m0)).
  - by rewrite map_empty_union.
  - intros i x m r _ ->. by rewrite insert_union_l.
Qed.

Lemma mergeMap_union (a b : jmap) : mergeMap a b = b ∪ a.
Proof. unfold mergeMap. rewrite !map_fold_insert_union. by rewrite map_union_empty. Qed.

Lemma mergeMap_lookup_override (a b : jmap) k v :
  b !! k = Some v → mergeMap a b !! k = Some v.
Proof. intros Hb. rewrite mergeMap_union. by apply lookup_union_Some_l. Qed.

Lemma mergeMap_lookup_inherit (a b : jmap) k :
  b !! k = None → mergeMap a b !! k = a !! k.
Proof. intros Hb. rewrite mergeMap_union. by apply lookup_union_r. Qed.

Lemma firstNonEmpty_spec a b :
  firstNonEmpty a b =
    if decide (Go.TrimSpace TrimFunc_IsSpace TrimRightFunc_IsSpace a = "") then b else a.
Proof. unfold firstNonEmpty. repeat case_decide; congruence. Qed.

(** On a string of ASCII bytes, [TrimSpace] yields the empty string exactly
    when every byte is one of the six ASCII spaces. *)
Lemma dropAsciiSpace_nil l :
  Go.dropAsciiSpace l = [] ↔ Forall (λ c, Go.asciiSpace c = true) l.
Proof.
  induction l as [|c l IH]; simpl; [by split|].
  destruct (Go.asciiSpace c) eqn:Hc.
  - rewrite IH. split; [by constructor|by inversion 1].
  - split; [done|]. inversion 1; congruence.
Qed.

Lemma dropAsciiSpace_elem x l0 : x ∈ Go.dropAsciiSpace l0 → x ∈ l0.
Proof.
  induction l0 as [|d l0 IH]; simpl; [done|].
  destruct (Go.asciiSpace d); [|done]. intros Hx. right. by apply IH.
Qed.

Lemma dropAsciiSpace_head c l l0 :
  Go.dropAsciiSpace l0 = c :: l → Go.asciiSpace c = false.
Proof.
  induction l0 as [|d l0 IH]; simpl; [done|].
  destruct (Go.asciiSpace d) eqn:Hd; [done|]. by intros [= -> ->].
Qed.

Lemma string_of_list_ascii_nil l : string_of_list_ascii l = "" → l = [].
Proof. by destruct l. Qed.

Lemma TrimSpace_ascii_empty (a : string) :
  Forall (λ c, Go.nonAscii c = false) (list_ascii_of_string a) →
  Go.TrimSpace TrimFunc_IsSpace TrimRightFunc_IsSpace a = "" ↔
  Forall (λ c, Go.asciiSpace c = true) (list_ascii_of_string a).
Proof.
  intros Hascii. unfold Go.TrimSpace. rewrite <- dropAsciiSpace_nil.
  destruct (Go.dropAsciiSpace (list_ascii_of_string a)) as [|c l] eqn:Hl; [done|].
  split; [|done]. intros Hempty. exfalso.
  rewrite Forall_forall in Hascii.
  assert (∀ x, x ∈ c :: l → Go.nonAscii x = false) as Hsub.
  { intros x Hx. apply Hascii, dropAsciiSpace_elem. by rewrite Hl. }
  rewrite (Hsub c) in Hempty by left.
  destruct (Go.dropAsciiSpace (rev (c :: l))) as [|c' r] eqn:Hr.
  - apply dropAsciiSpace_nil in Hr. rewrite Forall_forall in Hr.
    pose proof (dropAsciiSpace_head _ _ _ Hl) as Hc.
    rewrite (Hr c) in Hc; [done|].
    apply list_elem_of_In, in_rev. rewrite rev_involutive. by left.
  - assert (c' ∈ c :: l) as Hc'.
    { apply list_elem_of_In, in_rev, list_elem_of_In, dropAsciiSpace_elem.
      rewrite Hr. by left. }
    rewrite (Hsub c' Hc') in Hempty. apply string_of_list_ascii_nil in Hempty.
    apply (f_equal (@length _)) in Hempty. rewrite length_rev in Hempty. done.
Qed.

(** On ASCII text, [firstNonEmpty] falls back to its second argument
    exactly when the first is empty or made of ASCII spaces. *)
Lemma firstNonEmpty_ascii (a b : string) :
  Forall (λ c, Go.nonAscii c = false) (list_ascii_of_string a) →
  firstNonEmpty a b =
    if decide (Forall (λ c, Go.asciiSpace c = true) (list_ascii_of_string a))
    then b else a.
Proof.
  intros Hascii. rewrite firstNonEmpty_spec.
  pose proof (TrimSpace_ascii_empty a Hascii) as Hiff.
  repeat case_decide; tauto.
Qed.

(** ** Sending and broadcasting *)

Lemma broadcastLoop_run ids msg count s :
  ∃ n, broadcastLoop ids msg count s =
    Ok (n, s, omap (λ id, (λ c, EvWriteMessage c (with_TargetPeer msg id)) <$> wsConns s !! id) ids).
Proof.
  revert count. induction ids as [|id ids IH]; intros count; simpl; [by eexists|].
  run_handler. unfold getConn, gets, sendToConn.
  destruct (wsConns s !! id) as [c|]; run_handler.
  - destruct (IH (count + 1)%Z) as [n ->]. by eexists.
  - destruct (IH count) as [n ->]. by eexists.
Qed.

(** [broadcastToOthers] writes the message, re-addressed, to every
    connection other than the sender's, and changes nothing. *)
Lemma broadcastToOthers_run sender msg s :
  ∃ n evs, broadcastToOthers sender msg s = Ok (n, s, evs) ∧
    ∀ e, e ∈ evs ↔
      ∃ id c, id ≠ sender ∧ wsConns s !! id = Some c
              ∧ e = EvWriteMessage c (with_TargetPeer msg id).
Proof.
  unfold broadcastToOthers. run_handler.
  destruct (broadcastLoop_run
    (filter (λ id, id ≠ sender) (map_to_list (wsConns s)).*1) msg 0 s) as [n ->].
  eexists _, _. split; [done|]. intros e. simpl.
  rewrite list_elem_of_omap. split.
  - intros (id & Hid & He). apply list_elem_of_filter in Hid as [Hne Hid].
    apply list_elem_of_fmap in Hid as ([id' c] & -> & Hc).
    apply elem_of_map_to_list in Hc. simpl in *. rewrite Hc in He.
    injection He as <-. by exists id', c.
  - intros (id & c & Hne & Hc & ->). exists id. rewrite Hc. split; [|done].
    apply list_elem_of_filter. split; [done|].
    apply list_elem_of_fmap. exists (id, c). split; [done|].
    by apply elem_of_map_to_list.
Qed.

(** ** Removal of a peer *)

Lemma leave_network_notin (np : gmap string (gset string)) nn peerId set :
  match np !! nn with
  | Some set0 =>
      if decide (size (set0 ∖ {[ peerId ]}) = 0) then delete nn np
      else <[nn := set0 ∖ {[ peerId ]}]> np
  | None => np
  end !! nn = Some set → peerId ∉ set.
Proof.
  destruct (np !! nn) as [set0|] eqn:Hs; [|by rewrite Hs].
  destruct (decide (size (set0 ∖ {[peerId]}) = 0)); [by rewrite lookup_delete_eq|].
  rewrite lookup_insert_eq. intros [= <-].
  apply not_elem_of_difference. right. by apply elem_of_singleton.
Qed.

Lemma uncache_lookup (ch : gmap string (gmap string jmap)) nn peerId cache :
  match ch !! nn with
  | Some cache0 => <[nn := delete peerId cache0]> ch
  | None => ch
  end !! nn = Some cache → cache !! peerId = None.
Proof.
  destruct (ch !! nn) as [c0|] eqn:Hc; [|by rewrite Hc].
  rewrite lookup_insert_eq. intros [= <-]. by rewrite lookup_delete_eq.
Qed.

(** [cleanupPeer] writes nothing; it drops the connection and the record
    of the peer, and clears the hub entry, the membership and the cached
    entry that the record, as it stands, points to. *)
Lemma cleanupPeer_spec peerId s :
  ∃ s', cleanupPeer peerId s = Ok (tt, s', [])
    ∧ wsConns s' = delete peerId (wsConns s)
    ∧ peerData s' = delete peerId (peerData s)
    ∧ relayed s' = relayed s
    ∧ bootstrapConns s' = bootstrapConns s
    ∧ (∀ p, peerData s !! peerId = Some p → pi_IsHub p = true → hubs s' !! peerId = None)
    ∧ (∀ p, peerData s !! peerId = Some p → pi_NetworkName p ≠ "" →
         (∀ set, networkPeers s' !! pi_NetworkName p = Some set → peerId ∉ set)
         ∧ (∀ cache, crossHubCache s' !! pi_NetworkName p = Some cache →
              cache !! peerId = None)).
Proof.
  unfold cleanupPeer. run_handler.
  destruct (peerData s !! peerId) as [p|] eqn:Hp; simpl.
  { destruct (pi_IsHub p) eqn:Hhub; run_handler;
      destruct (decide (pi_NetworkName p ≠ "")) as [Hn|Hn]; run_handler;
      eexists; (split; [done|]); simpl; do 4 (split; [done|]); split.
    all: try (intros p0 [= <-] ?; first [by rewrite lookup_delete_eq|congruence]).
    all: intros p0 [= <-] ?; try contradiction.
    all: split; [intros set; apply leave_network_notin
                |intros cache; apply uncache_lookup]. }
  eexists. by repeat split.
Qed.

(** ** Routing of signaling messages *)

Lemma connectedBootstrap_writes resp (l : list (string * bootstrapConn)) :
  l ≫= (λ '(_, b),
          if bc_connected b
          then match bc_ws b with
               | Some ws => [EvWriteJSONMsg ws resp]
               | None => []
               end
          else [])
  = (λ ws, EvWriteJSONMsg ws resp)
      <$> omap (λ '(_, b), if bc_connected b then bc_ws b else None) l.
Proof.
  induction l as [|[k b] l IH]; [done|].
  csimpl. rewrite IH. destruct (bc_connected b); [|done]. by destruct (bc_ws b).
Qed.

(** [forwardSignalToBootstrap] writes the envelope once on the socket of
    every connected bootstrap link. *)
Lemma forwardSignalToBootstrap_run target resp s :
  forwardSignalToBootstrap target resp s =
    Ok (tt, s, (λ ws, EvWriteJSONMsg ws resp) <$> connectedBootstrapSockets s).
Proof.
  unfold forwardSignalToBootstrap, connectedBootstrapSockets. run_handler.
  erewrite forM__run.
  - simpl. by rewrite connectedBootstrap_writes.
  - intros [k b] _. destruct (bc_connected b); [|done]. by destruct (bc_ws b).
Qed.

Lemma touch_wsConns now peerId s :
  wsConns (set_peerData (alter (touch now) peerId) s) = wsConns s.
Proof. done. Qed.

Lemma touch_networkName now peerId s target :
  targetNetwork (peerData (set_peerData (alter (touch now) peerId) s) !! target)
  = targetNetwork (peerData s !! target).
Proof.
  simpl. rewrite lookup_alter. case_decide; [subst|done].
  by destruct (peerData s !! target).
Qed.

Lemma handleMessage_signaling now P msg s :
  isSignalingType (in_Type msg) →
  handleMessage now P (Some msg) s =
    handleSignaling now P msg (response now P msg) (set_peerData (alter (touch now) P) s).
Proof.
  intros Hty. unfold handleMessage. run_handler.
  assert (in_Type msg ≠ "announce" ∧ in_Type msg ≠ "goodbye") as [Ha Hg].
  { destruct Hty as [Hty | [Hty | Hty]]; rewrite Hty; by split. }
  repeat case_decide; try done.
  apply result_eta.
Qed.

(** C5 (amended): a signaling message whose target is connected locally
    is dropped whenever the network of the message differs from the
    network the router attributes to the target, which is the target's
    recorded network, or "global" while that is still empty.  Nothing
    is written to any socket, and the state changes only by the sender's
    last-activity stamp. *)
Theorem C5_cross_network_drop now P msg s c :
  isSignalingType (in_Type msg) →
  wsConns s !! in_TargetPeer msg = Some c →
  firstNonEmpty (in_NetworkName msg) "global"
    ≠ targetNetwork (peerData s !! in_TargetPeer msg) →
  handleSignaling now P msg (response now P msg) s = Ok (tt, s, [])
  ∧ handleMessage now P (Some msg) s
    = Ok (tt, set_peerData (alter (touch now) P) s, []).
Proof.
  intros Hty Hc Hnet.
  assert (∀ s0, wsConns s0 = wsConns s →
            targetNetwork (peerData s0 !! in_TargetPeer msg)
            = targetNetwork (peerData s !! in_TargetPeer msg) →
            handleSignaling now P msg (response now P msg) s0 = Ok (tt, s0, [])) as Hdrop.
  { intros s0 Hws Htn. unfold handleSignaling.
    case_decide; [done|]. run_handler. unfold getConn, getPeerInfo, gets.
    rewrite Hws, Hc. simpl. rewrite Htn. by case_decide. }
  split; [by apply Hdrop|].
  rewrite handleMessage_signaling by done.
  apply Hdrop; [done|apply touch_networkName].
Qed.

(** ** Housekeeping *)

Lemma bind_nil {A} (l : list A) : l ≫= (λ _, @nil event) = [].
Proof. induction l; [done|]. by csimpl. Qed.

Lemma getActivePeers_run exclude netName s :
  ∃ peers, getActivePeers exclude netName s = Ok (peers, s, []).
Proof.
  unfold getActivePeers. run_handler.
  destruct (networkPeers s !! netName); by eexists.
Qed.

Lemma performCleanup_run now s :
  performCleanup now s
  = Ok (tt, set_relayed (filter (λ '(_, ts), ¬ (5000 < Go.sub64 now ts)%Z)) s, []).
Proof.
  unfold performCleanup. run_handler.
  erewrite (forM__run _ _ (λ _, [])).
  - by rewrite bind_nil.
  - intros netName _. run_handler.
    by destruct (getActivePeers_run "" netName s) as [peers ->].
Qed.

Lemma sub64_small (a b : Z) : (0 ≤ a - b ≤ 5000)%Z → Go.sub64 a b = (a - b)%Z.
Proof.
  intros Hd. unfold Go.sub64, Go.wrap64.
  change (2 ^ 63)%Z with 9223372036854775808%Z.
  change (2 ^ 64)%Z with 18446744073709551616%Z.
  rewrite Z.mod_small; lia.
Qed.

(** Cleanup ticks that fire within five seconds of an insertion keep the
    entry, and touch neither the connections nor the bootstrap links. *)
Lemma run_ticks_keep id now1 now2 ticks s1 :
  (now2 ≤ now1 + 5000)%Z →
  Forall (λ t, now1 ≤ t ≤ now2)%Z ticks →
  relayed s1 !! id = Some now1 →
  ∃ s2, run ((λ t, (t, Tick)) <$> ticks) s1 = Ok (tt, s2, [])
    ∧ wsConns s2 = wsConns s1
    ∧ bootstrapConns s2 = bootstrapConns s1
    ∧ relayed s2 !! id = Some now1.
Proof.
  intros Hnow Hticks. revert s1.
  induction Hticks as [|t ticks Ht _ IH]; intros s1 Hrel; [by eexists|].
  csimpl. run_handler. rewrite performCleanup_run.
  destruct (IH (set_relayed (filter (λ '(_, ts), ¬ (5000 < Go.sub64 t ts)%Z)) s1))
    as (s2 & -> & Hws & Hbs & Hrel2).
  - simpl. apply map_lookup_filter_Some. split; [done|]. simpl.
    rewrite sub64_small; lia.
  - by exists s2.
Qed.

(** ** Relay deduplication *)

(** A signaling message for a target that is not connected locally is
    dropped while its fingerprint is in the dedup set, whatever the age
    of the entry: only the sender's last-activity stamp changes. *)
Lemma handleMessage_relay_duplicate now P msg s :
  isSignalingType (in_Type msg) →
  in_TargetPeer msg ≠ "" →
  wsConns s !! in_TargetPeer msg = None →
  is_Some (relayed s !! relayId P msg) →
  handleMessage now P (Some msg) s
  = Ok (tt, set_peerData (alter (touch now) P) s, []).
Proof.
  intros Hty Htarget Hconn [ts Hts]. rewrite handleMessage_signaling by done.
  unfold handleSignaling. rewrite decide_False by done.
  run_handler. unfold getConn, gets. simpl. rewrite Hconn. simpl.
  by rewrite Hts.
Qed.

(** C6 (amended): a signaling message of [P] for a target that is not
    connected locally, whose fingerprint is not in the dedup set, is
    written once on the socket of every connected bootstrap link, and
    its fingerprint, the string type:P:target:hash(data), is recorded
    with the time of the send.  Cleanup ticks within the next five
    seconds keep the fingerprint, and a message of [P] with the same
    type, target and data that is sent within those five seconds writes
    nothing. *)
Theorem C6_relay_dedup now1 ticks now2 P msg msg2 s :
  isSignalingType (in_Type msg) →
  in_TargetPeer msg ≠ "" →
  wsConns s !! in_TargetPeer msg = None →
  relayed s !! relayId P msg = None →
  in_Type msg2 = in_Type msg →
  in_TargetPeer msg2 = in_TargetPeer msg →
  in_Data msg2 = in_Data msg →
  (now1 ≤ now2 ≤ now1 + 5000)%Z →
  Forall (λ t, now1 ≤ t ≤ now2)%Z ticks →
  ∃ s1 s2,
    handleMessage now1 P (Some msg) s
      = Ok (tt, s1, (λ ws, EvWriteJSONMsg ws (response now1 P msg))
                      <$> connectedBootstrapSockets s)
    ∧ relayed s1
      = <[in_Type msg +:+ ":" +:+ P +:+ ":" +:+ in_TargetPeer msg +:+ ":"
            +:+ hashSignalData (in_Data msg) := now1]> (relayed s)
    ∧ run ((λ t, (t, Tick)) <$> ticks) s1 = Ok (tt, s2, [])
    ∧ connectedBootstrapSockets s2 = connectedBootstrapSockets s
    ∧ handleMessage now2 P (Some msg2) s2
      = Ok (tt, set_peerData (alter (touch now2) P) s2, []).
Proof.
  intros Hty Htarget Hconn Hfresh Hty2 Htarget2 Hdata2 Hnow Hticks.
  set (s1 := set_relayed <[relayId P msg:=now1]> (set_peerData (alter (touch now1) P) s)).
  assert (handleMessage now1 P (Some msg) s
          = Ok (tt, s1, (λ ws, EvWriteJSONMsg ws (response now1 P msg))
                          <$> connectedBootstrapSockets s)) as Hfirst.
  { rewrite handleMessage_signaling by done.
    unfold handleSignaling. rewrite decide_False by done.
    run_handler. unfold getConn, gets. simpl. rewrite Hconn. simpl. rewrite Hfresh.
    by rewrite forwardSignalToBootstrap_run. }
  destruct (run_ticks_keep (relayId P msg) now1 now2 ticks s1)
    as (s2 & Hrun & Hws2 & Hbs2 & Hrel2);
    [lia|done|simpl; by rewrite lookup_insert_eq|].
  assert (relayId P msg2 = relayId P msg) as Hid.
  { unfold relayId. by rewrite Hty2, Htarget2, Hdata2. }
  exists s1, s2.
  split; [done|]. split; [done|].
  split; [done|]. split; [unfold connectedBootstrapSockets; by rewrite Hbs2|].
  apply handleMessage_relay_duplicate.
  - by rewrite Hty2.
  - by rewrite Htarget2.
  - by rewrite Htarget2, Hws2.
  - rewrite Hid, Hrel2. by eexists.
Qed.


(** ** The connection cap *)

(** C7: an upgrade that arrives for a peer id without a connection while
    the number of connections has reached [MaxConnections] is answered
    with a close frame of code 1008 and closed; no record is created and
    the state is untouched. *)
Theorem C7_connection_cap now r c s :
  unauthorized (opt_AuthToken (opts s)) r = false →
  validatePeerId (req_peerId r) = true →
  wsConns s !! req_peerId r = None →
  (opt_MaxConnections (opts s) ≤ Z.of_nat (size (wsConns s)))%Z →
  handleWS now r (Some c) s
    = Ok (tt, s, [EvWriteControlClose c 1008 "max connections"; EvClose c]).
Proof.
  intros Hauth Hvalid Hfree Hcap. unfold handleWS. run_handler.
  rewrite Hauth, Hvalid. simpl. rewrite Hfree. simpl. by case_decide.
Qed.

(** ** What the router writes *)

(** Whatever [handleSignaling] writes is the envelope it was given. *)
Lemma handleSignaling_writes now P msg resp s :
  ∃ s' evs, handleSignaling now P msg resp s = Ok (tt, s', evs)
    ∧ ∀ e, e ∈ evs → ∃ c, e = EvWriteMessage c resp ∨ e = EvWriteJSONMsg c resp.
Proof.
  unfold handleSignaling. case_decide.
  { eexists _, _. split; [done|]. by intros e ?%elem_of_nil. }
  run_handler. unfold getConn, getPeerInfo, forwardToLocalTarget, getConn, gets, sendToConn.
  destruct (wsConns s !! in_TargetPeer msg) as [c|] eqn:Hc; simpl.
  - case_decide.
    + eexists _, _. split; [done|]. by intros e ?%elem_of_nil.
    + run_handler. rewrite Hc. simpl.
      eexists _, _. split; [done|]. intros e ->%list_elem_of_singleton. eauto.
  - destruct (relayed s !! relayId P msg).
    + eexists _, _. split; [done|]. by intros e ?%elem_of_nil.
    + rewrite forwardSignalToBootstrap_run. simpl.
      eexists _, _. split; [done|].
      intros e (ws & -> & _)%list_elem_of_fmap. eauto.
Qed.

(** ** Goodbye *)

Lemma handleMessage_goodbye now P msg s :
  in_Type msg = "goodbye" →
  handleMessage now P (Some msg) s =
    (broadcastToOthers P (response now P msg);; cleanupPeer P)
      (set_peerData (alter (touch now) P) s).
Proof.
  intros Hty. unfold handleMessage. run_handler. rewrite Hty.
  rewrite decide_False by done. rewrite decide_True by done.
  apply result_eta.
Qed.

(** The run of a goodbye: the broadcast, then the cleanup, both in the
    state in which the sender's activity stamp has been refreshed. *)
Lemma goodbye_run now P msg s :
  in_Type msg = "goodbye" →
  ∃ n evs s',
    broadcastToOthers P (response now P msg) (set_peerData (alter (touch now) P) s)
      = Ok (n, set_peerData (alter (touch now) P) s, evs)
    ∧ cleanupPeer P (set_peerData (alter (touch now) P) s) = Ok (tt, s', [])
    ∧ handleMessage now P (Some msg) s = Ok (tt, s', evs).
Proof.
  intros Hty. rewrite handleMessage_goodbye by done.
  set (s0 := set_peerData (alter (touch now) P) s).
  destruct (broadcastToOthers_run P (response now P msg) s0) as (n & evs & Hb & _).
  destruct (cleanupPeer_spec P s0) as (s' & Hc & _).
  exists n, evs, s'. split; [done|]. split; [done|].
  rewrite (bind_run _ _ _ _ _ _ Hb), Hc. by rewrite app_nil_r.
Qed.

(** C4 (amended): on a goodbye from P the server forwards P's envelope,
    of type goodbye and re-addressed to each recipient, to every other
    peer that holds a connection, whatever its network; it then removes
    P's connection and record, and takes P out of the membership set and
    the cross-hub cache of the network P's record names. *)
Theorem C4_goodbye_forwarded_to_all now P msg s :
  in_Type msg = "goodbye" →
  ∃ s' evs, handleMessage now P (Some msg) s = Ok (tt, s', evs)
    ∧ (∀ e, e ∈ evs ↔
         ∃ Q c, Q ≠ P ∧ wsConns s !! Q = Some c
                ∧ e = EvWriteMessage c (with_TargetPeer (response now P msg) Q))
    ∧ out_Type (response now P msg) = "goodbye"
    ∧ wsConns s' !! P = None
    ∧ peerData s' !! P = None
    ∧ (∀ p, peerData s !! P = Some p → pi_NetworkName p ≠ "" →
         (∀ set, networkPeers s' !! pi_NetworkName p = Some set → P ∉ set)
         ∧ (∀ cache, crossHubCache s' !! pi_NetworkName p = Some cache →
              cache !! P = None)).
Proof.
  intros Hty.
  destruct (goodbye_run now P msg s Hty) as (n & evs & s' & Hb & Hc & Hrun).
  set (s0 := set_peerData (alter (touch now) P) s) in *.
  destruct (broadcastToOthers_run P (response now P msg) s0) as (n' & evs' & Hb' & Hevs).
  rewrite Hb in Hb'. injection Hb' as _ <-.
  destruct (cleanupPeer_spec P s0) as (s'' & Hc' & Hws & Hpd & _ & _ & _ & Hnet).
  rewrite Hc in Hc'. injection Hc' as <-.
  exists s', evs. split; [exact Hrun|].
  split; [exact Hevs|]. split; [exact Hty|].
  split; [by rewrite Hws, lookup_delete_eq|].
  split; [by rewrite Hpd, lookup_delete_eq|].
  intros p Hp Hn. apply (Hnet (touch now p)); [|done].
  subst s0. simpl. rewrite lookup_alter, decide_True by done. by rewrite Hp.
Qed.

(** ** The forwarded envelope *)

(** C10: every envelope the server forwards for a goodbye or a signaling
    message carries the client-supplied [fromPeerId] unless that field is
    empty after trimming white space, in which case it carries the peer
    id of the sending connection; the supplied value is never compared
    with that peer id. *)
Theorem C10_forwarded_fromPeerId now P msg s :
  in_Type msg = "goodbye" ∨ isSignalingType (in_Type msg) →
  ∃ s' evs, handleMessage now P (Some msg) s = Ok (tt, s', evs)
    ∧ ∀ e, e ∈ evs →
        ∃ c m, (e = EvWriteMessage c m ∨ e = EvWriteJSONMsg c m)
          ∧ out_Type m = in_Type msg
          ∧ out_Data m = in_Data msg
          ∧ out_FromPeerId m =
              if decide (Go.TrimSpace TrimFunc_IsSpace TrimRightFunc_IsSpace
                           (in_FromPeerId msg) = "")
              then P else in_FromPeerId msg.
Proof.
  intros [Hty|Hty].
  - destruct (goodbye_run now P msg s Hty) as (n & evs & s' & Hb & _ & Hrun).
    destruct (broadcastToOthers_run P (response now P msg)
                (set_peerData (alter (touch now) P) s)) as (n' & evs' & Hb' & Hevs).
    rewrite Hb in Hb'. injection Hb' as _ <-.
    exists s', evs. split; [done|]. intros e (Q & c & _ & _ & ->)%Hevs.
    exists c, (with_TargetPeer (response now P msg) Q). split; [by left|].
    simpl. by rewrite firstNonEmpty_spec.
  - rewrite handleMessage_signaling by done.
    destruct (handleSignaling_writes now P msg (response now P msg)
                (set_peerData (alter (touch now) P) s)) as (s' & evs & Hrun & Hevs).
    exists s', evs. split; [done|]. intros e [c He]%Hevs.
    exists c, (response now P msg). split; [done|].
    simpl. by rewrite firstNonEmpty_spec.
Qed.

(** ** Discovery *)

Lemma elem_of_sortStrings x l : x ∈ Go.sortStrings l ↔ x ∈ l.
Proof. unfold Go.sortStrings. by rewrite merge_sort_Permutation. Qed.

(** The active peers of a network: its members that hold a connection,
    the excluded id apart. *)
Lemma getActivePeers_spec exclude netName s :
  ∃ peers, getActivePeers exclude netName s = Ok (peers, s, [])
    ∧ ∀ Q, Q ∈ peers ↔
        Q ≠ exclude ∧ is_Some (wsConns s !! Q)
        ∧ ∃ set, networkPeers s !! netName = Some set ∧ Q ∈ set.
Proof.
  unfold getActivePeers. run_handler.
  destruct (networkPeers s !! netName) as [set|] eqn:Hset; simpl.
  - eexists. split; [done|]. intros Q.
    rewrite elem_of_sortStrings, list_elem_of_filter, elem_of_elements.
    split; [intros [[??] ?]; eauto|].
    intros (? & ? & set' & [= <-] & ?). done.
  - exists []. split; [done|]. intros Q. split; [by intros ?%elem_of_nil|].
    by intros (_ & _ & set & ? & _).
Qed.

Lemma broadcastPeerDiscovered_run now P netName isHub data s :
  ∃ evs, broadcastPeerDiscovered now P netName isHub data s = Ok (tt, s, evs)
    ∧ ∀ e, e ∈ evs ↔
        ∃ Q c set, Q ≠ P ∧ Q ≠ "" ∧ networkPeers s !! netName = Some set ∧ Q ∈ set
          ∧ wsConns s !! Q = Some c
          ∧ e = EvWriteMessage c
                  (mkOutbound "peer-discovered"
                     (JObject (mergeMap data
                        {[ "peerId" := JString P; "isHub" := JBool isHub ]}))
                     "system" Q netName now).
Proof.
  unfold broadcastPeerDiscovered.
  destruct (getActivePeers_spec "" netName s) as (peers & Hrun & Hpeers).
  rewrite (bind_run _ _ _ _ _ _ Hrun).
  erewrite (forM__run _ _ (λ other,
    if decide (other = P) then []
    else match wsConns s !! other with
         | Some c =>
             [EvWriteMessage c
                (mkOutbound "peer-discovered"
                   (JObject (mergeMap data
                      {[ "peerId" := JString P; "isHub" := JBool isHub ]}))
                   "system" other netName now)]
         | None => []
         end)).
  2: { intros other _. case_decide; [done|].
       unfold forwardToLocalTarget, getConn, sendToConn. run_handler.
       by destruct (wsConns s !! other). }
  eexists. split; [done|]. intros e. simpl. rewrite list_elem_of_bind. split.
  - intros (Q & He & HQ). apply Hpeers in HQ as (Hne & [c Hc] & set & Hset & Hin).
    case_decide; [by apply elem_of_nil in He|].
    rewrite Hc in He. apply list_elem_of_singleton in He. by exists Q, c, set.
  - intros (Q & c & set & HP & Hne & Hset & Hin & Hc & ->). exists Q. split.
    + rewrite decide_False, Hc by done. by apply list_elem_of_singleton.
    + apply Hpeers. eauto 10.
Qed.

Lemma sendExistingPeersToNew_run now P netName s :
  ∃ evs, sendExistingPeersToNew now P netName s = Ok (tt, s, evs)
    ∧ ∀ e, e ∈ evs → ∃ c m, e = EvWriteMessage c m ∧ out_TargetPeer m = P.
Proof.
  unfold sendExistingPeersToNew.
  destruct (getActivePeers_spec P netName s) as (peers & Hrun & _).
  rewrite (bind_run _ _ _ _ _ _ Hrun). run_handler. unfold getConn, gets. simpl.
  erewrite (forM__run _ _ (λ p,
    match wsConns s !! P, peerData s !! p with
    | Some c, Some q =>
        [EvWriteMessage c
           (mkOutbound "peer-discovered"
              (JObject (mergeMap (pi_Data q)
                 {[ "peerId" := JString p; "isHub" := JBool (pi_IsHub q) ]}))
              "system" P netName now)]
    | _, _ => []
    end)).
  2: { intros p _. unfold getPeerInfo, gets. run_handler.
       destruct (wsConns s !! P), (peerData s !! p); done. }
  eexists. split; [done|]. intros e (p & He & _)%list_elem_of_bind.
  destruct (wsConns s !! P), (peerData s !! p); try by apply elem_of_nil in He.
  apply list_elem_of_singleton in He as ->. by eexists _, _.
Qed.

Lemma sendCachedCrossHubPeersToNew_run now P netName s :
  ∃ evs, sendCachedCrossHubPeersToNew now P netName s = Ok (tt, s, evs)
    ∧ ∀ e, e ∈ evs → ∃ c m, e = EvWriteMessage c m ∧ out_TargetPeer m = P.
Proof.
  unfold sendCachedCrossHubPeersToNew. run_handler.
  destruct (crossHubCache s !! netName) as [cache|]; simpl.
  2: { exists []. split; [done|]. by intros e ?%elem_of_nil. }
  unfold getConn, gets. simpl.
  erewrite (forM__run _ _ (λ '(id, data),
    if decide (is_Some (wsConns s !! id)) then []
    else match wsConns s !! P with
         | Some c =>
             [EvWriteMessage c
                (mkOutbound "peer-discovered"
                   (JObject (mergeMap data {[ "peerId" := JString id ]}))
                   "system" P netName now)]
         | None => []
         end)).
  2: { intros [id data] _. run_handler. case_decide; [done|].
       by destruct (wsConns s !! P). }
  eexists. split; [done|]. intros e ([id data] & He & _)%list_elem_of_bind.
  case_decide; [by apply elem_of_nil in He|].
  destruct (wsConns s !! P); [|by apply elem_of_nil in He].
  apply list_elem_of_singleton in He as ->. by eexists _, _.
Qed.

Lemma announceToBootstrap_run now P netName isHub data s :
  ∃ evs, announceToBootstrap now P netName isHub data s = Ok (tt, s, evs)
    ∧ ∀ e, e ∈ evs → ∃ ws payload, e = EvWriteJSONMap ws payload.
Proof.
  unfold announceToBootstrap. run_handler.
  erewrite (forM__run _ _ (λ ws, [EvWriteJSONMap ws _])); [|done].
  eexists. split; [done|]. intros e (ws & ->%list_elem_of_singleton & _)%list_elem_of_bind.
  by eexists _, _.
Qed.

(** The four sends that close [handleAnnounce], run in a state whose
    connections and membership of N are given. *)
Lemma announce_sends now P N isHub data s2 (members : gset string) :
  networkPeers s2 !! N = Some ({[ P ]} ∪ members) →
  ∃ evs,
    (broadcastPeerDiscovered now P N isHub data;;
     sendExistingPeersToNew now P N;;
     sendCachedCrossHubPeersToNew now P N;;
     announceToBootstrap now P N isHub data) s2 = Ok (tt, s2, evs)
    ∧ (∀ Q c, Q ≠ P → Q ≠ "" → Q ∈ members → wsConns s2 !! Q = Some c →
         ∃ d, EvWriteMessage c
                (mkOutbound "peer-discovered" (JObject d) "system" Q N now) ∈ evs
           ∧ d !! "peerId" = Some (JString P)
           ∧ d !! "isHub" = Some (JBool isHub))
    ∧ (∀ c m, EvWriteMessage c m ∈ evs → out_TargetPeer m ≠ P →
         out_Type m = "peer-discovered"
         ∧ ∃ d, out_Data m = JObject d
             ∧ d !! "peerId" = Some (JString P)
             ∧ d !! "isHub" = Some (JBool isHub)).
Proof.
  intros Hnet.
  destruct (broadcastPeerDiscovered_run now P N isHub data s2) as (e1 & Hr1 & He1).
  destruct (sendExistingPeersToNew_run now P N s2) as (e2 & Hr2 & He2).
  destruct (sendCachedCrossHubPeersToNew_run now P N s2) as (e3 & Hr3 & He3).
  destruct (announceToBootstrap_run now P N isHub data s2) as (e4 & Hr4 & He4).
  rewrite (bind_run _ _ _ _ _ _ Hr1), (bind_run _ _ _ _ _ _ Hr2),
    (bind_run _ _ _ _ _ _ Hr3), Hr4.
  assert (mergeMap data {[ "peerId" := JString P; "isHub" := JBool isHub ]}
            !! "peerId" = Some (JString P)) as Hid.
  { apply mergeMap_lookup_override. apply lookup_insert_eq. }
  assert (mergeMap data {[ "peerId" := JString P; "isHub" := JBool isHub ]}
            !! "isHub" = Some (JBool isHub)) as Hhub.
  { apply mergeMap_lookup_override. rewrite lookup_insert_ne by discriminate.
    apply lookup_singleton_eq. }
  remember (mergeMap data {[ "peerId" := JString P; "isHub" := JBool isHub ]}) as merged
    eqn:Hmerged.
  clear Hmerged.
  eexists. split; [reflexivity|]. split.
  - intros Q c HQP HQ Hin Hc. exists merged. split; [|exact (conj Hid Hhub)].
    apply elem_of_app. left. apply He1.
    exists Q, c, ({[ P ]} ∪ members).
    split; [exact HQP|]. split; [exact HQ|]. split; [exact Hnet|].
    split; [by apply elem_of_union_r|]. split; [exact Hc|reflexivity].
  - intros c m Hin Hto. rewrite !elem_of_app in Hin.
    destruct Hin as [Hin|[Hin|[Hin|Hin]]].
    + apply He1 in Hin as (Q & c' & set & _ & _ & _ & _ & _ & Heq).
      injection Heq as _ ->. simpl. split; [reflexivity|].
      exists merged. split; [reflexivity|exact (conj Hid Hhub)].
    + apply He2 in Hin as (c' & m' & Heq & Hm). injection Heq as _ <-. done.
    + apply He3 in Hin as (c' & m' & Heq & Hm). injection Heq as _ <-. done.
    + by apply He4 in Hin as (ws & payload & ?).
Qed.

(** The run of an announce of a peer that has a record: the record, the
    hub table and the membership are updated, then come the four sends,
    which leave the state alone. *)
Lemma announce_run now P msg resp s p0 :
  peerData s !! P = Some p0 →
  ∃ s2 evs,
    wsConns s2 = wsConns s
    ∧ networkPeers s2 !! firstNonEmpty (in_NetworkName msg) "global"
      = Some ({[ P ]} ∪ default ∅
                (networkPeers s !! firstNonEmpty (in_NetworkName msg) "global"))
    ∧ (broadcastPeerDiscovered now P (firstNonEmpty (in_NetworkName msg) "global")
         (announcedHubFlag (in_Data msg))
         (match asMap (in_Data msg) with Some m => m | None => pi_Data p0 end);;
       sendExistingPeersToNew now P (firstNonEmpty (in_NetworkName msg) "global");;
       sendCachedCrossHubPeersToNew now P (firstNonEmpty (in_NetworkName msg) "global");;
       announceToBootstrap now P (firstNonEmpty (in_NetworkName msg) "global")
         (announcedHubFlag (in_Data msg))
         (match asMap (in_Data msg) with Some m => m | None => pi_Data p0 end)) s2
      = Ok (tt, s2, evs)
    ∧ handleAnnounce now P msg resp s = Ok (tt, s2, evs).
Proof.
  intros Hp. unfold handleAnnounce.
  set (N := firstNonEmpty (in_NetworkName msg) "global").
  set (isHub := announcedHubFlag (in_Data msg)).
  set (data := match asMap (in_Data msg) with Some m => m | None => pi_Data p0 end).
  run_handler. rewrite Hp. simpl. rewrite !result_eta. fold data.
  destruct (isHub || bool_decide (N = opt_HubMeshNamespace (opts s)));
    run_handler; rewrite ?result_eta.
  all: match goal with
       | |- context [broadcastPeerDiscovered _ _ _ _ _ ?s2] =>
           destruct (announce_sends now P N isHub data s2
                       (default ∅ (networkPeers s !! N)))
             as (evs & Hrun & _);
             [simpl; by rewrite lookup_insert_eq|];
             exists s2, evs; split; [done|];
             split; [simpl; by rewrite lookup_insert_eq|];
             split; [exact Hrun|];
             unfold mbind, Handler_bind in Hrun; by rewrite Hrun
       end.
Qed.

Lemma handleAnnounce_total now P msg resp s p0 :
  peerData s !! P = Some p0 →
  ∃ s' evs, handleAnnounce now P msg resp s = Ok (tt, s', evs).
Proof.
  intros Hp.
  destruct (announce_run now P msg resp s p0 Hp) as (s' & evs & _ & _ & _ & Hrun).
  by exists s', evs.
Qed.

(** C9: on an announce by P into network N, every other member of N that
    holds a connection is sent a [peer-discovered] whose data carries
    [peerId] = P and [isHub] = the flag read from the announce, and every
    message the announce sends to a peer other than P is of that form;
    keys of the same name in the data P supplied are overridden. *)
Theorem C9_peer_discovered_overrides now P msg resp s p0 :
  peerData s !! P = Some p0 →
  let N := firstNonEmpty (in_NetworkName msg) "global" in
  let isHub := announcedHubFlag (in_Data msg) in
  ∃ s' evs, handleAnnounce now P msg resp s = Ok (tt, s', evs)
    ∧ (∀ Q c set, Q ≠ P → Q ≠ "" → networkPeers s !! N = Some set → Q ∈ set →
         wsConns s !! Q = Some c →
         ∃ d, EvWriteMessage c (mkOutbound "peer-discovered" (JObject d) "system" Q N now)
                ∈ evs
           ∧ d !! "peerId" = Some (JString P) ∧ d !! "isHub" = Some (JBool isHub))
    ∧ (∀ c m, EvWriteMessage c m ∈ evs → out_TargetPeer m ≠ P →
         out_Type m = "peer-discovered"
         ∧ ∃ d, out_Data m = JObject d
             ∧ d !! "peerId" = Some (JString P) ∧ d !! "isHub" = Some (JBool isHub)).
Proof.
  intros Hp N isHub.
  destruct (announce_run now P msg resp s p0 Hp) as (s2 & evs & Hws & Hnet & Hsends & Hrun).
  fold N isHub in Hnet, Hsends.
  destruct (announce_sends now P N isHub
              (match asMap (in_Data msg) with Some m => m | None => pi_Data p0 end)
              s2 _ Hnet) as (evs' & Hsends' & Hto & Hfrom).
  rewrite Hsends in Hsends'. injection Hsends' as <-.
  exists s2, evs. split; [exact Hrun|]. split; [|exact Hfrom].
  intros Q c set HQP HQ Hset Hin Hc. apply Hto; try done.
  - by rewrite Hset.
  - by rewrite Hws.
Qed.

(** ** Announce without a record *)

(** When the peer has no record, [handleAnnounce] reaches [pi.Data] with
    a nil [pi]. *)
Lemma handleAnnounce_no_record now P msg resp s :
  peerData s !! P = None → handleAnnounce now P msg resp s = Panic.
Proof.
  intros Hp. unfold handleAnnounce. run_handler. by rewrite Hp.
Qed.

Lemma handleMessage_announce_no_record now P msg s :
  in_Type msg = "announce" → peerData s !! P = None →
  handleMessage now P (Some msg) s = Panic.
Proof.
  intros Hty Hp. unfold handleMessage. run_handler.
  rewrite decide_True by done.
  rewrite handleAnnounce_no_record; [done|].
  simpl. rewrite lookup_alter, decide_True by done. by rewrite Hp.
Qed.

(** Every other frame is handled to completion. *)
Lemma handleMessage_total now P data s :
  (∀ msg, data = Some msg → in_Type msg = "announce" → is_Some (peerData s !! P)) →
  ∃ s' evs, handleMessage now P data s = Ok (tt, s', evs).
Proof.
  intros Hrec. destruct data as [msg|]; [|by eexists _, _].
  destruct (decide (in_Type msg = "announce")) as [Ha|Ha].
  { destruct (Hrec msg eq_refl Ha) as [p0 Hp].
    unfold handleMessage. run_handler. rewrite decide_True by done.
    destruct (handleAnnounce_total now P msg (response now P msg)
                (set_peerData (alter (touch now) P) s) (touch now p0))
      as (s' & evs & -> ); [|by eexists _, _].
    simpl. rewrite lookup_alter, decide_True by done. by rewrite Hp. }
  destruct (decide (in_Type msg = "goodbye")) as [Hg|Hg].
  { destruct (goodbye_run now P msg s Hg) as (n & evs & s' & _ & _ & ->). by eexists _, _. }
  destruct (decide (isSignalingType (in_Type msg))) as [Hs|Hs].
  { rewrite handleMessage_signaling by done.
    destruct (handleSignaling_writes now P msg (response now P msg)
                (set_peerData (alter (touch now) P) s)) as (s' & evs & -> & _).
    by eexists _, _. }
  unfold handleMessage. run_handler.
  rewrite !decide_False by done.
  case_decide; [by eexists _, _|].
  case_decide; [|by eexists _, _].
  unfold handlePing, getConn, gets, sendToConn. run_handler.
  destruct (wsConns s !! P); by eexists _, _.
Qed.

(** ** Disconnection and eviction *)

Lemma handleDisconnect_spec now P code reason s :
  ∃ s' evs, handleDisconnect now P code reason s = Ok (tt, s', evs)
    ∧ wsConns s' = delete P (wsConns s)
    ∧ peerData s' = delete P (peerData s).
Proof.
  unfold handleDisconnect, getPeerInfo. run_handler.
  match goal with
  | |- context [broadcastToOthers P ?m s] =>
      destruct (broadcastToOthers_run P m s) as (n & evs & -> & _)
  end.
  destruct (cleanupPeer_spec P s) as (s' & -> & Hws & Hpd & _).
  by eexists _, _.
Qed.

(** A second upgrade for a connected peer id closes the old socket and
    installs the new one; when the read loop of the old socket then
    reports its error, the disconnect handler removes, by peer id, the
    connection and the record that were just installed. *)
Lemma eviction_undone_by_old_read_loop now1 now2 r c old reason s :
  unauthorized (opt_AuthToken (opts s)) r = false →
  validatePeerId (req_peerId r) = true →
  wsConns s !! req_peerId r = Some old →
  (Z.of_nat (size (delete (req_peerId r) (wsConns s))) < opt_MaxConnections (opts s))%Z →
  ∃ s1 e1 s2 e2,
    handleWS now1 r (Some c) s = Ok (tt, s1, e1)
    ∧ EvClose old ∈ e1
    ∧ wsConns s1 !! req_peerId r = Some c
    ∧ is_Some (peerData s1 !! req_peerId r)
    ∧ handleDisconnect now2 (req_peerId r) CloseAbnormalClosure reason s1 = Ok (tt, s2, e2)
    ∧ wsConns s2 !! req_peerId r = None
    ∧ peerData s2 !! req_peerId r = None.
Proof.
  intros Hauth Hvalid Hold Hroom.
  assert (∃ s1 e1, handleWS now1 r (Some c) s = Ok (tt, s1, e1)
            ∧ EvClose old ∈ e1
            ∧ wsConns s1 !! req_peerId r = Some c
            ∧ is_Some (peerData s1 !! req_peerId r)) as (s1 & e1 & Hws & Hclose & Hc & Hp).
  { unfold handleWS. run_handler. rewrite Hauth, Hvalid. simpl. rewrite Hold. simpl.
    rewrite decide_False by lia. simpl.
    eexists _, _. split; [done|]. split; [by left|]. simpl.
    by rewrite !lookup_insert_eq. }
  destruct (handleDisconnect_spec now2 (req_peerId r) CloseAbnormalClosure reason s1)
    as (s2 & e2 & Hd & Hws2 & Hpd2).
  exists s1, e1, s2, e2. repeat split; try done.
  - by rewrite Hws2, lookup_delete_eq.
  - by rewrite Hpd2, lookup_delete_eq.
Qed.

(** ** The self-dial guard *)

Lemma Itoa_nonempty n : Go.Itoa n ≠ "".
Proof.
  unfold Go.Itoa. destruct (Z.to_int n) as [d|d]; [|done]. by destruct d.
Qed.

Lemma splitLastColon_spec l pre suf :
  Go.splitLastColon l = Some (pre, suf) →
  l = pre ++ suf ∧ ∃ rest, suf = ":"%char :: rest.
Proof.
  revert pre suf. induction l as [|c l IH]; intros pre suf; simpl; [done|].
  destruct (Go.splitLastColon l) as [[pre' suf']|].
  - intros [= <- <-]. destruct (IH _ _ eq_refl) as [-> Hsuf]. by split.
  - destruct (Ascii.eqb c ":") eqn:Hc; [|done].
    apply Ascii.eqb_eq in Hc as ->. intros [= <- <-]. split; [done|by eexists].
Qed.

Lemma string_of_list_ascii_app l1 l2 :
  string_of_list_ascii (l1 ++ l2) = string_of_list_ascii l1 +:+ string_of_list_ascii l2.
Proof. induction l1 as [|c l1 IH]; simpl; [done|]. by rewrite IH. Qed.

(** A non-empty port is what follows the last colon of [Host]. *)
Lemma Port_suffix u :
  Go.Port u ≠ "" → ∃ h, Go.Host u = h +:+ ":" +:+ Go.Port u.
Proof.
  unfold Go.Port, Go.splitHostPort.
  destruct (Go.splitLastColon (list_ascii_of_string (Go.Host u))) as [[pre suf]|] eqn:Hsplit;
    [|done].
  destruct (splitLastColon_spec _ _ _ Hsplit) as (Hhp & rest & ->).
  destruct (Go.validOptionalPort (":"%char :: rest)); [|done].
  simpl. intros _. exists (string_of_list_ascii pre).
  rewrite <- (string_of_list_ascii_of_string (Go.Host u)), Hhp.
  by rewrite string_of_list_ascii_app.
Qed.

(** The guard holds only if the configured bind host itself ends in a
    colon followed by the bound port: the host-and-port text of the URI
    is compared with the bare host. *)
Lemma selfDial_only_if_host_carries_port u s :
  selfDial u s → ∃ h, opt_Host (opts s) = h +:+ ":" +:+ Go.Itoa (port s).
Proof.
  intros [Hhost Hport]. destruct (Port_suffix u) as [h Hh].
  { rewrite Hport. apply Itoa_nonempty. }
  exists h. by rewrite <- Hhost, <- Hport.
Qed.

(** When the guard does not hold, the URI is dialed, and a successful dial
    registers the link. *)
Lemma connectToHub_dials now uri attempt u ws s :
  ¬ selfDial u s →
  connectToHub now uri attempt (Some u) (Some ws) s
  = Ok (tt, set_bootstrapConns <[uri := mkBootstrapConn uri (Some ws) true now attempt]> s,
        [EvDial (uri +:+ "?peerId=" +:+ hubPeerId s)]).
Proof.
  intros Hguard. unfold connectToHub. run_handler. by rewrite decide_False.
Qed.

(** * Further properties of the server *)

(** ** What the handlers change *)

Lemma sameRegistry_refl s : sameRegistry s s.
Proof. by repeat split. Qed.

Lemma sameRegistry_trans s1 s2 s3 :
  sameRegistry s1 s2 → sameRegistry s2 s3 → sameRegistry s1 s3.
Proof.
  intros (? & ? & ? & ? & ?) (? & ? & ? & ? & ?). repeat split; congruence.
Qed.

Lemma registryInvariant_same s s' :
  sameRegistry s s' → registryInvariant s → registryInvariant s'.
Proof.
  intros (Ho & Hw & Hp & Hn & Hh) [I1 I2 I3 I4 I5].
  split; rewrite ?Ho, ?Hw, ?Hp, ?Hn, ?Hh; done.
Qed.

(** The state in which [cleanupPeer] ends, field by field. *)
Lemma cleanupPeer_fields peerId s :
  ∃ s', cleanupPeer peerId s = Ok (tt, s', [])
    ∧ opts s' = opts s
    ∧ wsConns s' = delete peerId (wsConns s)
    ∧ peerData s' = delete peerId (peerData s)
    ∧ hubs s' = match peerData s !! peerId with
                | Some p => if pi_IsHub p then delete peerId (hubs s) else hubs s
                | None => hubs s
                end
    ∧ networkPeers s' =
        match peerData s !! peerId with
        | Some p =>
            if decide (pi_NetworkName p ≠ "") then
              match networkPeers s !! pi_NetworkName p with
              | Some set =>
                  if decide (size (set ∖ {[ peerId ]}) = 0)
                  then delete (pi_NetworkName p) (networkPeers s)
                  else <[pi_NetworkName p := set ∖ {[ peerId ]}]> (networkPeers s)
              | None => networkPeers s
              end
            else networkPeers s
        | None => networkPeers s
        end
    ∧ relayed s' = relayed s
    ∧ bootstrapConns s' = bootstrapConns s
    ∧ running s' = running s.
Proof.
  unfold cleanupPeer. run_handler.
  destruct (peerData s !! peerId) as [p|] eqn:Hp; simpl.
  - destruct (pi_IsHub p); run_handler;
      destruct (decide (pi_NetworkName p ≠ "")); run_handler;
      eexists; (split; [reflexivity|]); simpl; by repeat split.
  - eexists. split; [reflexivity|]. by repeat split.
Qed.

(** The state in which an announce ends, for a peer that has a record. *)
Lemma handleAnnounce_fields now P msg resp s p0 :
  peerData s !! P = Some p0 →
  ∃ s' evs, handleAnnounce now P msg resp s = Ok (tt, s', evs)
    ∧ opts s' = opts s
    ∧ wsConns s' = wsConns s
    ∧ peerData s' =
        <[P := markAnnounced now (firstNonEmpty (in_NetworkName msg) "global")
                 (announcedHubFlag (in_Data msg)) (opt_HubMeshNamespace (opts s))
                 (in_Data msg) p0]> (peerData s)
    ∧ networkPeers s' =
        <[firstNonEmpty (in_NetworkName msg) "global" :=
            {[ P ]} ∪ default ∅
              (networkPeers s !! firstNonEmpty (in_NetworkName msg) "global")]>
          (networkPeers s)
    ∧ hubs s' =
        (if announcedHubFlag (in_Data msg)
            || bool_decide (firstNonEmpty (in_NetworkName msg) "global"
                            = opt_HubMeshNamespace (opts s))
         then <[P := mkHubInfo P now now (firstNonEmpty (in_NetworkName msg) "global")
                       (match asMap (in_Data msg) with
                        | Some m => m
                        | None => pi_Data p0
                        end)]> (hubs s)
         else hubs s)
    ∧ relayed s' = relayed s
    ∧ bootstrapConns s' = bootstrapConns s
    ∧ crossHubCache s' = crossHubCache s
    ∧ running s' = running s.
Proof.
  intros Hp. unfold handleAnnounce.
  set (N := firstNonEmpty (in_NetworkName msg) "global").
  set (isHub := announcedHubFlag (in_Data msg)).
  set (data := match asMap (in_Data msg) with Some m => m | None => pi_Data p0 end).
  run_handler. rewrite Hp. simpl. rewrite !result_eta. fold data.
  destruct (isHub || bool_decide (N = opt_HubMeshNamespace (opts s)));
    run_handler; rewrite ?result_eta.
  all: match goal with
       | |- context [broadcastPeerDiscovered _ _ _ _ _ ?s2] =>
           destruct (announce_sends now P N isHub data s2
                       (default ∅ (networkPeers s !! N)))
             as (evs & Hrun & _);
             [simpl; by rewrite lookup_insert_eq|];
             unfold mbind, Handler_bind in Hrun; rewrite Hrun;
             exists s2, evs; split; [reflexivity|]; simpl; by repeat split
       end.
Qed.

Lemma handleSignaling_same now P msg resp s s' evs :
  handleSignaling now P msg resp s = Ok (tt, s', evs) →
  sameRegistry s s' ∧ bootstrapConns s' = bootstrapConns s
  ∧ crossHubCache s' = crossHubCache s ∧ running s' = running s.
Proof.
  unfold handleSignaling. case_decide; [by intros [= <- <-]|].
  run_handler. unfold getConn, getPeerInfo, forwardToLocalTarget, getConn, gets, sendToConn.
  destruct (wsConns s !! in_TargetPeer msg) as [c|] eqn:Hc; simpl.
  - case_decide; [by intros [= <- <-]|].
    run_handler. rewrite Hc. simpl. by intros [= <- <-].
  - destruct (relayed s !! relayId P msg); [by intros [= <- <-]|].
    rewrite forwardSignalToBootstrap_run. simpl. by intros [= <- <-].
Qed.

(** ** The registry invariant is kept *)

Lemma firstNonEmpty_nonempty a b : b ≠ "" → firstNonEmpty a b ≠ "".
Proof.
  intros Hb. unfold firstNonEmpty. case_decide as Ha; [|done].
  intros ->. by apply Ha.
Qed.

Lemma registryInvariant_NewServer o generated : registryInvariant (NewServer o generated).
Proof.
  split; simpl.
  - intros P. by rewrite !lookup_empty.
  - rewrite map_size_empty. lia.
  - intros P p. by rewrite lookup_empty.
  - intros P p. by rewrite lookup_empty.
  - intros N set. by rewrite lookup_empty.
Qed.

Lemma registryInvariant_touch now P s :
  registryInvariant s → registryInvariant (set_peerData (alter (touch now) P) s).
Proof.
  intros [I1 I2 I3 I4 I5]. split; simpl; try done.
  - intros Q. rewrite lookup_alter_is_Some. apply I1.
  - intros Q q. rewrite lookup_alter. case_decide as HQ; [subst Q|apply I3].
    destruct (peerData s !! P) as [p0|] eqn:Hp0; [|done].
    intros [= <-]. apply (I3 P p0 Hp0).
  - intros Q q. rewrite lookup_alter. case_decide as HQ; [subst Q|apply I4].
    destruct (peerData s !! P) as [p0|] eqn:Hp0; [|done].
    intros [= <-]. apply (I4 P p0 Hp0).
Qed.

Lemma registryInvariant_cleanupPeer P s s' evs :
  registryInvariant s → cleanupPeer P s = Ok (tt, s', evs) → registryInvariant s'.
Proof.
  intros [I1 I2 I3 I4 I5] Hrun.
  destruct (cleanupPeer_fields P s) as (s'' & Hrun' & Ho & Hw & Hp & Hh & Hn & _).
  rewrite Hrun in Hrun'. injection Hrun' as <- _.
  assert (∀ Q q, peerData s' !! Q = Some q → Q ≠ P ∧ peerData s !! Q = Some q) as Hother.
  { intros Q q. rewrite Hp. by intros [??]%lookup_delete_Some. }
  split.
  - intros Q. rewrite Hw, Hp, !lookup_delete_is_Some. by rewrite I1.
  - rewrite Ho, Hw. pose proof (map_size_delete P (wsConns s)) as Hsz.
    destruct (wsConns s !! P); simpl in Hsz; lia.
  - intros Q q [HQ Hq]%Hother Hann.
    destruct (I3 Q q Hq Hann) as (Hname & set & Hset & Hin). split; [done|].
    rewrite Hn. destruct (peerData s !! P) as [p|]; [|by exists set].
    case_decide; [|by exists set].
    destruct (networkPeers s !! pi_NetworkName p) as [set0|] eqn:Hs0; [|by exists set].
    destruct (decide (pi_NetworkName p = pi_NetworkName q)) as [Heq|Hne].
    + rewrite Heq in *. rewrite Hset in Hs0. injection Hs0 as <-.
      assert (Q ∈ set ∖ {[ P ]}) as Hin'.
      { apply elem_of_difference. split; [done|]. by rewrite elem_of_singleton. }
      rewrite decide_False.
      * exists (set ∖ {[ P ]}). by rewrite lookup_insert_eq.
      * intros Hz. apply size_empty_inv in Hz. by apply Hz in Hin'.
    + exists set. case_decide.
      * by rewrite lookup_delete_ne.
      * by rewrite lookup_insert_ne.
  - intros Q q [HQ Hq]%Hother Hhub. rewrite Hh.
    destruct (peerData s !! P) as [p|]; [|by eapply I4].
    destruct (pi_IsHub p); [|by eapply I4].
    rewrite lookup_delete_ne by done. by eapply I4.
  - intros N set. rewrite Hn.
    destruct (peerData s !! P) as [p|]; [|apply I5].
    case_decide; [|apply I5].
    destruct (networkPeers s !! pi_NetworkName p) as [set0|] eqn:Hs0; [|apply I5].
    case_decide as Hsz.
    + intros [_ Hl]%lookup_delete_Some. by eapply I5.
    + intros [[_ <-]|[_ Hl]]%lookup_insert_Some; [|by eapply I5].
      intros Hempty. apply Hsz. rewrite Hempty. apply size_empty.
Qed.

Lemma registryInvariant_handleAnnounce now P msg resp s s' evs :
  registryInvariant s → handleAnnounce now P msg resp s = Ok (tt, s', evs) →
  registryInvariant s'.
Proof.
  intros [I1 I2 I3 I4 I5] Hrun.
  destruct (peerData s !! P) as [p0|] eqn:Hp0;
    [|by rewrite handleAnnounce_no_record in Hrun].
  destruct (handleAnnounce_fields now P msg resp s p0 Hp0)
    as (s'' & evs' & Hrun' & Ho & Hw & Hp & Hn & Hh & _).
  rewrite Hrun in Hrun'. injection Hrun' as <- _.
  set (N := firstNonEmpty (in_NetworkName msg) "global") in *.
  split.
  - intros Q. rewrite Hw, Hp, lookup_insert_is_Some', I1.
    split; [intros ?; by right|]. intros [<-|?]; [by rewrite Hp0|done].
  - by rewrite Ho, Hw.
  - intros Q q. rewrite Hp, Hn.
    intros [[<- <-]|[HQ Hq]]%lookup_insert_Some Hann; simpl.
    + split; [by apply firstNonEmpty_nonempty|].
      eexists. rewrite lookup_insert_eq. split; [done|].
      apply elem_of_union_l. by apply elem_of_singleton.
    + destruct (I3 Q q Hq Hann) as (Hname & set & Hset & Hin). split; [done|].
      destruct (decide (N = pi_NetworkName q)) as [Heq|Hne].
      * rewrite <- Heq in *. eexists. rewrite lookup_insert_eq. split; [done|].
        rewrite Hset. simpl. by apply elem_of_union_r.
      * exists set. by rewrite lookup_insert_ne.
  - intros Q q. rewrite Hp, Hh.
    intros [[<- <-]|[HQ Hq]]%lookup_insert_Some; simpl.
    + intros ->. by rewrite lookup_insert_eq.
    + intros Hhub. destruct (_ || _); [|by eapply I4].
      rewrite lookup_insert_ne by done. by eapply I4.
  - intros M set. rewrite Hn.
    intros [[_ <-]|[_ Hl]]%lookup_insert_Some; [|by eapply I5].
    intros Hempty. assert (P ∈ ({[ P ]} ∪ default ∅ (networkPeers s !! N) : gset string))
      as Hin by (apply elem_of_union_l; by apply elem_of_singleton).
    rewrite Hempty in Hin. by apply not_elem_of_empty in Hin.
Qed.

Lemma registryInvariant_installed s s' P c fresh (ws : gmap string conn) :
  registryInvariant s →
  opts s' = opts s →
  wsConns s' = <[P := c]> ws →
  (∀ Q, Q ≠ P → ws !! Q = wsConns s !! Q) →
  ws !! P = None →
  (Z.of_nat (size ws) < opt_MaxConnections (opts s))%Z →
  peerData s' = <[P := fresh]> (peerData s) →
  pi_Announced fresh = false → pi_IsHub fresh = false →
  networkPeers s' = networkPeers s → hubs s' = hubs s →
  registryInvariant s'.
Proof.
  intros [I1 I2 I3 I4 I5] Ho Hw Hws HP Hroom Hp Hann Hhub Hn Hh. split.
  - intros Q. rewrite Hw, Hp, !lookup_insert_is_Some'.
    destruct (decide (P = Q)) as [->|HQ]; [by split; left|].
    rewrite Hws by done. rewrite I1. done.
  - rewrite Ho, Hw, map_size_insert_None by done. lia.
  - intros Q q. rewrite Hp, Hn.
    intros [[<- <-]|[HQ Hq]]%lookup_insert_Some; [congruence|by apply I3].
  - intros Q q. rewrite Hp, Hh.
    intros [[<- <-]|[HQ Hq]]%lookup_insert_Some; [congruence|by apply I4].
  - by rewrite Hn.
Qed.

Lemma registryInvariant_handleWS now r up s s' evs :
  registryInvariant s → handleWS now r up s = Ok (tt, s', evs) → registryInvariant s'.
Proof.
  intros Hinv. unfold handleWS. run_handler.
  destruct (unauthorized (opt_AuthToken (opts s)) r); [by intros [= <- _]|].
  destruct (validatePeerId (req_peerId r)); simpl; [|by intros [= <- _]].
  destruct up as [c|]; simpl; [|by intros [= <- _]].
  destruct (wsConns s !! req_peerId r) as [old|] eqn:Hold; simpl.
  - assert (Z.of_nat (size (delete (req_peerId r) (wsConns s)))
            < opt_MaxConnections (opts s))%Z as Hroom.
    { pose proof (inv_cap s Hinv) as Hcap.
      rewrite map_size_delete, Hold. simpl.
      assert (size (wsConns s) ≠ 0) as Hne.
      { intros Hz. apply map_size_empty_inv in Hz. by rewrite Hz in Hold. }
      lia. }
    rewrite decide_False by lia. simpl. intros [= <- _].
    eapply (registryInvariant_installed s _ (req_peerId r) c _
              (delete (req_peerId r) (wsConns s))); try done.
    + intros Q HQ. by rewrite lookup_delete_ne.
    + by rewrite lookup_delete_eq.
  - case_decide as Hcap; simpl; [by intros [= <- _]|]. intros [= <- _].
    eapply (registryInvariant_installed s _ (req_peerId r) c _ (wsConns s)); try done.
    lia.
Qed.

Lemma broadcastToOthers_state sender msg s n s' evs :
  broadcastToOthers sender msg s = Ok (n, s', evs) → s' = s.
Proof.
  intros Hrun. destruct (broadcastToOthers_run sender msg s) as (n' & evs' & Hrun' & _).
  rewrite Hrun in Hrun'. by injection Hrun' as _ -> _.
Qed.

Lemma registryInvariant_handleDisconnect now P code reason s s' evs :
  registryInvariant s → handleDisconnect now P code reason s = Ok (tt, s', evs) →
  registryInvariant s'.
Proof.
  intros Hinv. unfold handleDisconnect, getPeerInfo. run_handler.
  match goal with
  | |- context [broadcastToOthers P ?m s] =>
      destruct (broadcastToOthers_run P m s) as (n & evs1 & -> & _)
  end.
  destruct (cleanupPeer P s) as [[[u s1] e1]|] eqn:Hc; [|done].
  destruct u. intros [= <- _]. by eapply registryInvariant_cleanupPeer.
Qed.

Lemma handlePing_state now P s s' evs :
  handlePing now P s = Ok (tt, s', evs) → s' = s.
Proof.
  unfold handlePing, getConn, gets, sendToConn. run_handler.
  destruct (wsConns s !! P); by intros [= <- _].
Qed.

Lemma registryInvariant_handleMessage now P data s s' evs :
  registryInvariant s → handleMessage now P data s = Ok (tt, s', evs) →
  registryInvariant s'.
Proof.
  intros Hinv. destruct data as [msg|]; [|by intros [= <- _]].
  pose proof (registryInvariant_touch now P s Hinv) as Hinv0.
  unfold handleMessage. run_handler. rewrite !result_eta.
  set (s0 := set_peerData (alter (touch now) P) s) in *.
  case_decide; [by apply registryInvariant_handleAnnounce|].
  case_decide.
  { destruct (broadcastToOthers_run P (response now P msg) s0) as (n & evs1 & -> & _).
    destruct (cleanupPeer P s0) as [[[u s1] e1]|] eqn:Hc; [|done].
    destruct u. intros [= <- _]. by eapply registryInvariant_cleanupPeer. }
  case_decide.
  { intros Hrun. apply handleSignaling_same in Hrun as [Hsame _].
    by eapply registryInvariant_same. }
  case_decide; [by intros [= <- _]|].
  case_decide; [|by intros [= <- _]].
  by intros ->%handlePing_state.
Qed.

Lemma registryInvariant_performCleanup now s s' evs :
  registryInvariant s → performCleanup now s = Ok (tt, s', evs) → registryInvariant s'.
Proof.
  intros Hinv. rewrite performCleanup_run. intros [= <- _].
  eapply registryInvariant_same; [|done]. by repeat split.
Qed.

Lemma registryInvariant_step now i s s' evs :
  registryInvariant s → step now i s = Ok (tt, s', evs) → registryInvariant s'.
Proof.
  destruct i; simpl.
  - apply registryInvariant_handleWS.
  - apply registryInvariant_handleMessage.
  - apply registryInvariant_handleDisconnect.
  - apply registryInvariant_performCleanup.
Qed.

(** ** The hub mesh *)

Lemma forwardToLocalPeers_run netName msg s :
  ∃ evs, forwardToLocalPeers netName msg s = Ok (tt, s, evs)
    ∧ ∀ e, e ∈ evs ↔
        ∃ Q c set, Q ≠ "" ∧ networkPeers s !! netName = Some set ∧ Q ∈ set
          ∧ wsConns s !! Q = Some c ∧ e = EvWriteMessage c msg.
Proof.
  unfold forwardToLocalPeers.
  destruct (getActivePeers_spec "" netName s) as (peers & Hrun & Hpeers).
  rewrite (bind_run _ _ _ _ _ _ Hrun).
  erewrite (forM__run _ _ (λ id,
    match wsConns s !! id with
    | Some c => [EvWriteMessage c msg]
    | None => []
    end)).
  2: { intros id _. unfold getConn, gets, sendToConn. run_handler.
       by destruct (wsConns s !! id). }
  eexists. split; [done|]. intros e. simpl. rewrite list_elem_of_bind. split.
  - intros (Q & He & HQ). apply Hpeers in HQ as (Hne & [c Hc] & set & Hset & Hin).
    rewrite Hc in He. apply list_elem_of_singleton in He. by exists Q, c, set.
  - intros (Q & c & set & Hne & Hset & Hin & Hc & ->). exists Q. split.
    + rewrite Hc. by apply list_elem_of_singleton.
    + apply Hpeers. eauto 10.
Qed.

Lemma announceToBootstrapExcept_run now peerId netName isHub data excludeUri s :
  ∃ evs, announceToBootstrapExcept now peerId netName isHub data excludeUri s
         = Ok (tt, s, evs)
    ∧ ∀ e, e ∈ evs ↔
        ∃ uri b ws, bootstrapConns s !! uri = Some b ∧ uri ≠ excludeUri
          ∧ bc_connected b = true ∧ bc_ws b = Some ws
          ∧ e = EvWriteJSONMap ws (discoveryPayload now peerId netName isHub data).
Proof.
  unfold announceToBootstrapExcept. run_handler.
  erewrite (forM__run _ _
    (λ ws, [EvWriteJSONMap ws (discoveryPayload now peerId netName isHub data)]));
    [|done].
  eexists. split; [done|]. intros e. simpl.
  rewrite list_elem_of_bind. split.
  - intros (ws & ->%list_elem_of_singleton & Hws).
    apply list_elem_of_omap in Hws as ([uri b] & Hin & Hsel).
    apply elem_of_map_to_list in Hin. case_decide; [|done].
    destruct (bc_connected b) eqn:Hconn; [|done]. by exists uri, b, ws.
  - intros (uri & b & ws & Hb & Hne & Hconn & Hws & ->). exists ws.
    split; [by apply list_elem_of_singleton|].
    apply list_elem_of_omap. exists (uri, b). split; [by apply elem_of_map_to_list|].
    by rewrite decide_True, Hconn.
Qed.

(** The writes of the echo loop, read off the table. *)
Lemma echoLoop_list l uri payload s :
  NoDup l.*1 →
  echoLoop l uri payload s =
    Ok (tt, s,
        match (list_to_map l : gmap string bootstrapConn) !! uri with
        | Some b =>
            if bc_connected b
            then match bc_ws b with
                 | Some ws => [EvWriteJSONMap ws payload]
                 | None => []
                 end
            else []
        | None => []
        end).
Proof.
  induction l as [|[k b] l IH]; [done|].
  intros [Hk Hl]%NoDup_cons. simpl.
  assert (uri = k → (list_to_map l : gmap string bootstrapConn) !! uri = None) as Hfresh.
  { intros ->. by apply not_elem_of_list_to_map_1. }
  case_decide as Hku.
  - subst k. rewrite lookup_insert_eq.
    destruct (bc_connected b); [destruct (bc_ws b)|]; try done.
    all: rewrite IH by done; by rewrite Hfresh.
  - rewrite lookup_insert_ne by done. by apply IH.
Qed.

Lemma echoLoop_run uri payload s :
  echoLoop (map_to_list (bootstrapConns s)) uri payload s =
    Ok (tt, s,
        match bootstrapConns s !! uri with
        | Some b =>
            if bc_connected b
            then match bc_ws b with
                 | Some ws => [EvWriteJSONMap ws payload]
                 | None => []
                 end
            else []
        | None => []
        end).
Proof.
  rewrite echoLoop_list by apply NoDup_fst_map_to_list.
  by rewrite list_to_map_to_list.
Qed.

(** ** The sends of an announce, one by one *)

Lemma sendExistingPeersToNew_spec now P netName s :
  ∃ evs, sendExistingPeersToNew now P netName s = Ok (tt, s, evs)
    ∧ ∀ e, e ∈ evs ↔
        ∃ Q c q set, Q ≠ P ∧ networkPeers s !! netName = Some set ∧ Q ∈ set
          ∧ is_Some (wsConns s !! Q) ∧ wsConns s !! P = Some c
          ∧ peerData s !! Q = Some q
          ∧ e = EvWriteMessage c
                  (mkOutbound "peer-discovered"
                     (JObject (mergeMap (pi_Data q)
                        {[ "peerId" := JString Q; "isHub" := JBool (pi_IsHub q) ]}))
                     "system" P netName now).
Proof.
  unfold sendExistingPeersToNew.
  destruct (getActivePeers_spec P netName s) as (peers & Hrun & Hpeers).
  rewrite (bind_run _ _ _ _ _ _ Hrun). run_handler. unfold getConn, gets. simpl.
  erewrite (forM__run _ _ (λ p,
    match wsConns s !! P, peerData s !! p with
    | Some c, Some q =>
        [EvWriteMessage c
           (mkOutbound "peer-discovered"
              (JObject (mergeMap (pi_Data q)
                 {[ "peerId" := JString p; "isHub" := JBool (pi_IsHub q) ]}))
              "system" P netName now)]
    | _, _ => []
    end)).
  2: { intros p _. unfold getPeerInfo, gets. run_handler.
       destruct (wsConns s !! P), (peerData s !! p); done. }
  eexists. split; [done|]. intros e. rewrite list_elem_of_bind. split.
  - intros (Q & He & HQ). apply Hpeers in HQ as (Hne & Hc & set & Hset & Hin).
    destruct (wsConns s !! P) as [c|] eqn:HcP; [|by apply elem_of_nil in He].
    destruct (peerData s !! Q) as [q|] eqn:Hq; [|by apply elem_of_nil in He].
    apply list_elem_of_singleton in He. by exists Q, c, q, set.
  - intros (Q & c & q & set & Hne & Hset & Hin & Hc & HcP & Hq & ->). exists Q. split.
    + rewrite HcP, Hq. by apply list_elem_of_singleton.
    + apply Hpeers. eauto 10.
Qed.

Lemma sendCachedCrossHubPeersToNew_spec now P netName s :
  ∃ evs, sendCachedCrossHubPeersToNew now P netName s = Ok (tt, s, evs)
    ∧ ∀ e, e ∈ evs ↔
        ∃ id data cache c, crossHubCache s !! netName = Some cache
          ∧ cache !! id = Some data ∧ wsConns s !! id = None ∧ wsConns s !! P = Some c
          ∧ e = EvWriteMessage c
                  (mkOutbound "peer-discovered"
                     (JObject (mergeMap data {[ "peerId" := JString id ]}))
                     "system" P netName now).
Proof.
  unfold sendCachedCrossHubPeersToNew. run_handler.
  destruct (crossHubCache s !! netName) as [cache|]; simpl.
  2: { exists []. split; [done|]. intros e. split; [by intros ?%elem_of_nil|].
       by intros (? & ? & ? & ? & ? & _). }
  unfold getConn, gets. simpl.
  erewrite (forM__run _ _ (λ '(id, data),
    if decide (is_Some (wsConns s !! id)) then []
    else match wsConns s !! P with
         | Some c =>
             [EvWriteMessage c
                (mkOutbound "peer-discovered"
                   (JObject (mergeMap data {[ "peerId" := JString id ]}))
                   "system" P netName now)]
         | None => []
         end)).
  2: { intros [id data] _. run_handler. case_decide; [done|].
       by destruct (wsConns s !! P). }
  eexists. split; [done|]. intros e. rewrite list_elem_of_bind. split.
  - intros ([id data] & He & Hin). apply elem_of_map_to_list in Hin.
    case_decide as Hc; [by apply elem_of_nil in He|].
    destruct (wsConns s !! P) as [c|] eqn:HcP; [|by apply elem_of_nil in He].
    apply list_elem_of_singleton in He. exists id, data, cache, c.
    repeat split; try done. by apply eq_None_not_Some.
  - intros (id & data & cache' & c & [= <-] & Hd & Hid & HcP & ->). exists (id, data).
    split; [|by apply elem_of_map_to_list].
    rewrite decide_False by (rewrite Hid; by intros [??]).
    rewrite HcP. by apply list_elem_of_singleton.
Qed.

Lemma bind_singleton {A} (f : A → event) (l : list A) : l ≫= (λ x, [f x]) = f <$> l.
Proof. induction l as [|x l IH]; [done|]. csimpl. by rewrite IH. Qed.

Lemma announceToBootstrap_spec now P netName isHub data s :
  announceToBootstrap now P netName isHub data s
  = Ok (tt, s, (λ ws, EvWriteJSONMap ws (discoveryPayload now P netName isHub data))
                 <$> connectedBootstrapSockets s).
Proof.
  unfold announceToBootstrap. run_handler.
  erewrite (forM__run _ _
    (λ ws, [EvWriteJSONMap ws (discoveryPayload now P netName isHub data)])); [|done].
  simpl. by rewrite bind_singleton.
Qed.

Lemma elem_of_connectedBootstrapSockets ws s :
  ws ∈ connectedBootstrapSockets s ↔
  ∃ uri b, bootstrapConns s !! uri = Some b ∧ bc_connected b = true ∧ bc_ws b = Some ws.
Proof.
  unfold connectedBootstrapSockets. rewrite list_elem_of_omap. split.
  - intros ([uri b] & Hin & Hsel). apply elem_of_map_to_list in Hin.
    destruct (bc_connected b) eqn:Hc; [|done]. by exists uri, b.
  - intros (uri & b & Hb & Hc & Hws). exists (uri, b).
    split; [by apply elem_of_map_to_list|]. by rewrite Hc.
Qed.

(** In the data of an outward payload the keys of the client's data win
    over the two keys the server sets. *)
Lemma discoveryPayload_data now P netName isHub data :
  ∃ d, discoveryPayload now P netName isHub data !! "data" = Some (JObject d)
    ∧ ∀ k, d !! k =
        match data !! k with
        | Some v => Some v
        | None => ({[ "peerId" := JString P; "isHub" := JBool isHub ]} : jmap) !! k
        end.
Proof.
  unfold discoveryPayload. eexists. split.
  - rewrite lookup_insert_ne by discriminate. by rewrite lookup_insert_eq.
  - intros k. rewrite map_fold_insert_union.
    destruct (data !! k) as [v|] eqn:Hk.
    + by apply lookup_union_Some_l.
    + by rewrite lookup_union_r.
Qed.

(** What an announce writes, in the order in which it writes: the
    fan-out to the other members, the backfill of the members, the
    backfill of the cross-hub cache, the outward announcements. *)
Lemma announce_events now P msg resp s p0 :
  peerData s !! P = Some p0 →
  let N := firstNonEmpty (in_NetworkName msg) "global" in
  let isHub := announcedHubFlag (in_Data msg) in
  let data := match asMap (in_Data msg) with Some m => m | None => pi_Data p0 end in
  ∃ s' e1 e2 e3,
    handleAnnounce now P msg resp s
    = Ok (tt, s',
          e1 ++ e2 ++ e3
          ++ ((λ ws, EvWriteJSONMap ws (discoveryPayload now P N isHub data))
                <$> connectedBootstrapSockets s))
    ∧ (∀ e, e ∈ e1 ↔
         ∃ Q c set, Q ≠ P ∧ Q ≠ "" ∧ networkPeers s !! N = Some set ∧ Q ∈ set
           ∧ wsConns s !! Q = Some c
           ∧ e = EvWriteMessage c
                   (mkOutbound "peer-discovered"
                      (JObject (mergeMap data
                         {[ "peerId" := JString P; "isHub" := JBool isHub ]}))
                      "system" Q N now))
    ∧ (∀ e, e ∈ e2 ↔
         ∃ Q c q set, Q ≠ P ∧ networkPeers s !! N = Some set ∧ Q ∈ set
           ∧ is_Some (wsConns s !! Q) ∧ wsConns s !! P = Some c
           ∧ peerData s !! Q = Some q
           ∧ e = EvWriteMessage c
                   (mkOutbound "peer-discovered"
                      (JObject (mergeMap (pi_Data q)
                         {[ "peerId" := JString Q; "isHub" := JBool (pi_IsHub q) ]}))
                      "system" P N now))
    ∧ (∀ e, e ∈ e3 ↔
         ∃ id d cache c, crossHubCache s !! N = Some cache
           ∧ cache !! id = Some d ∧ wsConns s !! id = None ∧ wsConns s !! P = Some c
           ∧ e = EvWriteMessage c
                   (mkOutbound "peer-discovered"
                      (JObject (mergeMap d {[ "peerId" := JString id ]}))
                      "system" P N now)).
Proof.
  intros Hp N isHub data.
  destruct (announce_run now P msg resp s p0 Hp) as (s2 & evs & Hws & Hnet & Hsends & Hrun).
  destruct (handleAnnounce_fields now P msg resp s p0 Hp)
    as (s2' & evs' & Hrun' & _ & _ & Hpd & _ & _ & _ & Hbs & Hch & _).
  rewrite Hrun in Hrun'. injection Hrun' as <- <-.
  fold N isHub data in Hnet, Hsends.
  destruct (broadcastPeerDiscovered_run now P N isHub data s2) as (e1 & Hr1 & He1).
  destruct (sendExistingPeersToNew_spec now P N s2) as (e2 & Hr2 & He2).
  destruct (sendCachedCrossHubPeersToNew_spec now P N s2) as (e3 & Hr3 & He3).
  rewrite (bind_run _ _ _ _ _ _ Hr1), (bind_run _ _ _ _ _ _ Hr2),
    (bind_run _ _ _ _ _ _ Hr3), announceToBootstrap_spec in Hsends.
  injection Hsends as <-.
  assert (∀ Q, Q ≠ P →
            (∃ set, networkPeers s2 !! N = Some set ∧ Q ∈ set)
            ↔ (∃ set, networkPeers s !! N = Some set ∧ Q ∈ set)) as Hmem.
  { intros Q HQ. rewrite Hnet. split.
    - intros (set & [= <-] & Hin). apply elem_of_union in Hin as [Hin|Hin].
      + by apply elem_of_singleton in Hin.
      + destruct (networkPeers s !! N) as [set|]; [by exists set|].
        by apply not_elem_of_empty in Hin.
    - intros (set & Hset & Hin). eexists. split; [done|].
      rewrite Hset. by apply elem_of_union_r. }
  exists s2, e1, e2, e3. split.
  { rewrite Hrun. unfold connectedBootstrapSockets. by rewrite Hbs. }
  split; [|split].
  - intros e. rewrite He1. split.
    + intros (Q & c & set2 & HQ & Hne & Hset & Hin & Hc & ->).
      destruct (proj1 (Hmem Q HQ)) as (set & Hset' & Hin'); [by exists set2|].
      exists Q, c, set. by rewrite <- Hws.
    + intros (Q & c & set & HQ & Hne & Hset & Hin & Hc & ->).
      destruct (proj2 (Hmem Q HQ)) as (set2 & Hset' & Hin'); [by exists set|].
      exists Q, c, set2. by rewrite Hws.
  - intros e. rewrite He2. split.
    + intros (Q & c & q & set2 & HQ & Hset & Hin & Hc & HcP & Hq & ->).
      destruct (proj1 (Hmem Q HQ)) as (set & Hset' & Hin'); [by exists set2|].
      exists Q, c, q, set. rewrite Hws in Hc, HcP.
      rewrite Hpd, lookup_insert_ne in Hq by done. done.
    + intros (Q & c & q & set & HQ & Hset & Hin & Hc & HcP & Hq & ->).
      destruct (proj2 (Hmem Q HQ)) as (set2 & Hset' & Hin'); [by exists set|].
      exists Q, c, q, set2. rewrite Hws, Hpd, lookup_insert_ne by done. done.
  - intros e. rewrite He3. rewrite Hch, Hws. done.
Qed.

(** ** Frames from a bootstrap link *)

(** The network a discovery from a bootstrap link is filed under. *)
Lemma handleBootstrapMessage_discovery now uri msg m s :
  in_Type msg = "peer-discovered" →
  asMap (in_Data msg) = Some m →
  boolField m "isHub" = false →
  handleBootstrapMessage now uri (Some msg) s =
    (cacheCrossHubPeer
       (if decide (in_NetworkName msg = "") then "global" else in_NetworkName msg)
       (stringField m "peerId") m;;
     forwardToLocalPeers
       (if decide (in_NetworkName msg = "") then "global" else in_NetworkName msg)
       (mkOutbound "peer-discovered" (JObject m) "system" ""
          (if decide (in_NetworkName msg = "") then "global" else in_NetworkName msg) now);;
     announceToBootstrapExcept now (stringField m "peerId")
       (if decide (in_NetworkName msg = "") then "global" else in_NetworkName msg)
       false m uri;;
     bs ← gets bootstrapConns;
     echoLoop (map_to_list bs) uri
       {[ "type" := JString "peer-discovered";
          "data" := JObject (mergeMap m
                      {[ "peerId" := JString (stringField m "peerId");
                         "isHub" := JBool false ]});
          "networkName" := JString
            (if decide (in_NetworkName msg = "") then "global" else in_NetworkName msg);
          "fromPeerId" := JString "system";
          "timestamp" := JNumber now ]}) s.
Proof.
  intros Hty Hm Hhub. unfold handleBootstrapMessage.
  rewrite Hty, Hm, Hhub. rewrite decide_False by done. by rewrite decide_True.
Qed.

(** X1: A discovery of a peer that is not a hub, received from the bootstrap
    link [uri]: the peer is filed in the cross-hub cache; the message goes
    to every connected member of the network, then to every other
    connected link, and last, once, back to the link it came from. *)
Theorem bootstrap_discovery_routing now uri msg m s :
  in_Type msg = "peer-discovered" →
  asMap (in_Data msg) = Some m →
  boolField m "isHub" = false →
  let id := stringField m "peerId" in
  let N := if decide (in_NetworkName msg = "") then "global" else in_NetworkName msg in
  let echo : jmap :=
    {[ "type" := JString "peer-discovered";
       "data" := JObject (mergeMap m {[ "peerId" := JString id; "isHub" := JBool false ]});
       "networkName" := JString N;
       "fromPeerId" := JString "system";
       "timestamp" := JNumber now ]} in
  ∃ local others,
    handleBootstrapMessage now uri (Some msg) s
    = Ok (tt,
          set_crossHubCache (λ ch, <[N := <[id := m]> (default ∅ (ch !! N))]> ch) s,
          local ++ others
          ++ match bootstrapConns s !! uri with
             | Some b =>
                 if bc_connected b
                 then match bc_ws b with
                      | Some ws => [EvWriteJSONMap ws echo]
                      | None => []
                      end
                 else []
             | None => []
             end)
    ∧ (∀ e, e ∈ local ↔
         ∃ Q c set, Q ≠ "" ∧ networkPeers s !! N = Some set ∧ Q ∈ set
           ∧ wsConns s !! Q = Some c
           ∧ e = EvWriteMessage c
                   (mkOutbound "peer-discovered" (JObject m) "system" "" N now))
    ∧ (∀ e, e ∈ others ↔
         ∃ u b ws, bootstrapConns s !! u = Some b ∧ u ≠ uri
           ∧ bc_connected b = true ∧ bc_ws b = Some ws
           ∧ e = EvWriteJSONMap ws (discoveryPayload now id N false m)).
Proof.
  intros Hty Hm Hhub id N echo.
  rewrite (handleBootstrapMessage_discovery now uri msg m s) by done. fold N id.
  set (s1 := set_crossHubCache (λ ch, <[N := <[id := m]> (default ∅ (ch !! N))]> ch) s).
  assert (cacheCrossHubPeer N id m s = Ok (tt, s1, [])) as Hcache by done.
  destruct (forwardToLocalPeers_run N
              (mkOutbound "peer-discovered" (JObject m) "system" "" N now) s1)
    as (local & Hr1 & Hlocal).
  destruct (announceToBootstrapExcept_run now id N false m uri s1)
    as (others & Hr2 & Hothers).
  rewrite (bind_run _ _ _ _ _ _ Hcache), (bind_run _ _ _ _ _ _ Hr1),
    (bind_run _ _ _ _ _ _ Hr2).
  unfold mbind at 1, Handler_bind at 1, gets at 1.
  rewrite (echoLoop_run uri _ s1). simpl.
  exists local, others. split; [done|]. split; [exact Hlocal|exact Hothers].
Qed.

(** X2: Whatever else a bootstrap link sends changes nothing and is not
    answered: a frame that does not decode, a [connected] greeting, a
    type the hub does not know, a discovery whose data is not an object,
    and the discovery of a hub. *)
Theorem bootstrap_frames_ignored now uri data s :
  match data with
  | None => True
  | Some msg =>
      in_Type msg = "connected"
      ∨ (in_Type msg ≠ "peer-discovered" ∧ ¬ isSignalingType (in_Type msg))
      ∨ (in_Type msg = "peer-discovered" ∧ asMap (in_Data msg) = None)
      ∨ (in_Type msg = "peer-discovered"
         ∧ ∃ m, asMap (in_Data msg) = Some m ∧ boolField m "isHub" = true)
  end →
  handleBootstrapMessage now uri data s = Ok (tt, s, []).
Proof.
  destruct data as [msg|]; [|done]. unfold handleBootstrapMessage.
  intros [Hty|[[Hne Hsig]|[[Hty Hm]|(Hty & m & Hm & Hhub)]]].
  - by rewrite decide_True.
  - case_decide; [done|]. by rewrite !decide_False.
  - rewrite Hty, Hm. rewrite decide_False by done. by rewrite decide_True.
  - rewrite Hty, Hm, Hhub. rewrite decide_False by done. by rewrite decide_True.
Qed.

(** X3: A signaling message relayed by a bootstrap link is written to the
    socket of its target when the target is connected, whatever the
    networks of message and target; nothing is written to any link, the
    dedup set is not consulted and the state is unchanged. *)
Theorem bootstrap_signaling_delivery now uri msg s :
  isSignalingType (in_Type msg) →
  handleBootstrapMessage now uri (Some msg) s
  = Ok (tt, s,
        if decide (in_TargetPeer msg = "") then []
        else match wsConns s !! in_TargetPeer msg with
             | Some c =>
                 [EvWriteMessage c
                    (mkOutbound (in_Type msg) (in_Data msg) (in_FromPeerId msg)
                       (in_TargetPeer msg) (in_NetworkName msg) now)]
             | None => []
             end).
Proof.
  intros Hty. unfold handleBootstrapMessage.
  assert (in_Type msg ≠ "connected" ∧ in_Type msg ≠ "peer-discovered") as [Hc Hd].
  { destruct Hty as [Hty | [Hty | Hty]]; rewrite Hty; by split. }
  rewrite !decide_False by done. rewrite decide_True by done.
  destruct (decide (in_TargetPeer msg = "")) as [Ht|Ht].
  - rewrite decide_False; [done|]. by intros ?.
  - rewrite decide_True by done.
    unfold forwardToLocalTarget, getConn, gets, sendToConn. run_handler.
    by destruct (wsConns s !! in_TargetPeer msg).
Qed.

Lemma bootstrap_signaling_same now uri msg s :
  isSignalingType (in_Type msg) →
  ∃ evs, handleBootstrapMessage now uri (Some msg) s = Ok (tt, s, evs).
Proof.
  intros Hty. unfold handleBootstrapMessage.
  assert (in_Type msg ≠ "connected" ∧ in_Type msg ≠ "peer-discovered") as [Hc Hd].
  { destruct Hty as [Hty | [Hty | Hty]]; rewrite Hty; by split. }
  rewrite !decide_False by done. rewrite decide_True by done.
  case_decide; [|by eexists].
  unfold forwardToLocalTarget, getConn, gets, sendToConn. run_handler.
  destruct (wsConns s !! in_TargetPeer msg); by eexists.
Qed.

Lemma bootstrap_discovery_run now uri msg m s :
  in_Type msg = "peer-discovered" →
  asMap (in_Data msg) = Some m →
  boolField m "isHub" = false →
  ∃ evs,
    handleBootstrapMessage now uri (Some msg) s
    = Ok (tt,
          set_crossHubCache
            (λ ch, <[(if decide (in_NetworkName msg = "") then "global"
                      else in_NetworkName msg) :=
                       <[stringField m "peerId" := m]>
                         (default ∅ (ch !! (if decide (in_NetworkName msg = "")
                                            then "global" else in_NetworkName msg)))]> ch)
            s, evs).
Proof.
  intros Hty Hm Hhub.
  rewrite (handleBootstrapMessage_discovery now uri msg m s) by done.
  set (N := if decide (in_NetworkName msg = "") then "global" else in_NetworkName msg).
  set (id := stringField m "peerId").
  set (s1 := set_crossHubCache (λ ch, <[N := <[id := m]> (default ∅ (ch !! N))]> ch) s).
  assert (cacheCrossHubPeer N id m s = Ok (tt, s1, [])) as Hcache by done.
  destruct (forwardToLocalPeers_run N
              (mkOutbound "peer-discovered" (JObject m) "system" "" N now) s1)
    as (local & Hr1 & _).
  destruct (announceToBootstrapExcept_run now id N false m uri s1) as (others & Hr2 & _).
  rewrite (bind_run _ _ _ _ _ _ Hcache), (bind_run _ _ _ _ _ _ Hr1),
    (bind_run _ _ _ _ _ _ Hr2).
  unfold mbind at 1, Handler_bind at 1, gets at 1.
  rewrite (echoLoop_run uri _ s1). simpl. by eexists.
Qed.

Lemma handleBootstrapMessage_same now uri data s s' evs :
  handleBootstrapMessage now uri data s = Ok (tt, s', evs) →
  sameRegistry s s' ∧ bootstrapConns s' = bootstrapConns s
  ∧ relayed s' = relayed s ∧ running s' = running s.
Proof.
  destruct data as [msg|]; [|by intros [= <- _]].
  destruct (decide (isSignalingType (in_Type msg))) as [Hsig|Hsig].
  { destruct (bootstrap_signaling_same now uri msg s Hsig) as (evs' & ->).
    by intros [= <- _]. }
  destruct (decide (in_Type msg = "peer-discovered")) as [Hty|Hty].
  - destruct (asMap (in_Data msg)) as [m|] eqn:Hm.
    + destruct (boolField m "isHub") eqn:Hhub.
      * unfold handleBootstrapMessage. rewrite Hty, Hm, Hhub.
        rewrite decide_False by done. rewrite decide_True by done. by intros [= <- _].
      * destruct (bootstrap_discovery_run now uri msg m s Hty Hm Hhub)
          as (evs' & ->). by intros [= <- _].
    + unfold handleBootstrapMessage. rewrite Hty, Hm.
      rewrite decide_False by done. rewrite decide_True by done. by intros [= <- _].
  - unfold handleBootstrapMessage. case_decide; [by intros [= <- _]|].
    rewrite !decide_False by done. by intros [= <- _].
Qed.

(** ** Opening, closing and dropping links *)

Lemma announceLocalPeersToBootstrap_run now ws s :
  ∃ evs, announceLocalPeersToBootstrap now ws s = Ok (tt, s, evs)
    ∧ ∀ e, e ∈ evs ↔
        ∃ N set P p, networkPeers s !! N = Some set ∧ P ∈ set
          ∧ peerData s !! P = Some p ∧ pi_Announced p = true
          ∧ e = EvWriteJSONMap ws
                  {[ "type" := JString "peer-discovered";
                     "data" := JObject
                       {[ "peerId" := JString P;
                          "isHub" := JBool (bool_decide
                                       (N = opt_HubMeshNamespace (opts s))) ]};
                     "networkName" := JString N;
                     "fromPeerId" := JString "system";
                     "timestamp" := JNumber now ]}.
Proof.
  unfold announceLocalPeersToBootstrap. run_handler.
  set (payload := λ (N P : string),
    ({[ "type" := JString "peer-discovered";
        "data" := JObject
          {[ "peerId" := JString P;
             "isHub" := JBool (bool_decide (N = opt_HubMeshNamespace (opts s))) ]};
        "networkName" := JString N;
        "fromPeerId" := JString "system";
        "timestamp" := JNumber now ]} : jmap)).
  set (inner := λ (N P : string),
    match peerData s !! P with
    | Some p => if pi_Announced p then [EvWriteJSONMap ws (payload N P)] else []
    | None => []
    end).
  erewrite (forM__run _ _ (λ '(N, set), elements set ≫= inner N)).
  2: { intros [N set] _. erewrite (forM__run _ _ (inner N)); [done|].
       intros P _. unfold inner. destruct (peerData s !! P) as [p|]; [|done].
       by destruct (pi_Announced p). }
  eexists. split; [done|]. intros e. simpl. rewrite list_elem_of_bind. split.
  - intros ([N set] & He & Hin). apply elem_of_map_to_list in Hin.
    apply list_elem_of_bind in He as (P & He & HP). apply elem_of_elements in HP.
    unfold inner in He. destruct (peerData s !! P) as [p|] eqn:Hp;
      [|by apply elem_of_nil in He].
    destruct (pi_Announced p) eqn:Hann; [|by apply elem_of_nil in He].
    apply list_elem_of_singleton in He. by exists N, set, P, p.
  - intros (N & set & P & p & Hset & HP & Hp & Hann & ->). exists (N, set).
    split; [|by apply elem_of_map_to_list].
    apply list_elem_of_bind. exists P. split; [|by apply elem_of_elements].
    unfold inner. rewrite Hp, Hann. by apply list_elem_of_singleton.
Qed.

Lemma handleBootstrapOpen_state now b s s' evs :
  handleBootstrapOpen now b s = Ok (tt, s', evs) → s' = s.
Proof.
  unfold handleBootstrapOpen. destruct (bc_ws b) as [ws|]; [|done].
  unfold sendAnnouncementToBootstrap. run_handler.
  destruct (announceLocalPeersToBootstrap_run now ws s) as (evs' & -> & _).
  by intros [= <- _].
Qed.

Lemma connectToHub_full_same now uri attempt parsed dialed s s' evs :
  connectToHub_full now uri attempt parsed dialed s = Ok (tt, s', evs) →
  sameRegistry s s'.
Proof.
  unfold connectToHub_full. destruct parsed as [u|]; [|by intros [= <- _]].
  run_handler. case_decide; [by intros [= <- _]|]. simpl.
  destruct dialed as [ws|]; simpl; [|by intros [= <- _]].
  destruct (handleBootstrapOpen _ _ _) as [[[[] s1] e1]|] eqn:Hopen; [|done].
  apply handleBootstrapOpen_state in Hopen as ->. by intros [= <- _].
Qed.

Lemma handleBootstrapClose_same b s r s' evs :
  handleBootstrapClose b s = Ok (r, s', evs) → sameRegistry s s'.
Proof.
  unfold handleBootstrapClose. run_handler.
  destruct (running s && _); simpl; by intros [= _ <- _].
Qed.

Lemma disconnectBootstrap_run s :
  disconnectBootstrap s
  = Ok (tt, set_bootstrapConns (λ _, ∅) s,
        omap (λ '(_, b), EvClose <$> bc_ws b) (map_to_list (bootstrapConns s))).
Proof.
  unfold disconnectBootstrap. run_handler.
  erewrite (forM__run _ _ (λ '(_, b),
    match bc_ws b with Some ws => [EvClose ws] | None => [] end)).
  2: { intros [k b] _. by destruct (bc_ws b). }
  simpl. rewrite app_nil_r. do 3 f_equal.
  induction (map_to_list (bootstrapConns s)) as [|[k b] l IH]; [done|].
  csimpl. rewrite IH. by destruct (bc_ws b).
Qed.

Lemma registryInvariant_meshStep now i s s' evs :
  registryInvariant s → meshStep now i s = Ok (tt, s', evs) → registryInvariant s'.
Proof.
  intros Hinv. destruct i as [i|uri data|b|uri attempt parsed dialed|]; simpl.
  - by apply registryInvariant_step.
  - intros [Hsame _]%handleBootstrapMessage_same. by eapply registryInvariant_same.
  - run_handler.
    destruct (handleBootstrapClose b s) as [[[r s1] e1]|] eqn:Hc; [|done].
    intros [= <- _]. apply handleBootstrapClose_same in Hc.
    by eapply registryInvariant_same.
  - intros Hsame%connectToHub_full_same. by eapply registryInvariant_same.
  - unfold Stop. run_handler. rewrite disconnectBootstrap_run. intros [= <- _].
    eapply registryInvariant_same; [|done]. by repeat split.
Qed.

Lemma registryInvariant_meshRun trace s s' evs :
  registryInvariant s → meshRun trace s = Ok (tt, s', evs) → registryInvariant s'.
Proof.
  revert s evs. induction trace as [|[now i] trace IH]; intros s evs Hinv.
  - by intros [= <- _].
  - simpl. unfold mbind, Handler_bind.
    destruct (meshStep now i s) as [[[[] s1] e1]|] eqn:Hstep; [|done].
    destruct (meshRun trace s1) as [[[[] s2] e2]|] eqn:Hrest; [|done].
    intros [= <- _]. eapply IH; [|done]. by eapply registryInvariant_meshStep.
Qed.

(** ** The options never change *)

Lemma handleWS_opts now r up s s' evs :
  handleWS now r up s = Ok (tt, s', evs) → opts s' = opts s.
Proof.
  unfold handleWS. run_handler.
  destruct (unauthorized (opt_AuthToken (opts s)) r); [by intros [= <- _]|].
  destruct (validatePeerId (req_peerId r)); simpl; [|by intros [= <- _]].
  destruct up as [c|]; simpl; [|by intros [= <- _]].
  destruct (wsConns s !! req_peerId r); simpl; case_decide; simpl; by intros [= <- _].
Qed.

Lemma cleanupPeer_opts P s s' evs :
  cleanupPeer P s = Ok (tt, s', evs) → opts s' = opts s.
Proof.
  intros Hrun. destruct (cleanupPeer_fields P s) as (s'' & Hrun' & Ho & _).
  rewrite Hrun in Hrun'. by injection Hrun' as <- _.
Qed.

Lemma handleMessage_opts now P data s s' evs :
  handleMessage now P data s = Ok (tt, s', evs) → opts s' = opts s.
Proof.
  destruct data as [msg|]; [|by intros [= <- _]].
  unfold handleMessage. run_handler. rewrite !result_eta.
  set (s0 := set_peerData (alter (touch now) P) s) in *.
  case_decide.
  { intros Hrun. destruct (peerData s0 !! P) as [p0|] eqn:Hp0;
      [|by rewrite handleAnnounce_no_record in Hrun].
    destruct (handleAnnounce_fields now P msg (response now P msg) s0 p0 Hp0)
      as (s'' & evs' & Hrun' & Ho & _).
    rewrite Hrun in Hrun'. by injection Hrun' as <- _. }
  case_decide.
  { destruct (broadcastToOthers_run P (response now P msg) s0) as (n & evs1 & -> & _).
    destruct (cleanupPeer P s0) as [[[u s1] e1]|] eqn:Hc; [|done].
    destruct u. intros [= <- _]. by apply cleanupPeer_opts in Hc. }
  case_decide.
  { intros Hrun. by apply handleSignaling_same in Hrun as [[Ho _] _]. }
  case_decide; [by intros [= <- _]|].
  case_decide; [|by intros [= <- _]].
  by intros ->%handlePing_state.
Qed.

Lemma step_opts now i s s' evs :
  step now i s = Ok (tt, s', evs) → opts s' = opts s.
Proof.
  destruct i; simpl.
  - apply handleWS_opts.
  - apply handleMessage_opts.
  - unfold handleDisconnect, getPeerInfo. run_handler.
    match goal with
    | |- context [broadcastToOthers ?P ?m s] =>
        destruct (broadcastToOthers_run P m s) as (n & evs1 & -> & _)
    end.
    destruct (cleanupPeer _ s) as [[[u s1] e1]|] eqn:Hc; [|done].
    destruct u. intros [= <- _]. by apply cleanupPeer_opts in Hc.
  - rewrite performCleanup_run. by intros [= <- _].
Qed.

Lemma meshStep_opts now i s s' evs :
  meshStep now i s = Ok (tt, s', evs) → opts s' = opts s.
Proof.
  destruct i as [i|uri data|b|uri attempt parsed dialed|]; simpl.
  - apply step_opts.
  - by intros [[Ho _] _]%handleBootstrapMessage_same.
  - run_handler.
    destruct (handleBootstrapClose b s) as [[[r s1] e1]|] eqn:Hc; [|done].
    intros [= <- _]. by apply handleBootstrapClose_same in Hc as [Ho _].
  - by intros [Ho _]%connectToHub_full_same.
  - unfold Stop. run_handler. rewrite disconnectBootstrap_run. by intros [= <- _].
Qed.

Lemma meshRun_opts trace s s' evs :
  meshRun trace s = Ok (tt, s', evs) → opts s' = opts s.
Proof.
  revert s evs. induction trace as [|[now i] trace IH]; intros s evs.
  - by intros [= <- _].
  - simpl. unfold mbind, Handler_bind.
    destruct (meshStep now i s) as [[[[] s1] e1]|] eqn:Hstep; [|done].
    destruct (meshRun trace s1) as [[[[] s2] e2]|] eqn:Hrest; [|done].
    intros [= <- _]. rewrite (IH _ _ Hrest). by eapply meshStep_opts.
Qed.

(** ** What holds in every state the server reaches *)

(** X4: in every state a fresh server reaches through upgrades, client
    frames, read errors, cleanup ticks, bootstrap frames, link closes,
    dials and [Stop], handled one at a time, a peer id has a connection
    exactly when it has a record. *)
Theorem reachable_connection_iff_record o generated trace s evs :
  meshRun trace (NewServer o generated) = Ok (tt, s, evs) →
  ∀ P, is_Some (wsConns s !! P) ↔ is_Some (peerData s !! P).
Proof.
  intros Hrun. eapply inv_same_keys, registryInvariant_meshRun; [|done].
  apply registryInvariant_NewServer.
Qed.

(** X5: in every such state the number of connections, as
    [connectionsSize] reports it, is at most [MaxConnections] (and zero
    when that is negative); the options are those the server was made
    with. *)
Theorem reachable_within_cap o generated trace s evs :
  meshRun trace (NewServer o generated) = Ok (tt, s, evs) →
  ∃ n, connectionsSize s = Ok (n, s, [])
    ∧ (n ≤ Z.max 0 (opt_MaxConnections o))%Z.
Proof.
  intros Hrun. pose proof (meshRun_opts _ _ _ _ Hrun) as Ho. simpl in Ho.
  eexists. split; [reflexivity|]. rewrite <- Ho.
  eapply inv_cap, registryInvariant_meshRun; [|done].
  apply registryInvariant_NewServer.
Qed.

(** X6: in every such state a record that is marked announced names a
    network, and the peer is a member of that network's set. *)
Theorem reachable_announced_is_member o generated trace s evs P p :
  meshRun trace (NewServer o generated) = Ok (tt, s, evs) →
  peerData s !! P = Some p → pi_Announced p = true →
  pi_NetworkName p ≠ ""
  ∧ ∃ set, networkPeers s !! pi_NetworkName p = Some set ∧ P ∈ set.
Proof.
  intros Hrun. eapply inv_announced, registryInvariant_meshRun; [|done].
  apply registryInvariant_NewServer.
Qed.

(** X7: in every such state a peer whose record has the hub flag has an
    entry in the hub table. *)
Theorem reachable_hub_flag_has_entry o generated trace s evs P p :
  meshRun trace (NewServer o generated) = Ok (tt, s, evs) →
  peerData s !! P = Some p → pi_IsHub p = true → is_Some (hubs s !! P).
Proof.
  intros Hrun. eapply inv_hub, registryInvariant_meshRun; [|done].
  apply registryInvariant_NewServer.
Qed.


(** ** What an announce tells, and to whom *)

(** X9: The announcing peer is told of every other connected member of the
    network that has a record: it gets a [peer-discovered] whose data is
    that member's data with [peerId] and [isHub] set by the server. *)
Theorem announce_backfills_members now P msg resp s p0 c Q q set :
  peerData s !! P = Some p0 →
  wsConns s !! P = Some c →
  Q ≠ P →
  networkPeers s !! firstNonEmpty (in_NetworkName msg) "global" = Some set →
  Q ∈ set →
  is_Some (wsConns s !! Q) →
  peerData s !! Q = Some q →
  ∃ s' evs d,
    handleAnnounce now P msg resp s = Ok (tt, s', evs)
    ∧ EvWriteMessage c
        (mkOutbound "peer-discovered" (JObject d) "system" P
           (firstNonEmpty (in_NetworkName msg) "global") now) ∈ evs
    ∧ d !! "peerId" = Some (JString Q)
    ∧ d !! "isHub" = Some (JBool (pi_IsHub q))
    ∧ ∀ k, k ≠ "peerId" → k ≠ "isHub" → d !! k = pi_Data q !! k.
Proof.
  intros Hp Hc HQ Hset Hin HcQ Hq.
  destruct (announce_events now P msg resp s p0 Hp) as (s' & e1 & e2 & e3 & Hrun & _ & He2 & _).
  eexists s', _, _. split; [exact Hrun|]. split.
  { apply elem_of_app. right. apply elem_of_app. left. apply He2.
    by exists Q, c, q, set. }
  split; [apply mergeMap_lookup_override, lookup_insert_eq|].
  split.
  { apply mergeMap_lookup_override. rewrite lookup_insert_ne by discriminate.
    apply lookup_singleton_eq. }
  intros k Hk1 Hk2. apply mergeMap_lookup_inherit.
  rewrite lookup_insert_ne by done. by apply lookup_singleton_ne.
Qed.

(** X10: An announce into a network writes to no client socket outside it:
    every message goes to the socket of the announcing peer or of a
    member of the network, and carries that network's name. *)
Theorem announce_writes_stay_in_network now P msg resp s p0 :
  peerData s !! P = Some p0 →
  ∃ s' evs,
    handleAnnounce now P msg resp s = Ok (tt, s', evs)
    ∧ ∀ c m, EvWriteMessage c m ∈ evs →
        out_Type m = "peer-discovered"
        ∧ out_NetworkName m = firstNonEmpty (in_NetworkName msg) "global"
        ∧ (wsConns s !! P = Some c
           ∨ ∃ Q set, Q ≠ P
               ∧ networkPeers s !! firstNonEmpty (in_NetworkName msg) "global" = Some set
               ∧ Q ∈ set ∧ wsConns s !! Q = Some c).
Proof.
  intros Hp.
  destruct (announce_events now P msg resp s p0 Hp)
    as (s' & e1 & e2 & e3 & Hrun & He1 & He2 & He3).
  eexists s', _. split; [exact Hrun|]. intros c m Hin.
  rewrite !elem_of_app in Hin. destruct Hin as [Hin|[Hin|[Hin|Hin]]].
  - apply He1 in Hin as (Q & c' & set & HQ & _ & Hset & HinQ & Hc & Heq).
    injection Heq as -> ->. do 2 (split; [done|]). right. by exists Q, set.
  - apply He2 in Hin as (Q & c' & q & set & _ & _ & _ & _ & Hc & _ & Heq).
    injection Heq as -> ->. do 2 (split; [done|]). by left.
  - apply He3 in Hin as (id & d & cache & c' & _ & _ & _ & Hc & Heq).
    injection Heq as -> ->. do 2 (split; [done|]). by left.
  - by apply list_elem_of_fmap in Hin as (ws & ? & _).
Qed.

(** X11: Every connected bootstrap link gets one payload for the announcing
    peer.  In its data the keys the client supplied win: [peerId] and
    [isHub] are the server's only when the client's data has no such
    key. *)
Theorem announce_outward_client_keys_win now P msg resp s p0 :
  peerData s !! P = Some p0 →
  let N := firstNonEmpty (in_NetworkName msg) "global" in
  let isHub := announcedHubFlag (in_Data msg) in
  let data := match asMap (in_Data msg) with Some m => m | None => pi_Data p0 end in
  ∃ s' clientWrites d,
    handleAnnounce now P msg resp s
    = Ok (tt, s',
          clientWrites
          ++ ((λ ws, EvWriteJSONMap ws (discoveryPayload now P N isHub data))
                <$> connectedBootstrapSockets s))
    ∧ (∀ e, e ∈ clientWrites → ∃ c m, e = EvWriteMessage c m)
    ∧ discoveryPayload now P N isHub data !! "data" = Some (JObject d)
    ∧ discoveryPayload now P N isHub data !! "networkName" = Some (JString N)
    ∧ (∀ k v, data !! k = Some v → d !! k = Some v)
    ∧ (data !! "peerId" = None → d !! "peerId" = Some (JString P))
    ∧ (data !! "isHub" = None → d !! "isHub" = Some (JBool isHub)).
Proof.
  intros Hp N isHub data.
  destruct (announce_events now P msg resp s p0 Hp)
    as (s' & e1 & e2 & e3 & Hrun & He1 & He2 & He3).
  destruct (discoveryPayload_data now P N isHub data) as (d & Hd & Hkeys).
  exists s', (e1 ++ e2 ++ e3), d. split.
  { rewrite Hrun. by rewrite <- !app_assoc. }
  split.
  { intros e. rewrite !elem_of_app. intros [Hin|[Hin|Hin]].
    - apply He1 in Hin as (Q & c & set & _ & _ & _ & _ & _ & ->). by eexists _, _.
    - apply He2 in Hin as (Q & c & q & set & _ & _ & _ & _ & _ & _ & ->). by eexists _, _.
    - apply He3 in Hin as (id & d' & cache & c & _ & _ & _ & _ & ->). by eexists _, _. }
  split; [exact Hd|]. split.
  { unfold discoveryPayload. by rewrite !lookup_insert_ne, lookup_insert_eq by discriminate. }
  split; [|split].
  - intros k v Hk. by rewrite Hkeys, Hk.
  - intros Hk. rewrite Hkeys, Hk. apply lookup_insert_eq.
  - intros Hk. rewrite Hkeys, Hk. rewrite lookup_insert_ne by discriminate.
    apply lookup_singleton_eq.
Qed.

(** X12: A peer learned from a bootstrap link is told to a local peer that
    announces into the same network afterwards, as long as no local
    connection has that id. *)
Theorem remote_peer_is_backfilled now1 uri dmsg m now2 P amsg resp s p0 c :
  in_Type dmsg = "peer-discovered" →
  asMap (in_Data dmsg) = Some m →
  boolField m "isHub" = false →
  firstNonEmpty (in_NetworkName amsg) "global"
    = (if decide (in_NetworkName dmsg = "") then "global" else in_NetworkName dmsg) →
  peerData s !! P = Some p0 →
  wsConns s !! P = Some c →
  wsConns s !! stringField m "peerId" = None →
  ∃ s1 e1 s2 e2,
    handleBootstrapMessage now1 uri (Some dmsg) s = Ok (tt, s1, e1)
    ∧ handleAnnounce now2 P amsg resp s1 = Ok (tt, s2, e2)
    ∧ EvWriteMessage c
        (mkOutbound "peer-discovered"
           (JObject (mergeMap m {[ "peerId" := JString (stringField m "peerId") ]}))
           "system" P (firstNonEmpty (in_NetworkName amsg) "global") now2) ∈ e2.
Proof.
  intros Hty Hm Hhub HN Hp Hc Hid.
  destruct (bootstrap_discovery_run now1 uri dmsg m s Hty Hm Hhub) as (e1 & Hrun1).
  rewrite <- HN in Hrun1.
  set (N := firstNonEmpty (in_NetworkName amsg) "global") in *.
  set (s1 := set_crossHubCache _ s) in Hrun1.
  destruct (announce_events now2 P amsg resp s1 p0 Hp)
    as (s2 & a1 & a2 & a3 & Hrun2 & _ & _ & He3).
  eexists s1, e1, s2, _. split; [exact Hrun1|]. split; [exact Hrun2|].
  apply elem_of_app. right. apply elem_of_app. right. apply elem_of_app. left.
  apply He3. eexists (stringField m "peerId"), m, _, c. fold N.
  split; [subst s1; simpl; apply lookup_insert_eq|].
  split; [apply lookup_insert_eq|]. by repeat split.
Qed.

(** ** The life of a bootstrap link *)

(** X13: A dial that succeeds registers the link under its URI as connected,
    with the attempt number it was given, and uses the new socket for the
    hub's own announcement, then for one discovery per announced member of
    every membership set, before the read goroutine of the link starts.
    The registry of clients is as before. *)
Theorem connectToHub_opens_link now uri attempt u ws s :
  ¬ selfDial u s →
  ∃ replay,
    connectToHub_full now uri attempt (Some u) (Some ws) s
    = Ok (tt,
          set_bootstrapConns <[uri := mkBootstrapConn uri (Some ws) true now attempt]> s,
          EvDial (uri +:+ "?peerId=" +:+ hubPeerId s)
          :: EvWriteJSONMap ws
               {[ "type" := JString "announce";
                  "networkName" := JString (opt_HubMeshNamespace (opts s));
                  "data" := JObject
                    {[ "isHub" := JBool true;
                       "port" := JNumber (port s);
                       "host" := JString (opt_Host (opts s));
                       "capabilities" := JArray [JString "signaling"; JString "relay"];
                       "timestamp" := JNumber now ]} ]}
          :: replay ++ [EvGoReadLoop uri ws])
    ∧ ∀ e, e ∈ replay ↔
        ∃ N set P p, networkPeers s !! N = Some set ∧ P ∈ set
          ∧ peerData s !! P = Some p ∧ pi_Announced p = true
          ∧ e = EvWriteJSONMap ws
                  {[ "type" := JString "peer-discovered";
                     "data" := JObject
                       {[ "peerId" := JString P;
                          "isHub" := JBool (bool_decide
                                       (N = opt_HubMeshNamespace (opts s))) ]};
                     "networkName" := JString N;
                     "fromPeerId" := JString "system";
                     "timestamp" := JNumber now ]}.
Proof.
  intros Hself.
  set (s1 := set_bootstrapConns <[uri := mkBootstrapConn uri (Some ws) true now attempt]> s).
  destruct (announceLocalPeersToBootstrap_run now ws s1) as (replay & Hrun & Hreplay).
  exists replay. split; [|exact Hreplay].
  unfold connectToHub_full. run_handler. rewrite decide_False by done. simpl.
  unfold handleBootstrapOpen, sendAnnouncementToBootstrap. run_handler.
  fold s1. by rewrite Hrun.
Qed.

(** X14: When the read of a registered link fails, nothing is written or
    closed and the clients' registry is untouched.  The link stops
    receiving discoveries: the connected sockets afterwards are those of
    the other URIs.  A reconnection with the next attempt number is
    scheduled exactly when the server runs and the link's attempt number
    is below [MaxReconnectAttempts]; the entry is kept exactly then. *)
Theorem closed_link_is_skipped b s :
  bootstrapConns s !! bc_uri b = Some b →
  ∃ r s',
    handleBootstrapClose b s = Ok (r, s', [])
    ∧ sameRegistry s s'
    ∧ (∀ ws, ws ∈ connectedBootstrapSockets s' ↔
         ∃ uri b', uri ≠ bc_uri b ∧ bootstrapConns s !! uri = Some b'
           ∧ bc_connected b' = true ∧ bc_ws b' = Some ws)
    ∧ (∀ uri, uri ≠ bc_uri b → bootstrapConns s' !! uri = bootstrapConns s !! uri)
    ∧ (if running s && bool_decide (bc_attemptNum b < opt_MaxReconnectAttempts (opts s))%Z
       then r = Some (bc_uri b, (bc_attemptNum b + 1)%Z)
            ∧ bootstrapConns s' !! bc_uri b
              = Some (mkBootstrapConn (bc_uri b) (bc_ws b) false
                        (bc_lastAttempt b) (bc_attemptNum b))
       else r = None ∧ bootstrapConns s' !! bc_uri b = None).
Proof.
  intros Hb.
  set (b0 := mkBootstrapConn (bc_uri b) (bc_ws b) false (bc_lastAttempt b) (bc_attemptNum b)).
  assert (set_bootstrapConns (markDisconnected b) s
          = set_bootstrapConns (λ bs, <[bc_uri b := b0]> bs) s) as Hmark.
  { unfold set_bootstrapConns, markDisconnected. rewrite Hb.
    by rewrite (decide_True (P := bc_ws b = bc_ws b)). }
  assert (∀ m : gmap string bootstrapConn,
            (∀ uri, uri ≠ bc_uri b → m !! uri = bootstrapConns s !! uri) →
            (∀ b', m !! bc_uri b = Some b' → bc_connected b' = false) →
            ∀ ws, (∃ uri b', m !! uri = Some b' ∧ bc_connected b' = true ∧ bc_ws b' = Some ws)
              ↔ ∃ uri b', uri ≠ bc_uri b ∧ bootstrapConns s !! uri = Some b'
                  ∧ bc_connected b' = true ∧ bc_ws b' = Some ws) as Hothers.
  { intros m Hne Hat ws. split.
    - intros (uri & b' & Hl & Hc & Hws). destruct (decide (uri = bc_uri b)) as [->|Hu].
      + apply Hat in Hl. congruence.
      + rewrite Hne in Hl by done. by exists uri, b'.
    - intros (uri & b' & Hu & Hl & Hc & Hws). exists uri, b'. by rewrite Hne. }
  destruct (running s && _) eqn:Hcond.
  - exists (Some (bc_uri b, (bc_attemptNum b + 1)%Z)),
      (set_bootstrapConns (λ bs, <[bc_uri b := b0]> bs) s).
    split.
    { unfold handleBootstrapClose. run_handler. rewrite Hcond. fold (markDisconnected b).
      by rewrite Hmark. }
    split; [done|]. split.
    { intros ws. rewrite elem_of_connectedBootstrapSockets. simpl. apply Hothers.
      - intros uri Hu. by rewrite lookup_insert_ne.
      - intros b'. rewrite lookup_insert_eq. by intros [= <-]. }
    split; [by intros uri Hu; simpl; rewrite lookup_insert_ne|].
    split; [done|]. simpl. apply lookup_insert_eq.
  - exists None,
      (set_bootstrapConns (delete (bc_uri b))
         (set_bootstrapConns (λ bs, <[bc_uri b := b0]> bs) s)).
    split.
    { unfold handleBootstrapClose. run_handler. rewrite Hcond. fold (markDisconnected b).
      by rewrite Hmark. }
    split; [done|]. split.
    { intros ws. rewrite elem_of_connectedBootstrapSockets. simpl. apply Hothers.
      - intros uri Hu. by rewrite lookup_delete_ne, lookup_insert_ne.
      - intros b'. by rewrite lookup_delete_eq. }
    split; [by intros uri Hu; simpl; rewrite lookup_delete_ne, lookup_insert_ne|].
    split; [done|]. simpl. apply lookup_delete_eq.
Qed.

Lemma handleBootstrapClose_stopped b s :
  running s = false → bootstrapConns s = ∅ →
  handleBootstrapClose b s = Ok (None, s, []).
Proof.
  intros Hrun Hbs. unfold handleBootstrapClose. run_handler. rewrite Hrun. simpl.
  destruct s. unfold set_bootstrapConns, markDisconnected. simpl in *. subst.
  rewrite lookup_empty. by rewrite delete_empty.
Qed.

(** X15: [Stop] closes the socket of every bootstrap link and forgets the
    links; client sockets are neither closed nor unregistered.  On the
    stopped server the close of any link schedules no reconnection. *)
Theorem Stop_closes_links_only s :
  ∃ s' closes,
    Stop s = Ok (tt, s', closes)
    ∧ sameRegistry s s'
    ∧ running s' = false
    ∧ bootstrapConns s' = ∅
    ∧ (∀ e, e ∈ closes ↔
         ∃ uri b ws, bootstrapConns s !! uri = Some b ∧ bc_ws b = Some ws ∧ e = EvClose ws)
    ∧ ∀ b, handleBootstrapClose b s' = Ok (None, s', []).
Proof.
  unfold Stop. run_handler. rewrite disconnectBootstrap_run. simpl.
  eexists _, _. split; [reflexivity|]. split; [done|]. split; [done|]. split; [done|].
  split.
  - intros e. rewrite list_elem_of_omap. split.
    + intros ([uri b] & Hin & Hsel). apply elem_of_map_to_list in Hin.
      destruct (bc_ws b) as [ws|] eqn:Hws; [|done]. injection Hsel as <-.
      by exists uri, b, ws.
    + intros (uri & b & ws & Hb & Hws & ->). exists (uri, b).
      split; [by apply elem_of_map_to_list|]. by rewrite Hws.
  - intros b. by apply handleBootstrapClose_stopped.
Qed.

(** ** Signaling: delivery, relay and expiry *)

(** X16: A signaling message for a target that is connected on this hub, in
    the network the message names, is written once, on the target's
    socket; no bootstrap link sees it and no fingerprint is recorded.
    Nothing is asked of the sender: it need not have announced. *)
Theorem signaling_local_delivery now P msg s c :
  isSignalingType (in_Type msg) →
  in_TargetPeer msg ≠ "" →
  wsConns s !! in_TargetPeer msg = Some c →
  firstNonEmpty (in_NetworkName msg) "global"
    = targetNetwork (peerData s !! in_TargetPeer msg) →
  handleMessage now P (Some msg) s
  = Ok (tt, set_peerData (alter (touch now) P) s,
        [EvWriteMessage c (response now P msg)]).
Proof.
  intros Hty Htarget Hc Hnet. rewrite handleMessage_signaling by done.
  assert (∀ s0, wsConns s0 = wsConns s →
            targetNetwork (peerData s0 !! in_TargetPeer msg)
            = targetNetwork (peerData s !! in_TargetPeer msg) →
            handleSignaling now P msg (response now P msg) s0
            = Ok (tt, s0, [EvWriteMessage c (response now P msg)])) as Hdeliver.
  { intros s0 Hws Htn. unfold handleSignaling. rewrite decide_False by done.
    run_handler. unfold getConn, getPeerInfo, gets. rewrite Hws, Hc. simpl.
    rewrite Htn. rewrite decide_False by (intros Hne; by apply Hne).
    unfold forwardToLocalTarget, getConn, gets, sendToConn. run_handler.
    by rewrite Hws, Hc. }
  apply Hdeliver; [done|apply touch_networkName].
Qed.

Lemma sub64_range (a b : Z) :
  (- 2 ^ 63 ≤ a - b < 2 ^ 63)%Z → Go.sub64 a b = (a - b)%Z.
Proof.
  intros Hd. unfold Go.sub64, Go.wrap64.
  change (2 ^ 63)%Z with 9223372036854775808%Z in *.
  change (2 ^ 64)%Z with 18446744073709551616%Z.
  rewrite Z.mod_small; lia.
Qed.

(** X17: A cleanup tick writes nothing and removes no peer, however long the
    peer has been silent: connections, records, memberships, hub table,
    links and cache are as before.  Of the relay fingerprints it keeps
    exactly those whose age, in [int64] arithmetic, is at most 5000 ms. *)
Theorem cleanup_only_expires_fingerprints now s :
  ∃ s',
    performCleanup now s = Ok (tt, s', [])
    ∧ sameRegistry s s'
    ∧ bootstrapConns s' = bootstrapConns s
    ∧ crossHubCache s' = crossHubCache s
    ∧ ∀ id ts, relayed s' !! id = Some ts
        ↔ relayed s !! id = Some ts ∧ (Go.sub64 now ts ≤ 5000)%Z.
Proof.
  rewrite performCleanup_run. eexists. split; [reflexivity|].
  split; [done|]. split; [done|]. split; [done|].
  intros id ts. simpl. rewrite map_lookup_filter_Some. simpl. split.
  - intros [Hl Hage]. split; [done|lia].
  - intros [Hl Hage]. split; [done|lia].
Qed.

(** X18: Once a cleanup tick has fired more than five seconds after a relay,
    the same message is relayed again. *)
Theorem relay_again_after_expiry now1 tick now2 P msg s :
  isSignalingType (in_Type msg) →
  in_TargetPeer msg ≠ "" →
  wsConns s !! in_TargetPeer msg = None →
  relayed s !! relayId P msg = None →
  (5000 < tick - now1 < 2 ^ 63)%Z →
  ∃ s3,
    run [(now1, Frame P (Some msg)); (tick, Tick); (now2, Frame P (Some msg))] s
    = Ok (tt, s3,
          ((λ ws, EvWriteJSONMsg ws (response now1 P msg)) <$> connectedBootstrapSockets s)
          ++ ((λ ws, EvWriteJSONMsg ws (response now2 P msg)) <$> connectedBootstrapSockets s))
    ∧ relayed s3 !! relayId P msg = Some now2.
Proof.
  intros Hty Htarget Hconn Hfresh Htick.
  assert (∀ now s0, wsConns s0 !! in_TargetPeer msg = None →
            relayed s0 !! relayId P msg = None →
            handleMessage now P (Some msg) s0
            = Ok (tt, set_relayed <[relayId P msg:=now]>
                        (set_peerData (alter (touch now) P) s0),
                  (λ ws, EvWriteJSONMsg ws (response now P msg))
                    <$> connectedBootstrapSockets s0)) as Hrelay.
  { intros now s0 Hc Hr. rewrite handleMessage_signaling by done.
    unfold handleSignaling. rewrite decide_False by done.
    run_handler. unfold getConn, gets. simpl. rewrite Hc. simpl. rewrite Hr.
    by rewrite forwardSignalToBootstrap_run. }
  simpl. unfold step.
  rewrite (bind_run _ _ _ _ _ _ (Hrelay now1 s Hconn Hfresh)).
  rewrite (bind_run _ _ _ _ _ _ (performCleanup_run tick _)).
  set (s2 := set_relayed _ (set_relayed _ _)).
  assert (relayed s2 !! relayId P msg = None) as Hgone.
  { subst s2. simpl. apply map_lookup_filter_None. right. intros ts.
    rewrite lookup_insert_eq. intros [= <-]. simpl.
    rewrite sub64_range by lia. lia. }
  rewrite (bind_run _ _ _ _ _ _ (Hrelay now2 s2 Hconn Hgone)).
  eexists. split; [run_handler; by rewrite !app_nil_r|].
  simpl. apply lookup_insert_eq.
Qed.

(** X19: A message relayed while no bootstrap link is connected reaches no
    hub, and its fingerprint is recorded all the same: when a link opens
    and the message is sent again before a cleanup tick, the new link
    does not get it either. *)
Theorem relay_lost_without_link now1 now2 now3 uri attempt u ws P msg s :
  isSignalingType (in_Type msg) →
  in_TargetPeer msg ≠ "" →
  wsConns s !! in_TargetPeer msg = None →
  relayed s !! relayId P msg = None →
  connectedBootstrapSockets s = [] →
  ¬ selfDial u s →
  ∃ s3 evs,
    meshRun [(now1, Client (Frame P (Some msg)));
             (now2, ConnectHub uri attempt (Some u) (Some ws));
             (now3, Client (Frame P (Some msg)))] s
    = Ok (tt, s3, evs)
    ∧ ws ∈ connectedBootstrapSockets s3
    ∧ ∀ c m, (EvWriteJSONMsg c m ∉ evs) ∧ (EvWriteMessage c m ∉ evs).
Proof.
  intros Hty Htarget Hconn Hfresh Hnone Hself.
  set (s1 := set_relayed <[relayId P msg:=now1]> (set_peerData (alter (touch now1) P) s)).
  assert (handleMessage now1 P (Some msg) s = Ok (tt, s1, [])) as H1.
  { rewrite handleMessage_signaling by done.
    unfold handleSignaling. rewrite decide_False by done.
    run_handler. unfold getConn, gets. simpl. rewrite Hconn. simpl. rewrite Hfresh.
    rewrite forwardSignalToBootstrap_run.
    change (connectedBootstrapSockets _) with (connectedBootstrapSockets s).
    by rewrite Hnone. }
  assert (¬ selfDial u s1) as Hself1 by done.
  set (s2 := set_bootstrapConns <[uri := mkBootstrapConn uri (Some ws) true now2 attempt]> s1).
  assert (∃ e2, connectToHub_full now2 uri attempt (Some u) (Some ws) s1 = Ok (tt, s2, e2)
            ∧ ∀ c m, (EvWriteJSONMsg c m ∉ e2) ∧ (EvWriteMessage c m ∉ e2)) as (e2 & H2 & He2).
  { destruct (announceLocalPeersToBootstrap_run now2 ws s2) as (replay & Hrun & Hreplay).
    eexists. split.
    { unfold connectToHub_full. run_handler. rewrite decide_False by done. simpl.
      unfold handleBootstrapOpen, sendAnnouncementToBootstrap. run_handler.
      fold s1 s2. rewrite Hrun. reflexivity. }
    intros c m. split; intros Hin.
    all: apply elem_of_cons in Hin as [Hin|Hin]; [done|].
    all: apply elem_of_app in Hin as [Hin|Hin];
      [|by apply list_elem_of_singleton in Hin].
    all: apply elem_of_cons in Hin as [Hin|Hin]; [done|].
    all: by apply Hreplay in Hin as (? & ? & ? & ? & _ & _ & _ & _ & ?). }
  assert (handleMessage now3 P (Some msg) s2
          = Ok (tt, set_peerData (alter (touch now3) P) s2, [])) as H3.
  { rewrite handleMessage_signaling by done.
    unfold handleSignaling. rewrite decide_False by done.
    run_handler. unfold getConn, gets. simpl. rewrite Hconn. simpl.
    by rewrite lookup_insert_eq. }
  eexists _, _. split.
  { simpl. unfold meshStep, step.
    rewrite (bind_run _ _ _ _ _ _ H1), (bind_run _ _ _ _ _ _ H2),
      (bind_run _ _ _ _ _ _ H3).
    run_handler. reflexivity. }
  split.
  { apply elem_of_connectedBootstrapSockets. eexists uri, _. simpl.
    split; [apply lookup_insert_eq|done]. }
  intros c m. rewrite !app_nil_r. simpl. apply He2.
Qed.

(** ** Disconnection *)

(** X20: When the read of a connection fails, every other connection of the
    hub, in whatever network, is told [peer-disconnected] with the peer's
    id, hub flag and the close reason; the bootstrap links are not told.
    The connection and the record of the peer are removed. *)
Theorem disconnect_told_to_every_connection now P code reason s :
  let netName :=
    match peerData s !! P with
    | Some p => firstNonEmpty (pi_NetworkName p) "global"
    | None => "global"
    end in
  let isHub := match peerData s !! P with Some p => pi_IsHub p | None => false end in
  ∃ s' evs,
    handleDisconnect now P code reason s = Ok (tt, s', evs)
    ∧ wsConns s' = delete P (wsConns s)
    ∧ peerData s' = delete P (peerData s)
    ∧ bootstrapConns s' = bootstrapConns s
    ∧ ∀ e, e ∈ evs ↔
        ∃ Q c, Q ≠ P ∧ wsConns s !! Q = Some c
          ∧ e = EvWriteMessage c
                  (mkOutbound "peer-disconnected"
                     (JObject {[ "peerId" := JString P; "isHub" := JBool isHub;
                                 "reason" := JString reason;
                                 "timestamp" := JNumber now ]})
                     "system" Q netName now).
Proof.
  intros netName isHub.
  unfold handleDisconnect, getPeerInfo. run_handler. fold netName isHub.
  match goal with
  | |- context [broadcastToOthers P ?m s] =>
      destruct (broadcastToOthers_run P m s) as (n & evs & -> & Hevs)
  end.
  destruct (cleanupPeer_spec P s) as (s' & -> & Hws & Hpd & _ & Hbs & _).
  exists s', evs. split; [by rewrite app_nil_r|]. do 3 (split; [done|]).
  exact Hevs.
Qed.

(** ** Admission *)

Lemma prefix_app pre t : String.prefix pre (pre +:+ t) = true.
Proof.
  induction pre as [|a pre IH]; simpl; [by destruct t|].
  by destruct (Ascii.ascii_dec a a).
Qed.

Lemma substring_all s : String.substring 0 (String.length s) s = s.
Proof. induction s as [|a s IH]; simpl; [done|]. by rewrite IH. Qed.

Lemma substring_app pre t :
  String.substring (String.length pre)
    (String.length (pre +:+ t) - String.length pre) (pre +:+ t) = t.
Proof.
  induction pre as [|a pre IH]; simpl.
  - change ("" +:+ t) with t. rewrite Nat.sub_0_r. apply substring_all.
  - apply IH.
Qed.

Lemma prefix_split pre s :
  String.prefix pre s = true →
  s = pre +:+ String.substring (String.length pre) (String.length s - String.length pre) s.
Proof.
  revert s. induction pre as [|a pre IH]; intros s; simpl.
  - intros _. rewrite Nat.sub_0_r. by rewrite substring_all.
  - destruct s as [|b s]; simpl; [done|].
    destruct (Ascii.ascii_dec a b) as [->|]; [|done].
    intros Hp. apply (f_equal (String b)), IH, Hp.
Qed.

(** The header check of [handleWS] passes exactly on "Bearer " followed
    by the token. *)
Lemma bearer_iff auth token :
  Go.HasPrefix auth "Bearer " = true ∧ Go.TrimPrefix auth "Bearer " = token
  ↔ auth = "Bearer " +:+ token.
Proof.
  unfold Go.TrimPrefix, Go.HasPrefix. split.
  - intros [Hp Ht]. rewrite Hp in Ht. rewrite <- Ht. by apply prefix_split.
  - intros ->. split; [apply prefix_app|].
    rewrite prefix_app. apply (substring_app "Bearer " token).
Qed.

Lemma unauthorized_iff token r :
  unauthorized token r = true
  ↔ token ≠ "" ∧ req_Authorization r ≠ "Bearer " +:+ token ∧ req_token r ≠ token.
Proof.
  unfold unauthorized. rewrite <- bearer_iff.
  destruct (decide (token ≠ "")) as [Ht|Ht]; [|split; [done|tauto]].
  destruct (Go.HasPrefix (req_Authorization r) "Bearer "); simpl.
  - destruct (bool_decide_reflect (Go.TrimPrefix (req_Authorization r) "Bearer " = token));
      simpl.
    + split; [done|]. intros (_ & Hne & _). by destruct Hne.
    + rewrite negb_true_iff, bool_decide_eq_false. split; [|tauto].
      intros Hq. split; [done|]. split; [|done]. by intros [_ ?].
  - rewrite negb_true_iff, bool_decide_eq_false. split; [|tauto].
    intros Hq. split; [done|]. split; [|done]. by intros [? _].
Qed.

(** X21: A request is answered 401, with nothing else done, exactly when a
    token is configured and neither the [Authorization] header is
    "Bearer " followed by the token nor the [token] query parameter is the
    token; it is answered 403 exactly when it passes that check and the
    peer id is not valid.  Either way the upgrade is not looked at. *)
Theorem handleWS_rejections now r up s :
  let token := opt_AuthToken (opts s) in
  (handleWS now r up s = Ok (tt, s, [EvHttpError 401 "unauthorized"])
   ↔ token ≠ "" ∧ req_Authorization r ≠ "Bearer " +:+ token ∧ req_token r ≠ token)
  ∧ (handleWS now r up s = Ok (tt, s, [EvHttpError 403 "invalid peerId"])
     ↔ ¬ (token ≠ "" ∧ req_Authorization r ≠ "Bearer " +:+ token ∧ req_token r ≠ token)
       ∧ validatePeerId (req_peerId r) = false).
Proof.
  intros token. rewrite <- (unauthorized_iff token r). subst token.
  unfold handleWS. run_handler.
  destruct (unauthorized (opt_AuthToken (opts s)) r) eqn:Hauth; simpl.
  { split; [done|]. split; [intros Heq; discriminate Heq|]. by intros [? _]. }
  destruct (validatePeerId (req_peerId r)) eqn:Hvalid; simpl.
  2: { split; [split; intros Heq; discriminate Heq|]. split; [done|]. by intros _. }
  destruct up as [c|]; simpl.
  2: { split; (split; [intros Heq; discriminate Heq|]); [done|by intros [_ ?]]. }
  destruct (wsConns s !! req_peerId r); simpl; case_decide; simpl.
  all: split; (split; [intros Heq; discriminate Heq|]); [done|by intros [_ ?]].
Qed.

(** X22: An admitted upgrade closes the socket the peer id held before, if
    any, installs the new socket and a fresh record (connected, not
    announced, in no network), greets the client and starts its read
    loop.  Memberships, hub table, fingerprints, links and cache are not
    touched: the memberships of an evicted connection outlive it. *)
Theorem handleWS_admits now r c s :
  unauthorized (opt_AuthToken (opts s)) r = false →
  validatePeerId (req_peerId r) = true →
  (Z.of_nat (size (delete (req_peerId r) (wsConns s))) < opt_MaxConnections (opts s))%Z →
  let P := req_peerId r in
  ∃ s',
    handleWS now r (Some c) s
    = Ok (tt, s',
          match wsConns s !! P with Some old => [EvClose old] | None => [] end
          ++ [EvWriteMessage c
                (mkOutbound "connected" (JObject {[ "peerId" := JString P ]})
                            "system" "" "global" now);
              EvGoReadLoop P c])
    ∧ wsConns s' = <[P := c]> (wsConns s)
    ∧ peerData s' = <[P := mkPeerInfo P now now (req_ClientIP r) true false 0 "" false ∅]>
                      (peerData s)
    ∧ networkPeers s' = networkPeers s ∧ hubs s' = hubs s ∧ relayed s' = relayed s
    ∧ bootstrapConns s' = bootstrapConns s ∧ crossHubCache s' = crossHubCache s.
Proof.
  intros Hauth Hvalid Hcap P. unfold handleWS. run_handler.
  rewrite Hauth, Hvalid. simpl. fold P in Hcap |- *.
  destruct (wsConns s !! P) as [old|] eqn:Hold; simpl.
  - rewrite decide_False by lia. simpl. eexists. split; [reflexivity|]. simpl.
    split; [apply insert_delete_eq|]. done.
  - rewrite delete_id in Hcap by done.
    rewrite decide_False by lia. simpl. eexists. split; [reflexivity|]. done.
Qed.

(** ** Frames that are answered or ignored *)

(** X23: A ping is answered with one pong on the sender's own socket. *)
Theorem ping_is_answered now P msg s c :
  in_Type msg = "ping" →
  wsConns s !! P = Some c →
  handleMessage now P (Some msg) s
  = Ok (tt, set_peerData (alter (touch now) P) s,
        [EvWriteMessage c
           (mkOutbound "pong" (JObject {[ "timestamp" := JNumber now ]})
                       "system" P "global" now)]).
Proof.
  intros Hty Hc. unfold handleMessage. run_handler. rewrite Hty.
  rewrite (decide_False (P := "ping" = "announce")) by done.
  rewrite (decide_False (P := "ping" = "goodbye")) by done.
  rewrite (decide_False (P := isSignalingType "ping")) by (by intros [?|[?|?]]).
  rewrite (decide_False (P := "ping" = "peer-discovered")) by done.
  rewrite (decide_True (P := "ping" = "ping")) by done.
  unfold handlePing, getConn, gets, sendToConn. run_handler. by rewrite Hc.
Qed.

(** X24: A frame that does not decode is dropped without a trace.  A frame of
    any type other than announce, goodbye, the three signaling types and
    ping (so also a [peer-discovered] or a [cleanup] sent by a client)
    writes nothing and changes only the sender's last-activity stamp. *)
Theorem unhandled_frames_write_nothing now P s :
  handleMessage now P None s = Ok (tt, s, [])
  ∧ ∀ msg,
      in_Type msg ≠ "announce" → in_Type msg ≠ "goodbye" →
      ¬ isSignalingType (in_Type msg) → in_Type msg ≠ "ping" →
      handleMessage now P (Some msg) s
      = Ok (tt, set_peerData (alter (touch now) P) s, []).
Proof.
  split; [done|]. intros msg Ha Hg Hs Hp.
  unfold handleMessage. run_handler.
  rewrite (decide_False (P := in_Type msg = "announce")) by done.
  rewrite (decide_False (P := in_Type msg = "goodbye")) by done.
  rewrite (decide_False (P := isSignalingType (in_Type msg))) by done.
  rewrite (decide_False (P := in_Type msg = "ping")) by done.
  by case_decide.
Qed.

(** ** The helpers *)

#[local] Instance strLe_total : Total Go.strLe.
Proof. intros a b. apply String.leb_total. Qed.

(** X25: [getActivePeers] lists each connected member of the network other
    than the excluded id once, in ascending order, and changes nothing. *)
Theorem getActivePeers_sorted exclude netName s :
  ∃ peers,
    getActivePeers exclude netName s = Ok (peers, s, [])
    ∧ Sorted Go.strLe peers
    ∧ NoDup peers
    ∧ ∀ Q, Q ∈ peers ↔
        Q ≠ exclude ∧ is_Some (wsConns s !! Q)
        ∧ ∃ set, networkPeers s !! netName = Some set ∧ Q ∈ set.
Proof.
  unfold getActivePeers. run_handler.
  destruct (networkPeers s !! netName) as [set|] eqn:Hset; simpl.
  - eexists. split; [reflexivity|]. split; [apply Sorted_merge_sort, _|]. split.
    { unfold Go.sortStrings. rewrite merge_sort_Permutation.
      apply NoDup_filter, NoDup_elements. }
    intros Q. rewrite elem_of_sortStrings, list_elem_of_filter, elem_of_elements.
    split; [intros [[??] ?]; eauto|].
    intros (? & ? & set' & [= <-] & ?). done.
  - exists []. split; [done|]. split; [constructor|]. split; [constructor|].
    intros Q. split; [by intros ?%elem_of_nil|]. by intros (_ & _ & set & ? & _).
Qed.

Lemma tryPortFrom_spec free port i n :
  match tryPortFrom free port i n with
  | Some p =>
      (port + i ≤ p < port + i + Z.of_nat n)%Z ∧ free p = true
      ∧ ∀ q, (port + i ≤ q < p)%Z → free q = false
  | None => ∀ q, (port + i ≤ q < port + i + Z.of_nat n)%Z → free q = false
  end.
Proof.
  revert i. induction n as [|n IH]; intros i; simpl; [intros q; lia|].
  destruct (free (port + i)%Z) eqn:Hfree.
  - split; [lia|]. split; [done|]. intros q. lia.
  - specialize (IH (i + 1)%Z). destruct (tryPortFrom free port (i + 1) n) as [p|].
    + destruct IH as (Hrange & Hp & Hless). split; [lia|]. split; [done|].
      intros q Hq. destruct (decide (q = port + i)%Z) as [->|]; [done|].
      apply Hless. lia.
    + intros q Hq. destruct (decide (q = port + i)%Z) as [->|]; [done|].
      apply IH. lia.
Qed.

(** X26: [tryPort] returns the lowest port of [port .. port+maxRetries] that
    can be bound, and fails exactly when none of them can. *)
Theorem tryPort_lowest_free free port maxRetries :
  match tryPort free port maxRetries with
  | Some p =>
      (port ≤ p ≤ port + maxRetries)%Z ∧ free p = true
      ∧ ∀ q, (port ≤ q < p)%Z → free q = false
  | None => ∀ q, (port ≤ q ≤ port + maxRetries)%Z → free q = false
  end.
Proof.
  unfold tryPort.
  pose proof (tryPortFrom_spec free port 0 (Z.to_nat (maxRetries + 1))) as Hspec.
  destruct (tryPortFrom free port 0 (Z.to_nat (maxRetries + 1))) as [p|].
  - destruct Hspec as (Hrange & Hp & Hless). split; [lia|]. split; [done|].
    intros q Hq. apply Hless. lia.
  - intros q Hq. apply Hspec. lia.
Qed.

Lemma length_string_of_list_ascii l :
  String.length (string_of_list_ascii l) = length l.
Proof. induction l as [|c l IH]; simpl; [done|]. by rewrite IH. Qed.

(** X27: With clock readings that are not negative, [generatePeerId] returns
    forty characters, the i-th being the hexadecimal digit of the i-th
    reading modulo 16. *)
Theorem generatePeerId_forty_hex (clock : nat → Z) :
  (∀ i, (i < 40)%nat → (0 ≤ clock i)%Z) →
  ∃ id,
    generatePeerId clock = Some id
    ∧ String.length id = 40%nat
    ∧ ∀ i, (i < 40)%nat →
        list_ascii_of_string id !! i
        = list_ascii_of_string chars !! Z.to_nat (clock i mod 16).
Proof.
  intros Hclock. unfold generatePeerId.
  set (f := λ i : nat,
    if decide (0 ≤ Z.rem (clock i) 16)%Z
    then list_ascii_of_string chars !! Z.to_nat (Z.rem (clock i) 16)
    else None).
  assert (∀ i, (i < 40)%nat →
            f i = list_ascii_of_string chars !! Z.to_nat (clock i mod 16)
            ∧ is_Some (f i)) as Hf.
  { intros i Hi. unfold f. specialize (Hclock i Hi).
    rewrite Z.rem_mod_nonneg by lia.
    pose proof (Z.mod_pos_bound (clock i) 16 ltac:(lia)) as Hb.
    rewrite decide_True by lia. split; [done|].
    apply lookup_lt_is_Some. change (length (list_ascii_of_string chars)) with 16%nat. lia. }
  destruct (mapM f (seq 0 40)) as [k|] eqn:Hk.
  - apply mapM_Some in Hk. exists (string_of_list_ascii k). split; [done|].
    pose proof (Forall2_length _ _ _ Hk) as Hlen. rewrite length_seq in Hlen.
    split; [by rewrite length_string_of_list_ascii|].
    intros i Hi. rewrite list_ascii_of_string_of_list_ascii.
    destruct (Hf i Hi) as [<- _].
    destruct (Forall2_lookup_l _ _ _ i i Hk) as (y & Hy & Hfy).
    { apply lookup_seq. lia. }
    by rewrite Hy, Hfy.
  - exfalso. apply mapM_None in Hk. apply Exists_exists in Hk as (i & Hi & Hnone).
    apply elem_of_seq in Hi. destruct (Hf i ltac:(lia)) as [_ [y Hy]]. congruence.
Qed.

(** X28: In the result of [mergeMap a b] a key has the value [b] gives it, and
    that of [a] when [b] has no such key. *)
Theorem mergeMap_lookup (a b : jmap) k :
  mergeMap a b !! k = match b !! k with Some v => Some v | None => a !! k end.
Proof.
  destruct (b !! k) as [v|] eqn:Hb.
  - by apply mergeMap_lookup_override.
  - by apply mergeMap_lookup_inherit.
Qed.

(** X29: On ASCII text [firstNonEmpty a b] is [b] when every byte of [a] is a
    tab, a line feed, a vertical tab, a form feed, a carriage return or a
    blank (so also when [a] is empty), and [a] otherwise. *)
Theorem firstNonEmpty_ascii_cases (a b : string) :
  Forall (λ c, Go.nonAscii c = false) (list_ascii_of_string a) →
  (Forall (λ c, Ascii.N_of_ascii c ∈ [9; 10; 11; 12; 13; 32]%N) (list_ascii_of_string a)
   → firstNonEmpty a b = b)
  ∧ (¬ Forall (λ c, Ascii.N_of_ascii c ∈ [9; 10; 11; 12; 13; 32]%N) (list_ascii_of_string a)
     → firstNonEmpty a b = a).
Proof.
  intros Hascii. rewrite firstNonEmpty_spec.
  pose proof (TrimSpace_ascii_empty a Hascii) as Hiff.
  assert (∀ c, Go.asciiSpace c = true ↔ Ascii.N_of_ascii c ∈ [9; 10; 11; 12; 13; 32]%N)
    as Hspace.
  { intros c. rewrite <- (bool_decide_eq_true (_ ∈ _)).
    assert (Go.asciiSpace c
            = bool_decide (Ascii.N_of_ascii c ∈ [9; 10; 11; 12; 13; 32]%N)) as ->; [|done].
    by destruct c as [[] [] [] [] [] [] [] []]; vm_compute. }
  assert (Forall (λ c, Go.asciiSpace c = true) (list_ascii_of_string a)
          ↔ Forall (λ c, Ascii.N_of_ascii c ∈ [9; 10; 11; 12; 13; 32]%N)
              (list_ascii_of_string a)) as Hall.
  { rewrite !Forall_forall. split; intros Hx c Hc; apply Hspace, Hx, Hc. }
  split; intros Hsp; case_decide; tauto.
Qed.

End Properties.

(** * The properties on examples *)

Section Examples.

Import Sample.

#[local] Existing Instance externals.

(** ** The library functions *)

Example TrimSpace_samples :
  Go.TrimSpace asciiOnly asciiOnly "  net 1 " = "net 1"
  ∧ Go.TrimSpace asciiOnly asciiOnly "   " = ""
  ∧ firstNonEmpty "" "global" = "global"
  ∧ firstNonEmpty "  " A = A
  ∧ firstNonEmpty " x" A = " x".
Proof. vm_compute. by repeat split. Qed.

Example splitHostPort_samples :
  Go.splitHostPort "localhost:3000" = ("localhost", "3000")
  ∧ Go.splitHostPort "localhost" = ("localhost", "")
  ∧ Go.splitHostPort "[::1]:8080" = ("::1", "8080")
  ∧ Go.splitHostPort "host:80a" = ("host:80a", "")
  ∧ Go.Itoa 3000 = "3000"
  ∧ Go.sortStrings ["b"; "ab"; "a"] = ["a"; "ab"; "b"].
Proof. vm_compute. by repeat split. Qed.

(** ** Network membership and removal *)

(** C1: after A announces into net1 and then into net2, A is still a
    member of net1 although its record names net2; after A disconnects,
    A has no record and is still a member of net1. *)
Theorem C1_stale_membership_after_reannounce :
  let trace := [(1%Z, Upgrade (req A) (Some 1));
                (2%Z, Frame A (Some (announce "net1")));
                (3%Z, Frame A (Some (announce "net2")))] in
  let s3 := after trace in
  let s4 := after (trace ++ [(4%Z, ReadError A "EOF")]) in
  networkPeers s3 !! "net1" = Some {[ A ]}
  ∧ pi_NetworkName <$> peerData s3 !! A = Some "net2"
  ∧ ¬ membershipConsistent s3
  ∧ (∃ evs, exec (trace ++ [(4%Z, ReadError A "EOF")]) server0 = Ok (tt, s4, evs))
  ∧ peerData s4 !! A = None
  ∧ networkPeers s4 !! "net1" = Some {[ A ]}
  ∧ ¬ absentEverywhere s4 A.
Proof.
  intros trace s3 s4.
  assert (networkPeers s3 !! "net1" = Some {[ A ]}) as H3 by (vm_compute; reflexivity).
  assert (pi_NetworkName <$> peerData s3 !! A = Some "net2") as Hrec
    by (vm_compute; reflexivity).
  assert (networkPeers s4 !! "net1" = Some {[ A ]}) as H4 by (vm_compute; reflexivity).
  split; [exact H3|]. split; [exact Hrec|]. split.
  { intros Hm. destruct (Hm "net1" {[ A ]} A H3) as (q & Hq & Hn).
    - by apply elem_of_singleton.
    - rewrite Hq in Hrec. simpl in Hrec. congruence. }
  split; [eexists; vm_compute; reflexivity|].
  split; [vm_compute; reflexivity|]. split; [exact H4|].
  intros [Hnet _]. apply (Hnet "net1" {[ A ]} H4). by apply elem_of_singleton.
Qed.

(** The same happens in the hub table: a hub that re-announces without
    the hub flag keeps its hub entry after it disconnects. *)
Lemma stale_hub_entry_after_reannounce :
  let s := after [(1%Z, Upgrade (req A) (Some 1));
                  (2%Z, Frame A (Some (announceAs "global" true)));
                  (3%Z, Frame A (Some (announceAs "global" false)));
                  (4%Z, ReadError A "EOF")] in
  peerData s !! A = None ∧ hub_PeerId <$> hubs s !! A = Some A.
Proof. vm_compute. by split. Qed.

(** ** Frames after a goodbye *)

(** C2: a goodbye followed by an announce on the same socket ends in a
    nil dereference: the goodbye removed the record, the socket stays
    open, and the announce reads [pi.Data] of the missing record. *)
Theorem C2_announce_after_goodbye_panics :
  let s1 := after [(1%Z, Upgrade (req A) (Some 1))] in
  wsConns s1 !! A = Some 1
  ∧ (∃ s2, readLoop A [(2%Z, ReadOk (Some goodbye))] s1 = Ok (tt, s2, [])
           ∧ peerData s2 !! A = None)
  ∧ readLoop A [(2%Z, ReadOk (Some goodbye)); (3%Z, ReadOk (Some (announce "global")))] s1
    = Panic.
Proof.
  intros s1. split; [vm_compute; reflexivity|]. split.
  - eexists. split; vm_compute; reflexivity.
  - vm_compute. reflexivity.
Qed.

(** ** Reconnection *)

(** C3: A connects on socket 1 and again on socket 2.  The server closes
    socket 1 and greets socket 2; when the read loop of socket 1 reports
    the close, A is left without connection and without record. *)
Theorem C3_reconnect_loses_new_connection :
  let twice := [(1%Z, Upgrade (req A) (Some 1)); (2%Z, Upgrade (req A) (Some 2))] in
  wsConns (after twice) !! A = Some 2
  ∧ EvClose 1 ∈ writes server0 twice
  ∧ (∃ m, EvWriteMessage 2 m ∈ writes server0 twice ∧ out_Type m = "connected")
  ∧ ∃ s evs, exec (twice ++ [(3%Z, ReadError A "use of closed network connection")]) server0
             = Ok (tt, s, evs)
      ∧ wsConns s !! A = None
      ∧ peerData s !! A = None.
Proof.
  intros twice. split; [vm_compute; reflexivity|]. split.
  { vm_compute. do 2 right. left. }
  split.
  { eexists. split; [vm_compute; do 3 right; left|reflexivity]. }
  eexists _, _. split; [vm_compute; reflexivity|]. split; vm_compute; reflexivity.
Qed.

(** ** Goodbye *)

(** C4 as written fails: A is in net1 and B in net2; A's goodbye reaches
    B, and what B receives has type goodbye. *)
Lemma C4_goodbye_counterexample :
  ¬ goodbyeScopedToNetwork
      (after (connected ++ [(3%Z, Frame A (Some (announce "net1")));
                            (4%Z, Frame B (Some (announce "net2")))]))
      5 A goodbye.
Proof.
  intros Hclaim.
  edestruct Hclaim as (s' & evs & Hrun & _ & Honly & _);
    [vm_compute; reflexivity|reflexivity|].
  vm_compute in Hrun. injection Hrun as _ <-.
  edestruct Honly as [Hty _]; [by left|]. discriminate Hty.
Qed.

Lemma C4_goodbye_forwarded_to_all_witness :
  in_Type goodbye = "goodbye"
  ∧ ∃ s' evs,
      handleMessage 5 A (Some goodbye)
        (after (connected ++ [(3%Z, Frame A (Some (announce "net1")));
                              (4%Z, Frame B (Some (announce "net2")))]))
      = Ok (tt, s', evs)
      ∧ EvWriteMessage 2 (with_TargetPeer (response 5 A goodbye) B) ∈ evs.
Proof.
  split; [reflexivity|].
  destruct (C4_goodbye_forwarded_to_all 5 A goodbye
              (after (connected ++ [(3%Z, Frame A (Some (announce "net1")));
                                    (4%Z, Frame B (Some (announce "net2")))]))
              eq_refl) as (s' & evs & Hrun & Hevs & _).
  exists s', evs. split; [exact Hrun|].
  apply Hevs. exists B, 2. split; [discriminate|]. split; [vm_compute|]; reflexivity.
Defined.

(** ** Signaling *)

(** C5 as written fails: B is connected and has not announced, so its
    recorded network is empty; an offer of A in network global is
    nevertheless delivered to B. *)
Lemma C5_unannounced_target_counterexample :
  ¬ dropsOnRecordedNetworkMismatch (after connected) 3 A (offerTo B "" "").
Proof.
  intros Hclaim.
  destruct (Hclaim 2 (mkPeerInfo B 2 2 "127.0.0.1" true false 0 "" false ∅))
    as (s' & Hrun & _);
    [vm_compute; reflexivity|vm_compute; reflexivity|vm_compute; discriminate|].
  vm_compute in Hrun. discriminate Hrun.
Qed.

Lemma C5_cross_network_drop_witness :
  isSignalingType (in_Type (offerTo B "" "net1"))
  ∧ wsConns (after (connected ++ [(3%Z, Frame B (Some (announce "net2")))])) !! B = Some 2
  ∧ handleMessage 4 A (Some (offerTo B "" "net1"))
      (after (connected ++ [(3%Z, Frame B (Some (announce "net2")))]))
    = Ok (tt, set_peerData (alter (touch 4) A)
                (after (connected ++ [(3%Z, Frame B (Some (announce "net2")))])), []).
Proof.
  split; [by left|]. split; [vm_compute; reflexivity|].
  apply (C5_cross_network_drop 4 A (offerTo B "" "net1")
           (after (connected ++ [(3%Z, Frame B (Some (announce "net2")))])) 2).
  - by left.
  - vm_compute; reflexivity.
  - vm_compute. discriminate.
Defined.

(** C6 as written fails: A's offer for the absent B was relayed at 1000
    and no cleanup tick has fired since.  The same offer sent at 20000
    and again at 21000 finds the old fingerprint both times, and the
    bootstrap link sees no frame at all. *)
Lemma C6_stale_fingerprint_counterexample :
  ¬ relayedOncePerLink
      (afterFrom linkedServer [(1%Z, Upgrade (req A) (Some 1));
                               (1000%Z, Frame A (Some (offerTo B "" "")))])
      20000 21000 A (offerTo B "" "").
Proof.
  intros Hclaim.
  destruct Hclaim as (s1 & e1 & s2 & e2 & H1 & H2 & Hcount);
    [by left|discriminate|vm_compute; reflexivity|lia|].
  rewrite handleMessage_relay_duplicate in H1;
    [|by left|discriminate|vm_compute; reflexivity|vm_compute; by eexists].
  injection H1 as <- <-.
  rewrite handleMessage_relay_duplicate in H2;
    [|by left|discriminate|vm_compute; reflexivity|vm_compute; by eexists].
  injection H2 as _ <-.
  specialize (Hcount 9).
  assert (connectedBootstrapSockets
            (afterFrom linkedServer [(1%Z, Upgrade (req A) (Some 1));
                                     (1000%Z, Frame A (Some (offerTo B "" "")))])
          = [9]) as Hlinks by (vm_compute; reflexivity).
  rewrite Hlinks in Hcount. discriminate Hcount. by left.
Qed.

(** A sends an offer for the absent B at 1000 and, with another
    [fromPeerId] and network but the same data, at 5000, with cleanup
    ticks at 2000 and 4000: the one bootstrap link sees one frame, and
    the fingerprint names the type, A, B and the hash of the data. *)
Lemma C6_relay_dedup_witness :
  ∃ s1 s2 s3,
    handleMessage 1000 A (Some (offerTo B "" ""))
      (afterFrom linkedServer [(1%Z, Upgrade (req A) (Some 1))])
    = Ok (tt, s1, [EvWriteJSONMsg 9 (response 1000 A (offerTo B "" ""))])
    ∧ relayed s1 !! ("offer:" +:+ A +:+ ":" +:+ B +:+ ":1") = Some 1000%Z
    ∧ run [(2000%Z, Tick); (4000%Z, Tick)] s1 = Ok (tt, s2, [])
    ∧ handleMessage 5000 A (Some (offerTo B B "net9")) s2 = Ok (tt, s3, []).
Proof.
  destruct (C6_relay_dedup 1000 [2000; 4000]%Z 5000 A (offerTo B "" "") (offerTo B B "net9")
              (afterFrom linkedServer [(1%Z, Upgrade (req A) (Some 1))]))
    as (s1 & s2 & H1 & Hrel & H2 & _ & H3).
  - by left.
  - discriminate.
  - vm_compute; reflexivity.
  - vm_compute; reflexivity.
  - reflexivity.
  - reflexivity.
  - reflexivity.
  - lia.
  - repeat constructor; lia.
  - exists s1, s2, (set_peerData (alter (touch 5000) A) s2).
    split; [rewrite H1; vm_compute; reflexivity|].
    split; [rewrite Hrel; vm_compute; reflexivity|].
    split; [exact H2|exact H3].
Defined.

(** ** The connection cap *)

Lemma C7_connection_cap_witness :
  opt_MaxConnections (opts tinyServer) = 1%Z
  ∧ size (wsConns (afterFrom tinyServer [(1%Z, Upgrade (req A) (Some 1))])) = 1
  ∧ handleWS 2 (req B) (Some 2) (afterFrom tinyServer [(1%Z, Upgrade (req A) (Some 1))])
    = Ok (tt, afterFrom tinyServer [(1%Z, Upgrade (req A) (Some 1))],
          [EvWriteControlClose 2 1008 "max connections"; EvClose 2]).
Proof.
  split; [reflexivity|]. split; [vm_compute; reflexivity|].
  apply (C7_connection_cap 2 (req B) 2
           (afterFrom tinyServer [(1%Z, Upgrade (req A) (Some 1))])).
  - vm_compute; reflexivity.
  - vm_compute; reflexivity.
  - vm_compute; reflexivity.
  - vm_compute. discriminate.
Defined.

(** ** The self-dial guard *)

(** C8: the hub is bound to localhost:3000 and its bootstrap list names
    ws://localhost:3000, which [url.Parse] turns into a URL whose [Host]
    is "localhost:3000".  The host name and the port of the parsed URI
    equal the bind host and the bound port, the guard does not hold, the
    URI is dialed and the link is registered. *)
Theorem C8_self_dial_not_skipped :
  Go.Hostname (Go.mkURL "ws" "localhost:3000") = opt_Host (opts hubServer)
  ∧ Go.Port (Go.mkURL "ws" "localhost:3000") = Go.Itoa (port hubServer)
  ∧ ¬ selfDial (Go.mkURL "ws" "localhost:3000") hubServer
  ∧ connectToHub 1000 "ws://localhost:3000" 0
      (Some (Go.mkURL "ws" "localhost:3000")) (Some 9) hubServer
    = Ok (tt,
          set_bootstrapConns
            <["ws://localhost:3000" :=
                mkBootstrapConn "ws://localhost:3000" (Some 9) true 1000 0]> hubServer,
          [EvDial "ws://localhost:3000?peerId=cccccccccccccccccccccccccccccccccccccccc"]).
Proof.
  split; [vm_compute; reflexivity|]. split; [vm_compute; reflexivity|].
  assert (¬ selfDial (Go.mkURL "ws" "localhost:3000") hubServer) as Hguard.
  { intros [Hhost _]. vm_compute in Hhost. discriminate Hhost. }
  split; [exact Hguard|]. by rewrite connectToHub_dials.
Qed.

(** ** Discovery payload *)

(** B is announced in global; A announces with data that names B as
    [peerId] and a string as [isHub].  What B receives names A and the
    flag [false]. *)
Lemma C9_peer_discovered_overrides_witness :
  ∃ p0,
    peerData (after (connected ++ [(3%Z, Frame B (Some (announce "global")))])) !! A = Some p0
    ∧ ∃ s' evs d,
        handleAnnounce 4 A forgedAnnounce (response 4 A forgedAnnounce)
          (after (connected ++ [(3%Z, Frame B (Some (announce "global")))]))
        = Ok (tt, s', evs)
        ∧ EvWriteMessage 2 (mkOutbound "peer-discovered" (JObject d) "system" B "global" 4)
            ∈ evs
        ∧ d !! "peerId" = Some (JString A)
        ∧ d !! "isHub" = Some (JBool false)
        ∧ d !! "name" = Some (JString "a").
Proof.
  eexists. split; [vm_compute; reflexivity|].
  edestruct (C9_peer_discovered_overrides 4 A forgedAnnounce (response 4 A forgedAnnounce)
               (after (connected ++ [(3%Z, Frame B (Some (announce "global")))])))
    as (s' & evs & Hrun & _); [vm_compute; reflexivity|].
  pose proof Hrun as Hval. vm_compute in Hval. injection Hval as <- <-.
  eexists _, _, _. split; [exact Hrun|]. split; [by left|].
  split; [|split]; vm_compute; reflexivity.
Defined.

(** ** The forwarded sender *)

(** A sends B an offer that names B itself as sender: B receives it so. *)
Lemma C10_forwarded_fromPeerId_witness :
  (in_Type (offerTo B B "") = "goodbye" ∨ isSignalingType (in_Type (offerTo B B "")))
  ∧ ∃ s' m,
      handleMessage 3 A (Some (offerTo B B "")) (after connected)
      = Ok (tt, s', [EvWriteMessage 2 m])
      ∧ out_FromPeerId m = B.
Proof.
  split; [right; by left|].
  destruct (C10_forwarded_fromPeerId 3 A (offerTo B B "") (after connected))
    as (s' & evs & Hrun & _); [right; by left|].
  pose proof Hrun as Hval. vm_compute in Hval. injection Hval as <- <-.
  eexists _, _. split; [exact Hrun|reflexivity].
Defined.

(** With an empty or blank sender the peer id of the connection is used. *)
Lemma blank_sender_is_connection_peer :
  writes (after connected) [(3%Z, Frame A (Some (offerTo B "  " "")))]
  = [EvWriteMessage 2
       (mkOutbound "offer" (JObject {[ "sdp" := JString "x" ]}) A B "global" 3)].
Proof. vm_compute. reflexivity. Qed.

End Examples.

(** * The hub mesh and the rest of the server on examples *)

Import Sample.
Import MeshSample.

#[local] Existing Instance externals.

Lemma reachable_connection_iff_record_witness :
  (is_Some (wsConns (mafter hubServer meshTrace) !! A)
   ↔ is_Some (peerData (mafter hubServer meshTrace) !! A))
  ∧ (is_Some (wsConns (mafter hubServer meshTrace) !! B)
     ↔ is_Some (peerData (mafter hubServer meshTrace) !! B)).
Proof.
  split.
  all: apply (reachable_connection_iff_record hubOptions C meshTrace
                (mafter hubServer meshTrace) (mwrites hubServer meshTrace)).
  all: vm_compute; reflexivity.
Defined.

Lemma reachable_within_cap_witness :
  ∃ n, connectionsSize (mafter hubServer meshTrace)
       = Ok (n, mafter hubServer meshTrace, [])
    ∧ (n ≤ Z.max 0 1000)%Z.
Proof.
  apply (reachable_within_cap hubOptions C meshTrace
           (mafter hubServer meshTrace) (mwrites hubServer meshTrace)).
  vm_compute. reflexivity.
Defined.

Lemma reachable_announced_is_member_witness :
  ∃ p, peerData (mafter hubServer meshTrace) !! A = Some p
    ∧ pi_Announced p = true
    ∧ pi_NetworkName p ≠ ""
    ∧ ∃ set, networkPeers (mafter hubServer meshTrace) !! pi_NetworkName p = Some set
        ∧ A ∈ set.
Proof.
  eexists. split; [vm_compute; reflexivity|]. split; [reflexivity|].
  eapply (reachable_announced_is_member hubOptions C meshTrace
            (mafter hubServer meshTrace) (mwrites hubServer meshTrace) A).
  - vm_compute. reflexivity.
  - vm_compute. reflexivity.
  - reflexivity.
Defined.

Lemma reachable_hub_flag_has_entry_witness :
  is_Some (hubs (mafter hubServer meshTrace) !! A).
Proof.
  eapply (reachable_hub_flag_has_entry hubOptions C meshTrace
            (mafter hubServer meshTrace) (mwrites hubServer meshTrace) A).
  - vm_compute. reflexivity.
  - vm_compute. reflexivity.
  - reflexivity.
Defined.


(** ** Frames from a bootstrap link *)

(** hub-b tells of C in net1: B, the one local member of net1, is told;
    hub-c is told; hub-b gets its echo. *)
Lemma bootstrap_discovery_routing_witness :
  ∃ s' local others echo,
    handleBootstrapMessage 10 hubB (Some (remoteDiscovery C "net1")) meshWithB
    = Ok (tt, s', local ++ others ++ [EvWriteJSONMap 8 echo])
    ∧ (∃ m, EvWriteMessage 2 m ∈ local)
    ∧ (∃ payload, EvWriteJSONMap 9 payload ∈ others)
    ∧ (∀ payload, EvWriteJSONMap 8 payload ∉ others).
Proof.
  destruct (bootstrap_discovery_routing 10 hubB (remoteDiscovery C "net1")
              {[ "peerId" := JString C; "isHub" := JBool false ]} meshWithB)
    as (local & others & Hrun & Hlocal & Hothers).
  - reflexivity.
  - reflexivity.
  - vm_compute. reflexivity.
  - assert (bootstrapConns meshWithB !! hubB = Some (mkBootstrapConn hubB (Some 8) true 0 0))
      as Hlink by (vm_compute; reflexivity).
    rewrite Hlink in Hrun.
    eexists _, local, others, _. split; [exact Hrun|]. split.
    { eexists. apply Hlocal. exists B, 2, {[ B ]}.
      split; [discriminate|]. split; [vm_compute; reflexivity|].
      split; [by apply elem_of_singleton|]. split; [vm_compute; reflexivity|reflexivity]. }
    split.
    { eexists. apply Hothers. eexists hubC, _, 9.
      split; [vm_compute; reflexivity|]. split; [discriminate|].
      split; [reflexivity|]. split; reflexivity. }
    intros payload Hin. apply Hothers in Hin as (u & b & ws & Hb & Hu & _ & Hws & Heq).
    injection Heq as <- _. 
    assert (bootstrapConns meshWithB
            = {[ hubB := mkBootstrapConn hubB (Some 8) true 0 0;
                 hubC := mkBootstrapConn hubC (Some 9) true 0 0 ]}) as Hbs
      by (vm_compute; reflexivity).
    rewrite Hbs in Hb. apply lookup_insert_Some in Hb as [[Heq _]|[_ Hb]];
      [exact (Hu (eq_sym Heq))|].
    apply lookup_singleton_Some in Hb as [_ <-]. simpl in Hws. discriminate Hws.
Defined.

Lemma bootstrap_frames_ignored_witness :
  handleBootstrapMessage 10 hubB (Some (mkInbound "connected" JNull "" "" "")) meshWithB
  = Ok (tt, meshWithB, []).
Proof.
  apply (bootstrap_frames_ignored 10 hubB (Some (mkInbound "connected" JNull "" "" ""))
           meshWithB).
  left. reflexivity.
Defined.

(** hub-b relays an offer of C for B that names another network than B's:
    B receives it, with the envelope as the link sent it. *)
Lemma bootstrap_signaling_delivery_witness :
  handleBootstrapMessage 10 hubB (Some (offerTo B C "net2")) meshWithB
  = Ok (tt, meshWithB,
        [EvWriteMessage 2
           (mkOutbound "offer" (JObject {[ "sdp" := JString "x" ]}) C B "net2" 10)]).
Proof.
  rewrite (bootstrap_signaling_delivery 10 hubB (offerTo B C "net2") meshWithB)
    by (by left).
  vm_compute. reflexivity.
Defined.

(** ** Announces on examples *)

(** B is announced in global; A connects and announces there: A is told
    of B. *)
Lemma announce_backfills_members_witness :
  ∃ s' evs d,
    handleAnnounce 4 A (announce "global") (response 4 A (announce "global"))
      (after (connected ++ [(3%Z, Frame B (Some (announceAs "global" true)))]))
    = Ok (tt, s', evs)
    ∧ EvWriteMessage 1
        (mkOutbound "peer-discovered" (JObject d) "system" A
           (firstNonEmpty (in_NetworkName (announce "global")) "global") 4) ∈ evs
    ∧ d !! "peerId" = Some (JString B)
    ∧ d !! "isHub" = Some (JBool true).
Proof.
  epose proof (announce_backfills_members 4 A (announce "global")
                 (response 4 A (announce "global"))
                 (after (connected ++ [(3%Z, Frame B (Some (announceAs "global" true)))]))
                 _ 1 B _ {[ B ]}) as Hthm.
  edestruct Hthm as (s' & evs & d & Hrun & Hin & Hid & Hhub & _).
  - vm_compute. reflexivity.
  - vm_compute. reflexivity.
  - discriminate.
  - vm_compute. reflexivity.
  - by apply elem_of_singleton.
  - vm_compute. eexists. reflexivity.
  - vm_compute. reflexivity.
  - exists s', evs, d. split; [exact Hrun|]. split; [exact Hin|]. split; [exact Hid|].
    exact Hhub.
Defined.

Lemma announce_writes_stay_in_network_witness :
  ∃ s' evs,
    handleAnnounce 4 A (announce "net1") (response 4 A (announce "net1"))
      (after (connected ++ [(3%Z, Frame B (Some (announce "net2")))]))
    = Ok (tt, s', evs)
    ∧ ∀ c m, EvWriteMessage c m ∈ evs → c = 1.
Proof.
  edestruct (announce_writes_stay_in_network 4 A (announce "net1")
               (response 4 A (announce "net1"))
               (after (connected ++ [(3%Z, Frame B (Some (announce "net2")))])))
    as (s' & evs & Hrun & Hevs).
  - vm_compute. reflexivity.
  - exists s', evs. split; [exact Hrun|]. intros c m Hin.
    destruct (Hevs c m Hin) as (_ & _ & [Hc|(Q & set & _ & Hset & _)]).
    + vm_compute in Hc. by injection Hc as <-.
    + vm_compute in Hset. discriminate Hset.
Defined.

(** A's announce names B as [peerId]: what the bootstrap link is sent
    names B. *)
Lemma announce_outward_client_keys_win_witness :
  ∃ s' clientWrites d,
    handleAnnounce 4 A forgedAnnounce (response 4 A forgedAnnounce)
      (afterFrom linkedServer [(1%Z, Upgrade (req A) (Some 1))])
    = Ok (tt, s',
          clientWrites
          ++ [EvWriteJSONMap 9
                (discoveryPayload 4 A "global" false
                   {[ "peerId" := JString B; "isHub" := JString "yes";
                      "name" := JString "a" ]})])
    ∧ discoveryPayload 4 A "global" false
        {[ "peerId" := JString B; "isHub" := JString "yes"; "name" := JString "a" ]}
      !! "data" = Some (JObject d)
    ∧ d !! "peerId" = Some (JString B)
    ∧ d !! "isHub" = Some (JString "yes").
Proof.
  edestruct (announce_outward_client_keys_win 4 A forgedAnnounce
               (response 4 A forgedAnnounce)
               (afterFrom linkedServer [(1%Z, Upgrade (req A) (Some 1))]))
    as (s' & cw & d & Hrun & _ & Hd & _ & Hkeys & _).
  - vm_compute. reflexivity.
  - exists s', cw, d. split; [|split; [exact Hd|split]].
    + rewrite Hrun. f_equal.
    + apply Hkeys. reflexivity.
    + apply Hkeys. reflexivity.
Defined.

(** hub-b tells of C in global while A is connected; A then announces
    into global and is told of C. *)
Lemma remote_peer_is_backfilled_witness :
  ∃ s1 e1 s2 e2 d,
    handleBootstrapMessage 3 hubB (Some (remoteDiscovery C ""))
      (afterFrom meshServer [(1%Z, Upgrade (req A) (Some 1))])
    = Ok (tt, s1, e1)
    ∧ handleAnnounce 4 A (announce "global") (response 4 A (announce "global")) s1
      = Ok (tt, s2, e2)
    ∧ EvWriteMessage 1
        (mkOutbound "peer-discovered" (JObject d) "system" A
           (firstNonEmpty (in_NetworkName (announce "global")) "global") 4) ∈ e2
    ∧ d !! "peerId" = Some (JString C).
Proof.
  epose proof (remote_peer_is_backfilled 3 hubB (remoteDiscovery C "")
                 {[ "peerId" := JString C; "isHub" := JBool false ]}
                 4 A (announce "global") (response 4 A (announce "global"))
                 (afterFrom meshServer [(1%Z, Upgrade (req A) (Some 1))]) _ 1) as Hthm.
  edestruct Hthm as (s1 & e1 & s2 & e2 & H1 & H2 & Hin).
  - reflexivity.
  - reflexivity.
  - vm_compute. reflexivity.
  - vm_compute. reflexivity.
  - vm_compute. reflexivity.
  - vm_compute. reflexivity.
  - vm_compute. reflexivity.
  - eexists s1, e1, s2, e2, _. split; [exact H1|]. split; [exact H2|].
    split; [exact Hin|]. apply mergeMap_lookup_override. vm_compute. reflexivity.
Defined.

(** ** Bootstrap links on examples *)

Lemma connectToHub_opens_link_witness :
  ¬ selfDial (Go.mkURL "ws" "hub-b:3000") meshWithB
  ∧ ∃ s' announcement replay,
      connectToHub_full 5 hubB 1 (Some (Go.mkURL "ws" "hub-b:3000")) (Some 7) meshWithB
      = Ok (tt, s',
            EvDial (hubB +:+ "?peerId=" +:+ C)
            :: EvWriteJSONMap 7 announcement :: replay ++ [EvGoReadLoop hubB 7])
      ∧ (∃ payload, EvWriteJSONMap 7 payload ∈ replay)
      ∧ bootstrapConns s' !! hubB = Some (mkBootstrapConn hubB (Some 7) true 5 1).
Proof.
  assert (¬ selfDial (Go.mkURL "ws" "hub-b:3000") meshWithB) as Hguard.
  { intros [Hhost _]. vm_compute in Hhost. discriminate Hhost. }
  split; [exact Hguard|].
  destruct (connectToHub_opens_link 5 hubB 1 (Go.mkURL "ws" "hub-b:3000") 7 meshWithB Hguard)
    as (replay & Hrun & Hreplay).
  eexists _, _, replay. split; [exact Hrun|]. split.
  - eexists. apply Hreplay. eexists "net1", {[ B ]}, B, _.
    split; [vm_compute; reflexivity|]. split; [by apply elem_of_singleton|].
    split; [vm_compute; reflexivity|]. split; reflexivity.
  - exact (lookup_insert_eq _ _ _).
Defined.

(** The link to hub-b breaks: hub-c alone stays connected, and a
    reconnection to hub-b is set for attempt 1. *)
Lemma closed_link_is_skipped_witness :
  ∃ s',
    handleBootstrapClose (mkBootstrapConn hubB (Some 8) true 0 0) meshServer
    = Ok (Some (hubB, 1%Z), s', [])
    ∧ (8 ∈ connectedBootstrapSockets meshServer)
    ∧ (8 ∉ connectedBootstrapSockets s')
    ∧ (9 ∈ connectedBootstrapSockets s').
Proof.
  destruct (closed_link_is_skipped (mkBootstrapConn hubB (Some 8) true 0 0) meshServer)
    as (r & s' & Hrun & _ & Hsockets & _ & Hr).
  - vm_compute. reflexivity.
  - vm_compute in Hr. destruct Hr as [-> _].
    exists s'. split; [exact Hrun|]. split; [|split].
    + apply elem_of_connectedBootstrapSockets.
      exists hubB, (mkBootstrapConn hubB (Some 8) true 0 0).
      split; [vm_compute; reflexivity|]. split; reflexivity.
    + intros (uri & b' & Hne & Hb & _ & Hws)%Hsockets.
      assert (bootstrapConns meshServer
              = {[ hubB := mkBootstrapConn hubB (Some 8) true 0 0;
                   hubC := mkBootstrapConn hubC (Some 9) true 0 0 ]}) as Hbs
        by (vm_compute; reflexivity).
      rewrite Hbs in Hb. apply lookup_insert_Some in Hb as [[Heq _]|[_ Hb]];
        [exact (Hne (eq_sym Heq))|].
      apply lookup_singleton_Some in Hb as [_ <-]. simpl in Hws. discriminate Hws.
    + apply Hsockets. exists hubC, (mkBootstrapConn hubC (Some 9) true 0 0).
      split; [discriminate|]. split; [vm_compute; reflexivity|]. split; reflexivity.
Defined.

(** ** Signaling on examples *)

(** B has connected and not announced; A, not announced either, sends B
    an offer: B receives it. *)
Lemma signaling_local_delivery_witness :
  handleMessage 3 A (Some (offerTo B "" "")) (after connected)
  = Ok (tt, set_peerData (alter (touch 3) A) (after connected),
        [EvWriteMessage 2 (response 3 A (offerTo B "" ""))]).
Proof.
  apply (signaling_local_delivery 3 A (offerTo B "" "") (after connected) 2).
  - by left.
  - discriminate.
  - vm_compute. reflexivity.
  - vm_compute. reflexivity.
Defined.

(** A sends the same offer for the absent B at 1000 and at 7000, with a
    cleanup tick at 6001: the bootstrap link sees it twice. *)
Lemma relay_again_after_expiry_witness :
  ∃ s3,
    run [(1000%Z, Frame A (Some (offerTo B "" "")));
         (6001%Z, Tick);
         (7000%Z, Frame A (Some (offerTo B "" "")))]
      (afterFrom linkedServer [(1%Z, Upgrade (req A) (Some 1))])
    = Ok (tt, s3,
          [EvWriteJSONMsg 9 (response 1000 A (offerTo B "" ""));
           EvWriteJSONMsg 9 (response 7000 A (offerTo B "" ""))]).
Proof.
  destruct (relay_again_after_expiry 1000 6001 7000 A (offerTo B "" "")
              (afterFrom linkedServer [(1%Z, Upgrade (req A) (Some 1))]))
    as (s3 & Hrun & _).
  - by left.
  - discriminate.
  - vm_compute. reflexivity.
  - vm_compute. reflexivity.
  - lia.
  - exists s3. rewrite Hrun. f_equal.
Defined.

(** A sends an offer for the absent B while the hub has no link, the
    link to hub-b opens, and A sends the offer again: hub-b never gets
    it. *)
Lemma relay_lost_without_link_witness :
  ∃ s3 evs,
    meshRun [(1000%Z, Client (Frame A (Some (offerTo B "" ""))));
             (2000%Z, ConnectHub hubB 0 (Some (Go.mkURL "ws" "hub-b:3000")) (Some 8));
             (3000%Z, Client (Frame A (Some (offerTo B "" ""))))]
      (afterFrom hubServer [(1%Z, Upgrade (req A) (Some 1))])
    = Ok (tt, s3, evs)
    ∧ 8 ∈ connectedBootstrapSockets s3
    ∧ ∀ c m, (EvWriteJSONMsg c m ∉ evs) ∧ (EvWriteMessage c m ∉ evs).
Proof.
  apply (relay_lost_without_link 1000 2000 3000 hubB 0 (Go.mkURL "ws" "hub-b:3000") 8 A
           (offerTo B "" "") (afterFrom hubServer [(1%Z, Upgrade (req A) (Some 1))])).
  - by left.
  - discriminate.
  - vm_compute. reflexivity.
  - vm_compute. reflexivity.
  - vm_compute. reflexivity.
  - intros [Hhost _]. vm_compute in Hhost. discriminate Hhost.
Defined.

(** ** Admission and frames on examples *)

Lemma handleWS_admits_witness :
  ∃ s',
    handleWS 1 (req A) (Some 1) server0
    = Ok (tt, s',
          [EvWriteMessage 1
             (mkOutbound "connected" (JObject {[ "peerId" := JString A ]})
                         "system" "" "global" 1);
           EvGoReadLoop A 1])
    ∧ wsConns s' !! A = Some 1
    ∧ (pi_Announced <$> peerData s' !! A) = Some false.
Proof.
  destruct (handleWS_admits 1 (req A) 1 server0) as (s' & Hrun & Hws & Hpd & _).
  - vm_compute. reflexivity.
  - vm_compute. reflexivity.
  - vm_compute. reflexivity.
  - exists s'. split; [exact Hrun|]. split.
    + rewrite Hws. apply lookup_insert_eq.
    + rewrite Hpd. by rewrite lookup_insert_eq.
Defined.

Lemma ping_is_answered_witness :
  handleMessage 3 A (Some (mkInbound "ping" JNull "" "" "")) (after connected)
  = Ok (tt, set_peerData (alter (touch 3) A) (after connected),
        [EvWriteMessage 1
           (mkOutbound "pong" (JObject {[ "timestamp" := JNumber 3 ]})
                       "system" A "global" 3)]).
Proof.
  apply (ping_is_answered 3 A (mkInbound "ping" JNull "" "" "") (after connected) 1).
  - reflexivity.
  - vm_compute. reflexivity.
Defined.

(** ** The helpers on examples *)

Lemma generatePeerId_forty_hex_witness :
  ∃ id,
    generatePeerId (λ i, Z.of_nat (7 * i + 3)) = Some id
    ∧ String.length id = 40
    ∧ list_ascii_of_string id !! 2 = list_ascii_of_string chars !! 1.
Proof.
  destruct (generatePeerId_forty_hex (λ i, Z.of_nat (7 * i + 3)))
    as (id & Hrun & Hlen & Hchars).
  - intros i _. lia.
  - exists id. split; [exact Hrun|]. split; [exact Hlen|].
    rewrite (Hchars 2) by lia. reflexivity.
Defined.

Lemma firstNonEmpty_ascii_cases_witness :
  firstNonEmpty "  " A = A ∧ firstNonEmpty " x" A = " x".
Proof.
  split.
  - apply (firstNonEmpty_ascii_cases "  " A).
    + repeat constructor.
    + repeat constructor; refine (bool_decide_unpack _ _); vm_compute; exact I.
  - apply (firstNonEmpty_ascii_cases " x" A).
    + repeat constructor.
    + intros Hall. inversion Hall as [|? ? _ Hrest]. inversion Hrest as [|? ? Hx _].
      apply (bool_decide_pack _) in Hx. vm_compute in Hx. exact Hx.
Defined.
